(** * pdf2img: the PDF to vertical image converter, embedded in Rocq

    A shallow embedding of [src/pdf2img.py].  The methods of
    [PDFConverterApp] that carry the logic of the program are embedded:

    - [start_conversion] (lines 134-169), the handler of the Convert button:
      it validates the request and drives the pipeline;
    - [pdf_to_vertical_image_with_gui_updates] (lines 171-264), the pipeline:
      open, select pages, rasterize, composite, save;
    - [browse_pdf] and [browse_output] (lines 102-128), the two file
      pickers, with the values the entries hold when the window opens.

    Python's exceptions are an error monad; every call that leaves the program
    (PyMuPDF, Pillow, Tk, print) is written to a trace, so that the order of
    the calls can be stated.  What PyMuPDF and Pillow answer is not part of
    the program: it is a parameter ([Library], [Document], [Page]), and every
    theorem holds for all of them. *)

From Stdlib Require Import List String Ascii ZArith QArith Lia Bool Arith.
From Stdlib Require Import DecimalString DecimalNat Sorted Lqa.
Import ListNotations.

Local Open Scope nat_scope.
Local Open Scope list_scope.

(** ** Python values *)

Module Py.

(** [str(n)] for a non-negative [int]. *)
Definition str_nat (n : nat) : string :=
  NilEmpty.string_of_uint (Nat.to_uint n).

(** [posixpath.basename]: what follows the last slash. *)
Fixpoint has_sep (p : string) : bool :=
  match p with
  | EmptyString => false
  | String c r => (c =? "/")%char || has_sep r
  end.

Fixpoint basename (p : string) : string :=
  match p with
  | EmptyString => EmptyString
  | String c r =>
      if has_sep r then basename r
      else if (c =? "/")%char then r else p
  end.

(** [not s] for a [str]. *)
Definition is_empty (s : string) : bool :=
  match s with EmptyString => true | _ => false end.

(** *** [int(s)] for an ASCII [str], base 10

    Surrounding whitespace is stripped; one sign is allowed; the digits may
    be grouped by single underscores.  Anything else is a [ValueError]
    ([None] here). *)

Definition is_space (c : ascii) : bool :=
  let n := nat_of_ascii c in
  ((9 <=? n) && (n <=? 13)) || ((28 <=? n) && (n <=? 32)).

Fixpoint lstrip (s : list ascii) : list ascii :=
  match s with
  | c :: r => if is_space c then lstrip r else s
  | [] => []
  end.

Definition strip (s : list ascii) : list ascii :=
  rev (lstrip (rev (lstrip s))).

Definition digit_value (c : ascii) : option Z :=
  let n := nat_of_ascii c in
  if (48 <=? n) && (n <=? 57) then Some (Z.of_nat (n - 48)) else None.

Fixpoint digits (acc : Z) (after_digit : bool) (s : list ascii) : option Z :=
  match s with
  | [] => if after_digit then Some acc else None
  | c :: r =>
      if (c =? "_")%char then
        if after_digit then digits acc false r else None
      else
        match digit_value c with
        | Some d => digits (10 * acc + d)%Z true r
        | None => None
        end
  end.

Definition int (s : string) : option Z :=
  match strip (list_ascii_of_string s) with
  | c :: r =>
      if (c =? "+")%char then digits 0 false r
      else if (c =? "-")%char then option_map Z.opp (digits 0 false r)
      else digits 0 false (c :: r)
  | [] => None
  end.

(** *** [posixpath] on a [str]: [dirname], [join], [splitext]

    [browse_pdf] and [browse_output] build the suggested output path with
    them. *)

(** [p[:p.rfind("/") + 1]]: the path up to and including its last slash. *)
Fixpoint head (p : string) : string :=
  match p with
  | EmptyString => EmptyString
  | String c r =>
      if has_sep r || (c =? "/")%char then String c (head r)
      else EmptyString
  end.

(** [s == "/" * len(s)] *)
Fixpoint all_sep (s : string) : bool :=
  match s with
  | EmptyString => true
  | String c r => (c =? "/")%char && all_sep r
  end.

(** [s.rstrip("/")] *)
Fixpoint rstrip_sep (s : string) : string :=
  match s with
  | EmptyString => EmptyString
  | String c r =>
      if (c =? "/")%char && all_sep r then EmptyString
      else String c (rstrip_sep r)
  end.

(** [posixpath.dirname]: the head, without its trailing slashes unless it is
    made of slashes only. *)
Definition dirname (p : string) : string :=
  let h := head p in
  if negb (is_empty h) && negb (all_sep h) then rstrip_sep h else h.

Definition starts_with_sep (s : string) : bool :=
  match s with String c _ => (c =? "/")%char | EmptyString => false end.

Fixpoint ends_with_sep (s : string) : bool :=
  match s with
  | EmptyString => false
  | String c EmptyString => (c =? "/")%char
  | String _ r => ends_with_sep r
  end.

(** [posixpath.join(a, b)] *)
Definition join (a b : string) : string :=
  if starts_with_sep b then b
  else if is_empty a || ends_with_sep a then (a ++ b)%string
  else (a ++ "/" ++ b)%string.

Fixpoint has_dot (s : string) : bool :=
  match s with
  | EmptyString => false
  | String c r => (c =? ".")%char || has_dot r
  end.

Fixpoint all_dots (s : string) : bool :=
  match s with
  | EmptyString => true
  | String c r => (c =? ".")%char && all_dots r
  end.

(** [(s[:i], s[i:])] for [i = s.rfind(".")]; all of [s] and nothing when
    [s] has no dot. *)
Fixpoint cut_at_last_dot (s : string) : string * string :=
  match s with
  | EmptyString => (EmptyString, EmptyString)
  | String c r =>
      if has_dot r then
        (String c (fst (cut_at_last_dot r)), snd (cut_at_last_dot r))
      else if (c =? ".")%char then (EmptyString, s)
      else (s, EmptyString)
  end.

(** [posixpath.splitext]: the extension starts at the last dot of the file
    name, unless only dots precede it there. *)
Definition splitext (p : string) : string * string :=
  let name := cut_at_last_dot (basename p) in
  if is_empty (snd name) || all_dots (fst name) then (p, EmptyString)
  else ((head p ++ fst name)%string, snd name).

End Py.

(** ** Exceptions

    The pipeline raises plain [Exception(message)]; one constructor per
    [raise] of the source, named after the failure it reports, and [str]
    gives the message.  [LibraryError] is an exception that comes out of
    PyMuPDF or Pillow, with its message. *)

Inductive Exn : Type :=
| LibraryError (msg : string)
| CannotOpenSource (pdf_path : string) (cause : Exn)   (* line 178 *)
| EmptySource (pdf_path : string)                      (* line 182 *)
| NoMatchingPages                                      (* line 198 *)
| NoPagesSelected                                      (* line 206 *)
| NoPagesRendered                                      (* line 246 *)
| CannotWriteDestination (cause : Exn).                (* line 264 *)

Fixpoint str (e : Exn) : string :=
  match e with
  | LibraryError msg => msg
  | CannotOpenSource pdf_path cause =>
      "Error opening PDF file '" ++ pdf_path ++ "': " ++ str cause
  | EmptySource pdf_path => "The PDF file '" ++ pdf_path ++ "' has no pages."
  | NoMatchingPages => "No pages containing images were found in the PDF."
  | NoPagesSelected => "No pages selected for processing."
  | NoPagesRendered => "No pages were successfully rendered."
  | CannotWriteDestination cause =>
      "Error saving the final image: " ++ str cause
  end%string.

Inductive Outcome (A : Type) : Type :=
| Returned (a : A)
| Raised (e : Exn).

Arguments Returned {A} a.
Arguments Raised {A} e.

(** ** What the libraries provide *)

(** The answer of a library call: a value, or an exception of the library. *)
Inductive Answer (A : Type) : Type :=
| Ok (a : A)
| Fails (msg : string).

Arguments Ok {A} a.
Arguments Fails {A} msg.

(** [load_page] is called once per page while scanning for images and once
    per selected page while rendering; the library keeps state between the
    two, so its answer is indexed by the pass. *)
Inductive Pass : Type := Scan | Render.

Record Pixmap : Type := {
  pix_width : nat;
  pix_height : nat;
  pix_samples : list Byte.byte
}.

Record Page : Type := {
  get_images : Answer (list nat);           (* the xrefs of the images *)
  get_pixmap : Q -> Answer Pixmap           (* by zoom factor *)
}.

Record Document : Type := {
  page_count : nat;
  load_page : Pass -> nat -> Answer Page
}.

(** A decoded page image (PIL, mode RGB). *)
Record Image : Type := {
  width : nat;
  height : nat;
  data : list Byte.byte
}.

Definition Color : Type := (nat * nat * nat)%type.

Record Paste : Type := {
  pasted : Image;
  at_x : Z;
  at_y : Z
}.

(** The output image: [Image.new] and the pastes made into it so far. *)
Record Canvas : Type := {
  canvas_mode : string;
  canvas_width : nat;
  canvas_height : nat;
  background : Color;
  pastes : list Paste
}.

Record Library : Type := {
  fitz_open : string -> Answer Document;
  Image_frombytes : string -> nat * nat -> list Byte.byte -> Answer Image;
  Image_save : Canvas -> string -> Answer unit
}.

(** ** Messages *)

(** The argument of [update_status]. *)
Inductive Message : Type :=
| PleaseWait                                            (* line 155 *)
| ConversionComplete                                    (* line 163 *)
| ErrorMessage (e : Exn)                                (* line 166 *)
| Scanning (base : string) (pages : nat)                (* line 184 *)
| FilteringPages                                        (* line 188 *)
| FoundPagesWithImages (found : nat)                    (* line 199 *)
| ProcessingPages (selected : nat)                      (* line 209 *)
| RenderedPage (rendered selected original : nat)       (* line 235 *)
| ErrorOnPage (original : nat)                          (* line 240 *)
| CreatingOutputImage (w h : nat)                       (* line 248 *)
| SavingImage.                                          (* line 259 *)

Definition text (m : Message) : string :=
  match m with
  | PleaseWait => "Processing... Please wait."
  | ConversionComplete => "Conversion complete!"
  | ErrorMessage e => "Error: " ++ str e
  | Scanning base pages =>
      "Scanning '" ++ base ++ "' (" ++ Py.str_nat pages ++ " pages)..."
  | FilteringPages => "Filtering pages: Checking for images..."
  | FoundPagesWithImages found =>
      "Found " ++ Py.str_nat found ++ " pages with images."
  | ProcessingPages selected =>
      "Processing " ++ Py.str_nat selected ++ " pages..."
  | RenderedPage rendered selected original =>
      "Rendered page " ++ Py.str_nat rendered ++ "/" ++ Py.str_nat selected
      ++ " (Original page " ++ Py.str_nat original ++ ")"
  | ErrorOnPage original =>
      "Error on page " ++ Py.str_nat original ++ ", skipping."
  | CreatingOutputImage w h =>
      "Creating output image (" ++ Py.str_nat w ++ "x" ++ Py.str_nat h
      ++ ")..."
  | SavingImage => "Saving image..."
  end%string.

(** What [status_var] holds after [update_status m] (line 131). *)
Definition status_text (m : Message) : string := ("Status: " ++ text m)%string.

(** Why the DPI entry was refused (lines 148-151). *)
Inductive ValueError : Type :=
| InvalidLiteral (s : string)      (* raised by [int(dpi_str)] *)
| DpiMustBePositive.               (* line 150 *)

(** The message boxes. *)
Inductive Dialog : Type :=
| SelectInputPdf                   (* line 141 *)
| SpecifyOutputPath                (* line 144 *)
| InvalidDpi (e : ValueError)      (* line 152 *)
| ConversionError (e : Exn)        (* line 165 *)
| Success (output_path : string).  (* line 162 *)

Definition is_error (d : Dialog) : bool :=
  match d with Success _ => false | _ => true end.

(** ** The trace: every call that leaves the program *)

Inductive Event : Type :=
| Call_fitz_open (pdf_path : string)
| Call_close
| Call_load_page (pass : Pass) (page_num : nat)
| Call_get_images (page_num : nat)
| Call_get_pixmap (page_num : nat) (zoom : Q)
| Call_frombytes (page_num : nat)
| Call_Image_new (mode : string) (w h : nat) (color : Color)
| Call_paste (img : Image) (x y : Z)
| Call_save (output_image_path : string)
| Set_progress (percentage : Q)
| Set_status (m : Message)
| Call_update_idletasks
| Call_print (page_num : nat) (e : Exn)
| Call_messagebox (d : Dialog)
| Config_convert_button (enabled : bool).

(** ** The monad: a trace and an outcome *)

Definition Action (A : Type) : Type := (list Event * Outcome A)%type.

Definition ret {A : Type} (a : A) : Action A := ([], Returned a).

Definition raise {A : Type} (e : Exn) : Action A := ([], Raised e).

Definition emit (ev : Event) : Action unit := ([ev], Returned tt).

(** A library call: the call is traced, the library answers. *)
Definition call {A : Type} (ev : Event) (answer : Answer A) : Action A :=
  ([ev],
   match answer with
   | Ok a => Returned a
   | Fails msg => Raised (LibraryError msg)
   end).

Definition bind {A B : Type} (m : Action A) (k : A -> Action B) : Action B :=
  match snd m with
  | Returned a => (fst m ++ fst (k a), snd (k a))
  | Raised e => (fst m, Raised e)
  end.

(** [try: m / except Exception as e: h e] *)
Definition try_except {A : Type} (m : Action A) (h : Exn -> Action A)
  : Action A :=
  match snd m with
  | Returned _ => m
  | Raised e => (fst m ++ fst (h e), snd (h e))
  end.

(** [try: m / finally: f] *)
Definition try_finally {A : Type} (m : Action A) (f : Action unit)
  : Action A :=
  match snd f with
  | Returned _ => (fst m ++ fst f, snd m)
  | Raised e => (fst m ++ fst f, Raised e)
  end.

Declare Scope action_scope.
Delimit Scope action_scope with action.

Notation "x <- m ;; k" := (bind m (fun x => k))
  (at level 61, m at next level, right associativity) : action_scope.
Notation "m ;; k" := (bind m (fun _ => k))
  (at level 61, right associativity) : action_scope.

Local Open Scope action_scope.

Definition trace {A : Type} (m : Action A) : list Event := fst m.
Definition outcome {A : Type} (m : Action A) : Outcome A := snd m.

(** ** The application *)

(** The Tk variables that [start_conversion] reads. *)
Record App : Type := {
  pdf_path_var : string;
  output_path_var : string;
  dpi_var : string;
  only_images_var : bool
}.

(** [update_status] (lines 130-132) *)
Definition update_status (message : Message) : Action unit :=
  emit (Set_status message) ;;
  emit Call_update_idletasks.

(** *** Page selection (lines 186-201) *)

Definition nonempty {A : Type} (l : list A) : bool :=
  match l with [] => false | _ :: _ => true end.

(** The scan loop (lines 189-192); [range] is what is left of
    [range(doc.page_count)]. *)
Fixpoint scan_pages (doc : Document) (range : list nat)
    (pages_to_process : list nat) : Action (list nat) :=
  match range with
  | [] => ret pages_to_process
  | page_num :: rest =>
      page <- call (Call_load_page Scan page_num)
                   (load_page doc Scan page_num) ;;
      images <- call (Call_get_images page_num) (get_images page) ;;
      scan_pages doc rest
        (if nonempty images then pages_to_process ++ [page_num]
         else pages_to_process)
  end.

Definition select_pages (doc : Document) (only_pages_with_images : bool)
  : Action (list nat) :=
  if only_pages_with_images then
    update_status FilteringPages ;;
    pages_to_process <- scan_pages doc (seq 0 (page_count doc)) [] ;;
    if nonempty pages_to_process then
      update_status (FoundPagesWithImages (List.length pages_to_process)) ;;
      ret pages_to_process
    else
      emit Call_close ;;
      raise NoMatchingPages
  else
    ret (seq 0 (page_count doc)).

(** *** Rasterization (lines 211-241) *)

(** The variables of the rendering loop. *)
Record Rendering : Type := {
  page_images : list Image;
  total_height : nat;
  max_width : nat;
  rendered_page_count : nat
}.

Definition rendering_start : Rendering :=
  {| page_images := []; total_height := 0; max_width := 0;
     rendered_page_count := 0 |}.

Definition zoom_of (dpi : Z) : Q := (inject_Z dpi / 72)%Q.

(** [(rendered_page_count / num_pages_to_render) * 100 * 0.9], as an exact
    rational. *)
Definition progress_percentage (rendered_page_count num_pages_to_render : nat)
  : Q :=
  (inject_Z (Z.of_nat rendered_page_count)
   / inject_Z (Z.of_nat num_pages_to_render) * 100 * 0.9)%Q.

(** The body of the [try] (lines 218-235).  Lines 231-232 assign
    [progress_percentage] to itself and leave no trace. *)
Definition render_page (lib : Library) (doc : Document) (dpi : Z)
    (num_pages_to_render : nat) (st : Rendering) (page_num : nat)
  : Action Rendering :=
  page <- call (Call_load_page Render page_num)
               (load_page doc Render page_num) ;;
  let zoom := zoom_of dpi in
  pix <- call (Call_get_pixmap page_num zoom) (get_pixmap page zoom) ;;
  img <- call (Call_frombytes page_num)
              (Image_frombytes lib "RGB" (pix_width pix, pix_height pix)
                 (pix_samples pix)) ;;
  let st' :=
    {| page_images := page_images st ++ [img];
       total_height := total_height st + height img;
       max_width := if max_width st <? width img then width img
                    else max_width st;
       rendered_page_count := rendered_page_count st + 1 |} in
  emit (Set_progress
          (progress_percentage (rendered_page_count st') num_pages_to_render)) ;;
  update_status
    (RenderedPage (rendered_page_count st') num_pages_to_render
       (page_num + 1)) ;;
  ret st'.

(** One turn of the loop: the [try] and its [except] (lines 217-241). *)
Definition render_or_skip (lib : Library) (doc : Document) (dpi : Z)
    (num_pages_to_render : nat) (st : Rendering) (page_num : nat)
  : Action Rendering :=
  try_except (render_page lib doc dpi num_pages_to_render st page_num)
    (fun e =>
       emit (Call_print (page_num + 1) e) ;;
       update_status (ErrorOnPage (page_num + 1)) ;;
       ret st).

Fixpoint render_pages (lib : Library) (doc : Document) (dpi : Z)
    (num_pages_to_render : nat) (pages_to_process : list nat)
    (st : Rendering) : Action Rendering :=
  match pages_to_process with
  | [] => ret st
  | page_num :: rest =>
      st' <- render_or_skip lib doc dpi num_pages_to_render st page_num ;;
      render_pages lib doc dpi num_pages_to_render rest st'
  end.

(** *** Compositing (lines 251-257) *)

Definition white : Color := (255, 255, 255).

Definition Image_new (mode : string) (w h : nat) (color : Color) : Canvas :=
  {| canvas_mode := mode; canvas_width := w; canvas_height := h;
     background := color; pastes := [] |}.

Definition paste (final_image : Canvas) (img : Image) (x y : Z) : Canvas :=
  {| canvas_mode := canvas_mode final_image;
     canvas_width := canvas_width final_image;
     canvas_height := canvas_height final_image;
     background := background final_image;
     pastes := pastes final_image
               ++ [{| pasted := img; at_x := x; at_y := y |}] |}.

Definition x_offset_of (max_width : nat) (img : Image) : Z :=
  ((Z.of_nat max_width - Z.of_nat (width img)) / 2)%Z.

(** The paste loop (lines 254-257); it yields the canvas and [current_y]. *)
Fixpoint paste_pages (max_width : nat) (page_images : list Image)
    (final_image : Canvas) (current_y : nat) : Action (Canvas * nat) :=
  match page_images with
  | [] => ret (final_image, current_y)
  | img :: rest =>
      let x_offset := x_offset_of max_width img in
      emit (Call_paste img x_offset (Z.of_nat current_y)) ;;
      paste_pages max_width rest
        (paste final_image img x_offset (Z.of_nat current_y))
        (current_y + height img)
  end.

(** *** The pipeline (lines 171-264) *)

Definition pdf_to_vertical_image_with_gui_updates (lib : Library)
    (pdf_path output_image_path : string) (dpi : Z)
    (only_pages_with_images : bool) : Action unit :=
  doc <- try_except (call (Call_fitz_open pdf_path) (fitz_open lib pdf_path))
           (fun e => raise (CannotOpenSource pdf_path e)) ;;
  if page_count doc =? 0 then
    emit Call_close ;;
    raise (EmptySource pdf_path)
  else
    update_status (Scanning (Py.basename pdf_path) (page_count doc)) ;;
    pages_to_process <- select_pages doc only_pages_with_images ;;
    let num_pages_to_render := List.length pages_to_process in
    if num_pages_to_render =? 0 then
      emit Call_close ;;
      raise NoPagesSelected
    else
      update_status (ProcessingPages num_pages_to_render) ;;
      st <- render_pages lib doc dpi num_pages_to_render pages_to_process
              rendering_start ;;
      emit Call_close ;;
      if nonempty (page_images st) then
        update_status
          (CreatingOutputImage (max_width st) (total_height st)) ;;
        emit (Set_progress 95) ;;
        emit (Call_Image_new "RGB" (max_width st) (total_height st) white) ;;
        let final_image :=
          Image_new "RGB" (max_width st) (total_height st) white in
        pasted <- paste_pages (max_width st) (page_images st) final_image 0 ;;
        let final_image := fst pasted in
        update_status SavingImage ;;
        try_except
          (call (Call_save output_image_path)
             (Image_save lib final_image output_image_path) ;;
           emit (Set_progress 100))
          (fun e => raise (CannotWriteDestination e))
      else
        raise NoPagesRendered.

(** *** The Convert button (lines 134-169) *)

(** Lines 147-151: [int(dpi_str)], then the sign test. *)
Definition parse_dpi (dpi_str : string) : ValueError + Z :=
  match Py.int dpi_str with
  | None => inl (InvalidLiteral dpi_str)
  | Some dpi => if (dpi <=? 0)%Z then inl DpiMustBePositive else inr dpi
  end.

(** Lines 155-157. *)
Definition prepare : Action unit :=
  update_status PleaseWait ;;
  emit (Config_convert_button false) ;;
  emit (Set_progress 0).

(** Lines 159-166: the pipeline under its [except Exception]. *)
Definition attempt (lib : Library) (pdf_path output_path : string) (dpi : Z)
    (only_with_images : bool) : Action unit :=
  try_except
    (pdf_to_vertical_image_with_gui_updates lib pdf_path output_path dpi
       only_with_images ;;
     emit (Call_messagebox (Success output_path)) ;;
     update_status ConversionComplete)
    (fun e =>
       emit (Call_messagebox (ConversionError e)) ;;
       update_status (ErrorMessage e)).

(** Lines 167-169: the [finally]. *)
Definition cleanup : Action unit :=
  emit (Config_convert_button true) ;;
  emit (Set_progress 0).

Definition start_conversion (lib : Library) (app : App) : Action unit :=
  let pdf_path := pdf_path_var app in
  let output_path := output_path_var app in
  let dpi_str := dpi_var app in
  let only_with_images := only_images_var app in
  if Py.is_empty pdf_path then
    emit (Call_messagebox SelectInputPdf)
  else if Py.is_empty output_path then
    emit (Call_messagebox SpecifyOutputPath)
  else
    match parse_dpi dpi_str with
    | inl e => emit (Call_messagebox (InvalidDpi e))
    | inr dpi =>
        prepare ;;
        try_finally
          (attempt lib pdf_path output_path dpi only_with_images)
          cleanup
    end.

(** *** The window when it opens (lines 49, 58, 67, 72) *)

Definition __init__ : App :=
  {| pdf_path_var := ""; output_path_var := ""; dpi_var := "150";
     only_images_var := false |}.

(** *** The file pickers (lines 102-128)

    The two Browse buttons talk to Tk only.  What the user answers in the
    file dialog is a parameter: the path chosen, or the empty string when
    the dialog is cancelled. *)

Inductive TkCall : Type :=
| Ask_open_filename                              (* line 103 *)
| Ask_save_as_filename (initialfile : string)    (* line 120 *)
| Status_var_set (value : string)                (* line 131 *)
| Update_idletasks.                              (* line 132 *)

(** [update_status] (lines 130-132) on the text of the message. *)
Definition show_status (message : string) : list TkCall :=
  [Status_var_set ("Status: " ++ message); Update_idletasks].

(** [os.path.splitext(os.path.basename(file_path))[0]] (lines 109, 117) *)
Definition base_name_of (file_path : string) : string :=
  fst (Py.splitext (Py.basename file_path)).

Definition browse_pdf (answer : string) (app : App) : list TkCall * App :=
  let file_path := answer in
  if Py.is_empty file_path then ([Ask_open_filename], app)
  else
    let base_name := base_name_of file_path in
    let suggested_output :=
      Py.join (Py.dirname file_path) (base_name ++ "_combined.png") in
    (Ask_open_filename
     :: show_status ("Selected PDF: " ++ Py.basename file_path),
     {| pdf_path_var := file_path; output_path_var := suggested_output;
        dpi_var := dpi_var app; only_images_var := only_images_var app |}).

Definition browse_output (answer : string) (app : App) : list TkCall * App :=
  let initial_file :=
    if Py.is_empty (pdf_path_var app) then ""%string
    else
      let base_name := base_name_of (pdf_path_var app) in
      (base_name ++ "_combined.png")%string in
  let file_path := answer in
  if Py.is_empty file_path then ([Ask_save_as_filename initial_file], app)
  else
    (Ask_save_as_filename initial_file
     :: show_status ("Output will be saved to: " ++ Py.basename file_path),
     {| pdf_path_var := pdf_path_var app; output_path_var := file_path;
        dpi_var := dpi_var app; only_images_var := only_images_var app |}).

(** ** Sample libraries and documents *)

Module Samples.

Definition pixmap (w h : nat) : Pixmap :=
  {| pix_width := w; pix_height := h; pix_samples := [] |}.

(** A page with the given image xrefs; it renders to the given size, or
    fails to render when there is none. *)
Definition page (xrefs : list nat) (size : option (nat * nat)) : Page :=
  {| get_images := Ok xrefs;
     get_pixmap := fun _ =>
       match size with
       | Some (w, h) => Ok (pixmap w h)
       | None => Fails "cannot render page"
       end |}.

(** A page whose image list cannot be read. *)
Definition unreadable_page : Page :=
  {| get_images := Fails "bad xref table";
     get_pixmap := fun _ => Ok (pixmap 600 800) |}.

Definition document (pages : list Page) : Document :=
  {| page_count := List.length pages;
     load_page := fun _ page_num =>
       match nth_error pages page_num with
       | Some p => Ok p
       | None => Fails "page not in document"
       end |}.

(** Every path opens [doc]; images decode to the size asked for; saving
    succeeds. *)
Definition library (doc : Document) : Library :=
  {| fitz_open := fun _ => Ok doc;
     Image_frombytes := fun _ size samples =>
       Ok {| width := fst size; height := snd size; data := samples |};
     Image_save := fun _ _ => Ok tt |}.

(** The same, on a disk that is full. *)
Definition library_disk_full (doc : Document) : Library :=
  {| fitz_open := fitz_open (library doc);
     Image_frombytes := Image_frombytes (library doc);
     Image_save := fun _ _ => Fails "No space left on device" |}.

(** Three pages of widths 800, 600, 800 and height 1000. *)
Definition three_pages : Document :=
  document [page [] (Some (800, 1000)); page [7] (Some (600, 1000));
            page [] (Some (800, 1000))].

(** Five pages; the third one fails to render. *)
Definition five_pages_third_fails : Document :=
  document [page [] (Some (600, 800)); page [] (Some (600, 800));
            page [] None; page [] (Some (500, 700));
            page [] (Some (600, 800))].

(** Two pages, neither of which renders. *)
Definition two_pages_none_renders : Document :=
  document [page [3] None; page [4] None].

(** Two pages; the image list of the second cannot be read. *)
Definition second_page_unreadable : Document :=
  document [page [5] (Some (600, 800)); unreadable_page].

Definition empty_document : Document := document [].

(** No file can be opened. *)
Definition library_no_file : Library :=
  {| fitz_open := fun _ => Fails "no such file";
     Image_frombytes := Image_frombytes (library empty_document);
     Image_save := fun _ _ => Ok tt |}.

End Samples.

(** * The vocabulary of the properties

    Readings of a trace, and what the phases of the pipeline compute when
    the trace is left out. *)

(** What a trace holds of one kind of event, in order. *)
Definition collect {A : Type} (f : Event -> option A)
  : list Event -> list A :=
  fix collect (t : list Event) : list A :=
    match t with
    | [] => []
    | ev :: rest =>
        match f ev with
        | Some a => a :: collect rest
        | None => collect rest
        end
    end.

(** The percentages pushed to the progress bar, in order. *)
Definition percentages : list Event -> list Q :=
  collect (fun ev => match ev with Set_progress p => Some p | _ => None end).

(** The pages the rendering loop tried to load, in order. *)
Definition render_attempts : list Event -> list nat :=
  collect (fun ev =>
             match ev with Call_load_page Render n => Some n | _ => None end).

(** The page numbers of the "Error on page N, skipping." updates, in order. *)
Definition error_notices : list Event -> list nat :=
  collect (fun ev =>
             match ev with Set_status (ErrorOnPage n) => Some n | _ => None end).

(** The canvases created: mode, width, height, fill. *)
Definition canvases : list Event -> list (string * nat * nat * Color) :=
  collect (fun ev =>
             match ev with
             | Call_Image_new mode w h color => Some (mode, w, h, color)
             | _ => None
             end).

(** The pastes made, in order. *)
Definition paste_calls : list Event -> list Paste :=
  collect (fun ev =>
             match ev with
             | Call_paste img x y =>
                 Some {| pasted := img; at_x := x; at_y := y |}
             | _ => None
             end).

Definition opens : list Event -> list string :=
  collect (fun ev => match ev with Call_fitz_open p => Some p | _ => None end).

Definition closes : list Event -> list unit :=
  collect (fun ev => match ev with Call_close => Some tt | _ => None end).

Definition saves : list Event -> list string :=
  collect (fun ev => match ev with Call_save p => Some p | _ => None end).

(** A call that rasterizes: [load_page], [get_pixmap] or [frombytes] of the
    rendering loop. *)
Definition is_render_call (ev : Event) : bool :=
  match ev with
  | Call_load_page Render _ | Call_get_pixmap _ _ | Call_frombytes _ => true
  | _ => false
  end.

(** What the three library calls of the [try] (lines 218-222) yield. *)
Definition rasterize (lib : Library) (doc : Document) (dpi : Z)
    (page_num : nat) : Answer Image :=
  match load_page doc Render page_num with
  | Fails msg => Fails msg
  | Ok page =>
      match get_pixmap page (zoom_of dpi) with
      | Fails msg => Fails msg
      | Ok pix =>
          Image_frombytes lib "RGB" (pix_width pix, pix_height pix)
            (pix_samples pix)
      end
  end.

Definition renders (lib : Library) (doc : Document) (dpi : Z)
    (page_num : nat) : bool :=
  match rasterize lib doc dpi page_num with Ok _ => true | Fails _ => false end.

(** The library calls made for one page: they stop at the first failure. *)
Definition render_calls (doc : Document) (dpi : Z) (page_num : nat)
  : list Event :=
  Call_load_page Render page_num ::
  match load_page doc Render page_num with
  | Fails _ => []
  | Ok page =>
      Call_get_pixmap page_num (zoom_of dpi) ::
      match get_pixmap page (zoom_of dpi) with
      | Fails _ => []
      | Ok _ => [Call_frombytes page_num]
      end
  end.

(** The loop variables after one more image. *)
Definition add_image (st : Rendering) (img : Image) : Rendering :=
  {| page_images := page_images st ++ [img];
     total_height := total_height st + height img;
     max_width := if max_width st <? width img then width img
                  else max_width st;
     rendered_page_count := rendered_page_count st + 1 |}.

(** The images of the selected pages that rasterize, in order. *)
Fixpoint rendered_images (lib : Library) (doc : Document) (dpi : Z)
    (pages : list nat) : list Image :=
  match pages with
  | [] => []
  | page_num :: rest =>
      match rasterize lib doc dpi page_num with
      | Ok img => img :: rendered_images lib doc dpi rest
      | Fails _ => rendered_images lib doc dpi rest
      end
  end.

(** The loop variables when the loop ends. *)
Definition rendering_after (lib : Library) (doc : Document) (dpi : Z)
    (pages : list nat) (st : Rendering) : Rendering :=
  fold_left add_image (rendered_images lib doc dpi pages) st.

Definition heights (imgs : list Image) : list nat := map height imgs.
Definition widths (imgs : list Image) : list nat := map width imgs.

(** Where the paste loop puts the images, starting at height [y]. *)
Fixpoint layout (max_width : nat) (imgs : list Image) (y : nat)
  : list Paste :=
  match imgs with
  | [] => []
  | img :: rest =>
      {| pasted := img; at_x := x_offset_of max_width img;
         at_y := Z.of_nat y |}
      :: layout max_width rest (y + height img)
  end.

Definition paste_event (p : Paste) : Event :=
  Call_paste (pasted p) (at_x p) (at_y p).

Definition with_pastes (c : Canvas) (ps : list Paste) : Canvas :=
  {| canvas_mode := canvas_mode c; canvas_width := canvas_width c;
     canvas_height := canvas_height c; background := background c;
     pastes := pastes c ++ ps |}.

(** Lines 245-264: what follows the rendering loop and [doc.close()]. *)
Definition composite_and_save (lib : Library) (output_image_path : string)
    (st : Rendering) : Action unit :=
  if nonempty (page_images st) then
    update_status (CreatingOutputImage (max_width st) (total_height st)) ;;
    emit (Set_progress 95) ;;
    emit (Call_Image_new "RGB" (max_width st) (total_height st) white) ;;
    let final_image :=
      Image_new "RGB" (max_width st) (total_height st) white in
    pasted <- paste_pages (max_width st) (page_images st) final_image 0 ;;
    let final_image := fst pasted in
    update_status SavingImage ;;
    try_except
      (call (Call_save output_image_path)
         (Image_save lib final_image output_image_path) ;;
       emit (Set_progress 100))
      (fun e => raise (CannotWriteDestination e))
  else
    raise NoPagesRendered.

(** The image handed to [save]. *)
Definition final_canvas (st : Rendering) : Canvas :=
  with_pastes (Image_new "RGB" (max_width st) (total_height st) white)
    (layout (max_width st) (page_images st) 0).

(** The events of the selection phase (lines 186-201). *)
Definition is_scan_event (ev : Event) : bool :=
  match ev with
  | Set_status FilteringPages | Set_status (FoundPagesWithImages _)
  | Call_update_idletasks | Call_load_page Scan _ | Call_get_images _
  | Call_close => true
  | _ => false
  end.

(** The events of the rendering loop (lines 216-241). *)
Definition is_loop_event (ev : Event) : bool :=
  match ev with
  | Call_load_page Render _ | Call_get_pixmap _ _ | Call_frombytes _
  | Set_progress _ | Set_status (RenderedPage _ _ _)
  | Set_status (ErrorOnPage _) | Call_update_idletasks | Call_print _ _ =>
      true
  | _ => false
  end.

(** The pages that fail, by their 1-based number. *)
Definition failed_pages (lib : Library) (doc : Document) (dpi : Z)
    (pages : list nat) : list nat :=
  map (fun page_num => page_num + 1)
    (filter (fun page_num => negb (renders lib doc dpi page_num)) pages).

(** The events of compositing and saving (lines 248-262). *)
Definition is_final_event (ev : Event) : bool :=
  match ev with
  | Set_status (CreatingOutputImage _ _) | Set_status SavingImage
  | Call_update_idletasks | Set_progress _ | Call_Image_new _ _ _ _
  | Call_paste _ _ _ | Call_save _ => true
  | _ => false
  end.

Definition is_paste_event (ev : Event) : bool :=
  match ev with Call_paste _ _ _ => true | _ => false end.

(** Whether the scan finds an image on a page: [load_page] and [get_images]
    answer, and the list is not empty. *)
Definition has_images (doc : Document) (page_num : nat) : bool :=
  match load_page doc Scan page_num with
  | Ok page =>
      match get_images page with
      | Ok images => nonempty images
      | Fails _ => false
      end
  | Fails _ => false
  end.

(** Whether the scan can inspect a page at all. *)
Definition inspectable (doc : Document) (page_num : nat) : bool :=
  match load_page doc Scan page_num with
  | Ok page =>
      match get_images page with Ok _ => true | Fails _ => false end
  | Fails _ => false
  end.

(** The pages the scan tried to load, in order. *)
Definition scan_attempts : list Event -> list nat :=
  collect (fun ev =>
             match ev with Call_load_page Scan n => Some n | _ => None end).

(** Page [i] cannot be loaded, or its images cannot be listed. *)
Definition scan_fails (doc : Document) (i : nat) (msg : string) : Prop :=
  load_page doc Scan i = Fails msg
  \/ exists page, load_page doc Scan i = Ok page /\ get_images page = Fails msg.

(** The DPI entry is not a number, or is a number that is not positive. *)
Definition invalid_dpi (dpi_str : string) : Prop :=
  Py.int dpi_str = None
  \/ exists dpi, Py.int dpi_str = Some dpi /\ (dpi <= 0)%Z.

(** A request with both paths given and the DPI as typed. *)
Definition request (dpi_str : string) : App :=
  {| pdf_path_var := "doc.pdf"; output_path_var := "out.png";
     dpi_var := dpi_str; only_images_var := false |}.

(** The message boxes shown, in order. *)
Definition dialogs : list Event -> list Dialog :=
  collect (fun ev => match ev with Call_messagebox d => Some d | _ => None end).

(** The states given to the Convert button, in order: [true] is enabled. *)
Definition button_states : list Event -> list bool :=
  collect (fun ev =>
             match ev with Config_convert_button b => Some b | _ => None end).

(** The messages given to [update_status], in order. *)
Definition statuses : list Event -> list Message :=
  collect (fun ev => match ev with Set_status m => Some m | _ => None end).

(** The zoom factors given to [get_pixmap], in order. *)
Definition zooms : list Event -> list Q :=
  collect (fun ev => match ev with Call_get_pixmap _ z => Some z | _ => None end).

(** The pages whose images were listed, in order. *)
Definition inspections : list Event -> list nat :=
  collect (fun ev => match ev with Call_get_images n => Some n | _ => None end).

(** Lines 140-153: both paths are given and the DPI is a positive integer. *)
Definition valid_request (app : App) : bool :=
  negb (Py.is_empty (pdf_path_var app))
  && negb (Py.is_empty (output_path_var app))
  && match parse_dpi (dpi_var app) with inr _ => true | inl _ => false end.

(** Lines 162-166: how the handler reports the outcome of the pipeline. *)
Definition report (output_path : string) (o : Outcome unit) : list Event :=
  match o with
  | Returned _ =>
      [Call_messagebox (Success output_path); Set_status ConversionComplete;
       Call_update_idletasks]
  | Raised e =>
      [Call_messagebox (ConversionError e); Set_status (ErrorMessage e);
       Call_update_idletasks]
  end.

(** The events of the pipeline (lines 171-264): every event but the message
    boxes, the Convert button and the three status messages of the
    handler. *)
Definition is_pipeline_event (ev : Event) : bool :=
  match ev with
  | Call_messagebox _ | Config_convert_button _
  | Set_status PleaseWait | Set_status ConversionComplete
  | Set_status (ErrorMessage _) => false
  | _ => true
  end.

(** The "Rendered page k/n (Original page p)" updates, in order, as
    [(k, n, p)]. *)
Definition rendered_notices : list Event -> list (nat * nat * nat) :=
  collect (fun ev =>
             match ev with
             | Set_status (RenderedPage k n p) => Some (k, n, p)
             | _ => None
             end).

(** The selected pages that rasterize, in order. *)
Definition rendering_pages (lib : Library) (doc : Document) (dpi : Z)
    (pages : list nat) : list nat :=
  filter (renders lib doc dpi) pages.

(** The numbering of the "Rendered page" updates: the [k]-th page that
    rasterizes, counted from [first], of [n] selected, with its 1-based
    number in the document. *)
Definition numbered (first n : nat) (pages : list nat)
  : list (nat * nat * nat) :=
  map (fun kp => (fst kp, n, snd kp + 1))
    (combine (seq first (List.length pages)) pages).

(** Every status update is followed at once by [update_idletasks]. *)
Fixpoint flushed (t : list Event) : bool :=
  match t with
  | [] => true
  | Set_status _ :: rest =>
      match rest with
      | Call_update_idletasks :: _ => flushed rest
      | _ => false
      end
  | _ :: rest => flushed rest
  end.

(** The sizes announced by "Creating output image (WxH)...", in order. *)
Definition announced_sizes : list Event -> list (nat * nat) :=
  collect (fun ev =>
             match ev with
             | Set_status (CreatingOutputImage w h) => Some (w, h)
             | _ => None
             end).

(** * Properties *)

(** ** The Python helpers on examples *)

Example int_150 : Py.int "150" = Some 150%Z.
Proof. reflexivity. Qed.

Example int_padded : Py.int "  +1_000 " = Some 1000%Z.
Proof. reflexivity. Qed.

Example int_minus5 : Py.int "-5" = Some (-5)%Z.
Proof. reflexivity. Qed.

Example int_abc : Py.int "abc" = None.
Proof. reflexivity. Qed.

Example int_fraction : Py.int "1.5" = None.
Proof. reflexivity. Qed.

Example int_empty : Py.int "" = None.
Proof. reflexivity. Qed.

Example basename_nested : Py.basename "/home/u/doc.pdf" = "doc.pdf"%string.
Proof. reflexivity. Qed.

Example basename_plain : Py.basename "doc.pdf" = "doc.pdf"%string.
Proof. reflexivity. Qed.

(** ** Reading a trace *)

Section Collect.

Context {A : Type} (f : Event -> option A).

Lemma collect_app (t1 t2 : list Event) :
  collect f (t1 ++ t2) = collect f t1 ++ collect f t2.
Proof.
  induction t1 as [|ev t1 IH]; simpl; [reflexivity|].
  destruct (f ev); simpl; now rewrite IH.
Qed.

Lemma collect_In (t : list Event) (a : A) :
  In a (collect f t) <-> exists ev, In ev t /\ f ev = Some a.
Proof.
  induction t as [|ev t IH]; simpl.
  - split; [intros [] | intros (ev & [] & _)].
  - destruct (f ev) eqn:E; simpl; rewrite IH; split.
    + intros [->|(ev' & Hin & Hf)]; eauto.
    + intros (ev' & [->|Hin] & Hf); [left; congruence | eauto].
    + intros (ev' & Hin & Hf); eauto.
    + intros (ev' & [->|Hin] & Hf); [congruence | eauto].
Qed.

End Collect.

(** ** The monad *)

Lemma bind_returned {A B : Type} (m : Action A) (k : A -> Action B) (a : A) :
  outcome m = Returned a ->
  bind m k = (trace m ++ trace (k a), outcome (k a)).
Proof. unfold bind, outcome, trace. now intros ->. Qed.

Lemma bind_raised {A B : Type} (m : Action A) (k : A -> Action B) (e : Exn) :
  outcome m = Raised e -> bind m k = (trace m, Raised e).
Proof. unfold bind, outcome, trace. now intros ->. Qed.

Lemma trace_pair {A : Type} (t : list Event) (o : Outcome A) :
  trace (t, o) = t.
Proof. reflexivity. Qed.

Lemma outcome_pair {A : Type} (t : list Event) (o : Outcome A) :
  outcome (t, o) = o.
Proof. reflexivity. Qed.

(** ** Rasterizing one page, without the trace *)

(** One turn of the loop, spelled out. *)
Lemma render_or_skip_eq lib doc dpi n st page_num :
  render_or_skip lib doc dpi n st page_num =
  match rasterize lib doc dpi page_num with
  | Ok img =>
      (render_calls doc dpi page_num ++
       [Set_progress
          (progress_percentage (rendered_page_count st + 1) n);
        Set_status (RenderedPage (rendered_page_count st + 1) n (page_num + 1));
        Call_update_idletasks],
       Returned (add_image st img))
  | Fails msg =>
      (render_calls doc dpi page_num ++
       [Call_print (page_num + 1) (LibraryError msg);
        Set_status (ErrorOnPage (page_num + 1));
        Call_update_idletasks],
       Returned st)
  end.
Proof.
  unfold render_or_skip, render_page, rasterize, render_calls, try_except,
    bind, call, emit, ret, update_status; simpl.
  destruct (load_page doc Render page_num) as [page|msg]; simpl;
    [|reflexivity].
  destruct (get_pixmap page (zoom_of dpi)) as [pix|msg]; simpl;
    [|reflexivity].
  destruct (Image_frombytes lib "RGB" (pix_width pix, pix_height pix)
              (pix_samples pix)) as [img|msg]; simpl; reflexivity.
Qed.

Lemma render_or_skip_outcome lib doc dpi n st page_num :
  outcome (render_or_skip lib doc dpi n st page_num) =
  Returned match rasterize lib doc dpi page_num with
           | Ok img => add_image st img
           | Fails _ => st
           end.
Proof.
  rewrite render_or_skip_eq.
  now destruct (rasterize lib doc dpi page_num).
Qed.

Lemma render_pages_step lib doc dpi n page_num rest st :
  render_pages lib doc dpi n (page_num :: rest) st =
  (trace (render_or_skip lib doc dpi n st page_num) ++
   trace (render_pages lib doc dpi n rest
            match rasterize lib doc dpi page_num with
            | Ok img => add_image st img
            | Fails _ => st
            end),
   outcome (render_pages lib doc dpi n rest
              match rasterize lib doc dpi page_num with
              | Ok img => add_image st img
              | Fails _ => st
              end)).
Proof.
  simpl. now rewrite (bind_returned _ _ _ (render_or_skip_outcome _ _ _ _ _ _)).
Qed.

(** The rendering loop never raises. *)
Lemma render_pages_outcome lib doc dpi n pages st :
  outcome (render_pages lib doc dpi n pages st) =
  Returned (rendering_after lib doc dpi pages st).
Proof.
  revert st; induction pages as [|page_num rest IH]; intros st.
  - reflexivity.
  - rewrite render_pages_step. unfold outcome at 1; simpl snd.
    rewrite IH. unfold rendering_after; simpl.
    now destruct (rasterize lib doc dpi page_num).
Qed.

Lemma fold_add_image_images imgs st :
  page_images (fold_left add_image imgs st) = page_images st ++ imgs.
Proof.
  revert st; induction imgs as [|img imgs IH]; intros st; simpl.
  - now rewrite app_nil_r.
  - rewrite IH; simpl. now rewrite <- app_assoc.
Qed.

Lemma fold_add_image_height imgs st :
  total_height (fold_left add_image imgs st) =
  total_height st + list_sum (heights imgs).
Proof.
  revert st; induction imgs as [|img imgs IH]; intros st; simpl.
  - lia.
  - rewrite IH; simpl. lia.
Qed.

Lemma fold_add_image_width imgs st :
  max_width (fold_left add_image imgs st) =
  Nat.max (max_width st) (list_max (widths imgs)).
Proof.
  revert st; induction imgs as [|img imgs IH]; intros st; simpl.
  - lia.
  - rewrite IH; simpl.
    destruct (max_width st <? width img) eqn:E;
      [apply Nat.ltb_lt in E | apply Nat.ltb_ge in E]; lia.
Qed.

Lemma rendered_images_length lib doc dpi pages :
  List.length (rendered_images lib doc dpi pages) <= List.length pages.
Proof.
  induction pages as [|p pages IH]; simpl; [lia|].
  destruct (rasterize lib doc dpi p); simpl; lia.
Qed.

Lemma rendered_images_none lib doc dpi pages :
  rendered_images lib doc dpi pages = [] <->
  forall p, In p pages -> renders lib doc dpi p = false.
Proof.
  unfold renders.
  induction pages as [|p pages IH]; simpl.
  - split; [intros _ q [] | reflexivity].
  - destruct (rasterize lib doc dpi p) eqn:E.
    + split; [discriminate|].
      intros H. specialize (H p (or_introl eq_refl)).
      rewrite E in H. discriminate.
    + rewrite IH. split.
      * intros H q [<-|Hq]; [now rewrite E | now apply H].
      * intros H q Hq. apply H. now right.
Qed.

(** ** Compositing, without the trace *)

Lemma paste_pages_eq mw imgs c y :
  paste_pages mw imgs c y =
  (map paste_event (layout mw imgs y),
   Returned (with_pastes c (layout mw imgs y),
             y + list_sum (heights imgs))).
Proof.
  revert c y; induction imgs as [|img imgs IH]; intros c y; simpl.
  - unfold ret, with_pastes. rewrite app_nil_r, Nat.add_0_r.
    now destruct c.
  - unfold bind, emit; simpl. rewrite IH; simpl.
    unfold with_pastes, paste; simpl.
    rewrite <- app_assoc; simpl. now rewrite Nat.add_assoc.
Qed.

Lemma paste_calls_layout ps : paste_calls (map paste_event ps) = ps.
Proof.
  induction ps as [|[img x y] ps IH]; simpl; [reflexivity|].
  unfold paste_calls in *; simpl. now rewrite IH.
Qed.

Lemma layout_pasted mw imgs y : map pasted (layout mw imgs y) = imgs.
Proof.
  revert y; induction imgs as [|img imgs IH]; intros y; simpl;
    [reflexivity | now rewrite IH].
Qed.

Lemma layout_nth mw imgs y k p :
  nth_error (layout mw imgs y) k = Some p ->
  nth_error imgs k = Some (pasted p) /\
  at_x p = x_offset_of mw (pasted p) /\
  at_y p = Z.of_nat (y + list_sum (heights (firstn k imgs))).
Proof.
  revert y k; induction imgs as [|img imgs IH]; intros y k; simpl.
  - destruct k; discriminate.
  - destruct k as [|k]; simpl.
    + intros [= <-]; simpl. now rewrite Nat.add_0_r.
    + intros H. destruct (IH _ _ H) as (H1 & H2 & H3).
      repeat split; trivial. rewrite H3. f_equal. lia.
Qed.

(** ** The pipeline, phase by phase *)

Lemma composite_and_save_eq lib out st :
  composite_and_save lib out st =
  if nonempty (page_images st) then
    ([Set_status (CreatingOutputImage (max_width st) (total_height st));
      Call_update_idletasks; Set_progress 95;
      Call_Image_new "RGB" (max_width st) (total_height st) white]
     ++ map paste_event (layout (max_width st) (page_images st) 0)
     ++ [Set_status SavingImage; Call_update_idletasks; Call_save out]
     ++ match Image_save lib (final_canvas st) out with
        | Ok _ => [Set_progress 100]
        | Fails _ => []
        end,
     match Image_save lib (final_canvas st) out with
     | Ok _ => Returned tt
     | Fails msg => Raised (CannotWriteDestination (LibraryError msg))
     end)
  else ([], Raised NoPagesRendered).
Proof.
  unfold composite_and_save.
  destruct (nonempty (page_images st)); [|reflexivity].
  unfold bind, emit, update_status, try_except, call, raise; simpl.
  rewrite paste_pages_eq; simpl. fold (final_canvas st).
  destruct (Image_save lib (final_canvas st) out) as [[]|msg]; simpl;
    rewrite ?app_nil_r; reflexivity.
Qed.

(** Past the guard of line 180, a selection that is returned is not empty:
    the guard of line 204 never fires. *)
Lemma select_pages_nonempty doc only pages :
  page_count doc <> 0 ->
  outcome (select_pages doc only) = Returned pages -> pages <> [].
Proof.
  intros Hn. unfold select_pages. destruct only.
  - unfold bind, update_status, emit, outcome; simpl.
    destruct (snd (scan_pages doc (seq 0 (page_count doc)) []))
      as [found|e]; simpl; [|discriminate].
    destruct found; simpl; [discriminate|].
    intros [= <-]. discriminate.
  - unfold ret, outcome; simpl. intros [= <-].
    destruct (page_count doc); [contradiction | discriminate].
Qed.

(** The trace and the outcome of a conversion that reaches the rendering
    loop. *)
Lemma pipeline_rendering lib pdf out dpi only doc pages :
  fitz_open lib pdf = Ok doc ->
  page_count doc <> 0 ->
  outcome (select_pages doc only) = Returned pages ->
  let n := List.length pages in
  let st := rendering_after lib doc dpi pages rendering_start in
  pdf_to_vertical_image_with_gui_updates lib pdf out dpi only =
  ([Call_fitz_open pdf;
    Set_status (Scanning (Py.basename pdf) (page_count doc));
    Call_update_idletasks]
   ++ trace (select_pages doc only)
   ++ [Set_status (ProcessingPages n); Call_update_idletasks]
   ++ trace (render_pages lib doc dpi n pages rendering_start)
   ++ [Call_close]
   ++ trace (composite_and_save lib out st),
   outcome (composite_and_save lib out st)).
Proof.
  intros Hopen Hcount Hsel n st.
  pose proof (select_pages_nonempty _ _ _ Hcount Hsel) as Hne.
  unfold pdf_to_vertical_image_with_gui_updates.
  fold (composite_and_save lib out).
  unfold try_except at 1, call at 1. rewrite Hopen. simpl snd. cbv iota.
  rewrite (bind_returned _ _ doc) by reflexivity.
  apply Nat.eqb_neq in Hcount. rewrite Hcount.
  rewrite (bind_returned _ _ tt) by reflexivity.
  rewrite (bind_returned _ _ pages) by exact Hsel.
  cbv zeta. fold n.
  assert (Hn : (n =? 0) = false).
  { apply Nat.eqb_neq. unfold n. destruct pages; [congruence | discriminate]. }
  rewrite Hn.
  rewrite (bind_returned _ _ tt) by reflexivity.
  rewrite (bind_returned _ _ st) by apply render_pages_outcome.
  rewrite (bind_returned _ _ tt) by reflexivity.
  unfold trace, outcome; simpl. reflexivity.
Qed.

(** ** What each phase writes to the trace *)

Lemma collect_none {A : Type} (f : Event -> option A) (P : Event -> bool)
    (t : list Event) :
  (forall ev, P ev = true -> f ev = None) ->
  Forall (fun ev => P ev = true) t -> collect f t = [].
Proof.
  intros Hf Ht. induction Ht as [|ev t Hev _ IH]; simpl; [reflexivity|].
  now rewrite (Hf _ Hev).
Qed.

(** Closes [collect f t = []] from the class [P] of the events of [t]. *)
Ltac no_such_event P :=
  apply (collect_none _ P);
  [ let ev := fresh "ev" in
    intros ev; destruct ev; simpl; intros; try discriminate; try reflexivity;
    match goal with
    | m : Message |- _ => destruct m; try discriminate; reflexivity
    | p : Pass |- _ => destruct p; try discriminate; reflexivity
    end
  | ].

Lemma scan_pages_events doc range acc :
  Forall (fun ev => is_scan_event ev = true)
    (trace (scan_pages doc range acc)).
Proof.
  revert acc; induction range as [|p range IH]; intros acc; simpl.
  - constructor.
  - unfold bind, call, trace; simpl.
    destruct (load_page doc Scan p) as [page|msg]; simpl;
      [|repeat constructor].
    destruct (get_images page) as [images|msg]; simpl;
      [|repeat constructor].
    constructor; [reflexivity|]. constructor; [reflexivity|]. apply IH.
Qed.

Lemma select_pages_events doc only :
  Forall (fun ev => is_scan_event ev = true) (trace (select_pages doc only)).
Proof.
  unfold select_pages. destruct only; [|constructor].
  unfold bind, update_status, emit, raise, ret, trace; simpl.
  pose proof (scan_pages_events doc (seq 0 (page_count doc)) []) as H.
  unfold trace in H.
  destruct (snd (scan_pages doc (seq 0 (page_count doc)) [])) as [found|e];
    simpl.
  - constructor; [reflexivity|]. constructor; [reflexivity|].
    apply Forall_app; split; [exact H|].
    destruct (nonempty found); simpl; repeat constructor.
  - constructor; [reflexivity|]. constructor; [reflexivity|]. exact H.
Qed.

(** A selection that is returned has not closed the document. *)
Lemma select_pages_returned_closes doc only pages :
  outcome (select_pages doc only) = Returned pages ->
  closes (trace (select_pages doc only)) = [].
Proof.
  unfold select_pages. destruct only; [|reflexivity].
  unfold bind, update_status, emit, raise, ret, trace, outcome; simpl.
  pose proof (scan_pages_events doc (seq 0 (page_count doc)) []) as H.
  unfold trace in H.
  assert (Hc : closes (fst (scan_pages doc (seq 0 (page_count doc)) [])) = []).
  { revert H. generalize (seq 0 (page_count doc)). intros range _.
    generalize (@nil nat).
    induction range as [|p range IH]; intros acc; simpl; [reflexivity|].
    unfold bind, call; simpl.
    destruct (load_page doc Scan p) as [page|msg]; simpl; [|reflexivity].
    destruct (get_images page) as [images|msg]; simpl; [|reflexivity].
    apply IH. }
  destruct (snd (scan_pages doc (seq 0 (page_count doc)) [])) as [found|e];
    simpl; [|discriminate].
  destruct (nonempty found); simpl; [|discriminate].
  intros _. unfold closes in *. rewrite collect_app, Hc. reflexivity.
Qed.

Lemma render_calls_events doc dpi p :
  Forall (fun ev => is_render_call ev = true) (render_calls doc dpi p).
Proof.
  unfold render_calls.
  destruct (load_page doc Render p) as [page|msg]; [|repeat constructor].
  destruct (get_pixmap page (zoom_of dpi)); repeat constructor.
Qed.

Lemma render_calls_attempts doc dpi p :
  render_attempts (render_calls doc dpi p) = [p].
Proof.
  unfold render_calls.
  destruct (load_page doc Render p) as [page|msg]; [|reflexivity].
  destruct (get_pixmap page (zoom_of dpi)); reflexivity.
Qed.

Opaque render_calls.

Lemma render_pages_events lib doc dpi n pages st :
  Forall (fun ev => is_loop_event ev = true)
    (trace (render_pages lib doc dpi n pages st)).
Proof.
  revert st; induction pages as [|p pages IH]; intros st.
  - constructor.
  - rewrite render_pages_step. unfold trace at 1; simpl fst.
    apply Forall_app; split; [|apply IH].
    rewrite render_or_skip_eq.
    assert (Hc : Forall (fun ev => is_loop_event ev = true)
                   (render_calls doc dpi p)).
    { eapply Forall_impl; [|apply render_calls_events].
      intros [] E; simpl in *; try discriminate; trivial. }
    destruct (rasterize lib doc dpi p); unfold trace; simpl;
      (apply Forall_app; split; [exact Hc | repeat constructor]).
Qed.

(** The loop tries every selected page once, in order. *)
Lemma render_pages_attempts lib doc dpi n pages st :
  render_attempts (trace (render_pages lib doc dpi n pages st)) = pages.
Proof.
  revert st; induction pages as [|p pages IH]; intros st.
  - reflexivity.
  - rewrite render_pages_step. unfold trace at 1; simpl fst.
    unfold render_attempts in *. rewrite collect_app, IH.
    rewrite render_or_skip_eq.
    pose proof (render_calls_attempts doc dpi p) as Hc.
    unfold render_attempts in Hc.
    destruct (rasterize lib doc dpi p); unfold trace; simpl;
      rewrite collect_app, Hc; reflexivity.
Qed.

Lemma render_calls_no_notice doc dpi p :
  error_notices (render_calls doc dpi p) = [].
Proof.
  apply (collect_none _ is_render_call); [|apply render_calls_events].
  intros [] E; simpl in *; try discriminate; reflexivity.
Qed.

Lemma render_pages_notices lib doc dpi n pages st :
  error_notices (trace (render_pages lib doc dpi n pages st)) =
  failed_pages lib doc dpi pages.
Proof.
  revert st; induction pages as [|p pages IH]; intros st.
  - reflexivity.
  - rewrite render_pages_step. unfold trace at 1; simpl fst.
    unfold error_notices in *. rewrite collect_app, IH.
    rewrite render_or_skip_eq.
    pose proof (render_calls_no_notice doc dpi p) as Hc.
    unfold error_notices in Hc.
    unfold failed_pages, renders; simpl.
    destruct (rasterize lib doc dpi p); unfold trace; simpl;
      rewrite collect_app, Hc; reflexivity.
Qed.

Lemma render_calls_no_progress doc dpi p :
  percentages (render_calls doc dpi p) = [].
Proof.
  apply (collect_none _ is_render_call); [|apply render_calls_events].
  intros [] E; simpl in *; try discriminate; reflexivity.
Qed.

(** The loop pushes one percentage per rendered page: k/n of 90, for
    k = 1, 2, ... *)
Lemma render_pages_percentages lib doc dpi n pages st :
  percentages (trace (render_pages lib doc dpi n pages st)) =
  map (fun k => progress_percentage k n)
    (seq (rendered_page_count st + 1)
       (List.length (rendered_images lib doc dpi pages))).
Proof.
  revert st; induction pages as [|p pages IH]; intros st.
  - reflexivity.
  - rewrite render_pages_step. unfold trace at 1; simpl fst.
    unfold percentages in *. rewrite collect_app, IH.
    rewrite render_or_skip_eq.
    pose proof (render_calls_no_progress doc dpi p) as Hc.
    unfold percentages in Hc. simpl rendered_images.
    destruct (rasterize lib doc dpi p); unfold trace; simpl;
      rewrite collect_app, Hc; simpl; [|reflexivity].
    now rewrite (Nat.add_1_r (rendered_page_count st + 1)).
Qed.

Transparent render_calls.

Lemma composite_and_save_events lib out st :
  Forall (fun ev => is_final_event ev = true)
    (trace (composite_and_save lib out st)).
Proof.
  rewrite composite_and_save_eq.
  destruct (nonempty (page_images st)); unfold trace; simpl; [|constructor].
  repeat (constructor; [reflexivity|]).
  apply Forall_app; split.
  - apply Forall_forall. intros ev Hev. apply in_map_iff in Hev.
    now destruct Hev as (p & <- & _).
  - destruct (Image_save lib (final_canvas st) out); repeat constructor.
Qed.

(** Any reading of the trace of a conversion that reaches the rendering
    loop, phase by phase. *)
Lemma pipeline_collect {A : Type} (f : Event -> option A)
    lib pdf out dpi only doc pages :
  fitz_open lib pdf = Ok doc ->
  page_count doc <> 0 ->
  outcome (select_pages doc only) = Returned pages ->
  let n := List.length pages in
  let st := rendering_after lib doc dpi pages rendering_start in
  collect f
    (trace (pdf_to_vertical_image_with_gui_updates lib pdf out dpi only)) =
  collect f [Call_fitz_open pdf;
             Set_status (Scanning (Py.basename pdf) (page_count doc));
             Call_update_idletasks]
  ++ collect f (trace (select_pages doc only))
  ++ collect f [Set_status (ProcessingPages n); Call_update_idletasks]
  ++ collect f (trace (render_pages lib doc dpi n pages rendering_start))
  ++ collect f [Call_close]
  ++ collect f (trace (composite_and_save lib out st)).
Proof.
  intros Hopen Hcount Hsel n st.
  rewrite (pipeline_rendering _ _ out dpi _ _ _ Hopen Hcount Hsel).
  unfold trace at 1. cbn [fst]. now rewrite !collect_app.
Qed.

(** A conversion that reaches the rendering loop tries every selected page
    once, in order. *)
Lemma pipeline_render_attempts lib pdf out dpi only doc pages :
  fitz_open lib pdf = Ok doc ->
  page_count doc <> 0 ->
  outcome (select_pages doc only) = Returned pages ->
  render_attempts
    (trace (pdf_to_vertical_image_with_gui_updates lib pdf out dpi only))
  = pages.
Proof.
  intros Hopen Hcount Hsel. unfold render_attempts.
  rewrite (pipeline_collect _ _ _ out dpi _ _ _ Hopen Hcount Hsel).
  fold render_attempts. rewrite render_pages_attempts.
  replace (render_attempts (trace (select_pages doc only))) with (@nil nat).
  2:{ symmetry. no_such_event is_scan_event. apply select_pages_events. }
  replace (render_attempts (trace (composite_and_save lib out _)))
    with (@nil nat).
  2:{ symmetry. no_such_event is_final_event.
      apply composite_and_save_events. }
  simpl. now rewrite app_nil_r.
Qed.

(** ** C1: a page that fails to rasterize *)

(** C1.  A selected page that fails to rasterize is skipped and not retried:
    its turn of the loop makes the library calls of that page once, prints,
    sets the status to "Error on page N, skipping." with N the 1-based page
    number, and leaves the loop variables as they were, so that the loop goes
    on with the next selected page.  Over the whole conversion every selected
    page is tried exactly once, in order, and the failure notices are those
    of the failing pages, in order.  When every selected page fails, the
    conversion raises "No pages were successfully rendered." after all the
    selected pages were tried, and no canvas was created. *)
Theorem C1_failed_page_is_skipped lib pdf out dpi only doc pages :
  fitz_open lib pdf = Ok doc ->
  page_count doc <> 0 ->
  outcome (select_pages doc only) = Returned pages ->
  let run := pdf_to_vertical_image_with_gui_updates lib pdf out dpi only in
  (forall st page_num msg,
      rasterize lib doc dpi page_num = Fails msg ->
      render_or_skip lib doc dpi (List.length pages) st page_num =
      (render_calls doc dpi page_num
       ++ [Call_print (page_num + 1) (LibraryError msg);
           Set_status (ErrorOnPage (page_num + 1));
           Call_update_idletasks],
       Returned st)
      /\ render_attempts (render_calls doc dpi page_num) = [page_num])
  /\ render_attempts (trace run) = pages
  /\ error_notices (trace run) = failed_pages lib doc dpi pages
  /\ ((forall page_num,
          In page_num pages -> renders lib doc dpi page_num = false) ->
      outcome run = Raised NoPagesRendered
      /\ render_attempts (trace run) = pages
      /\ canvases (trace run) = []).
Proof.
  intros Hopen Hcount Hsel run.
  assert (Hattempts : render_attempts (trace run) = pages)
    by exact (pipeline_render_attempts _ _ out dpi _ _ _ Hopen Hcount Hsel).
  split; [|split; [exact Hattempts|split]].
  - intros st page_num msg Hfail. split.
    + rewrite render_or_skip_eq. now rewrite Hfail.
    + apply render_calls_attempts.
  - unfold run, error_notices.
    rewrite (pipeline_collect _ _ _ out dpi _ _ _ Hopen Hcount Hsel).
    fold error_notices. rewrite render_pages_notices.
    replace (error_notices (trace (select_pages doc only))) with (@nil nat).
    2:{ symmetry. no_such_event is_scan_event. apply select_pages_events. }
    replace (error_notices (trace (composite_and_save lib out _)))
      with (@nil nat).
    2:{ symmetry. no_such_event is_final_event.
        apply composite_and_save_events. }
    simpl. now rewrite app_nil_r.
  - intros Hall. split; [|split; [exact Hattempts|]].
    + unfold run.
      rewrite (pipeline_rendering _ _ out dpi _ _ _ Hopen Hcount Hsel).
      unfold outcome at 1; cbn [snd]. rewrite composite_and_save_eq.
      unfold rendering_after. rewrite fold_add_image_images.
      apply rendered_images_none in Hall. rewrite Hall. reflexivity.
    + unfold run, canvases.
      rewrite (pipeline_collect _ _ _ out dpi _ _ _ Hopen Hcount Hsel).
      fold canvases.
      replace (canvases (trace (select_pages doc only)))
        with (@nil (string * nat * nat * Color)).
      2:{ symmetry. no_such_event is_scan_event. apply select_pages_events. }
      replace (canvases (trace (render_pages _ _ _ _ _ _)))
        with (@nil (string * nat * nat * Color)).
      2:{ symmetry. no_such_event is_loop_event. apply render_pages_events. }
      rewrite composite_and_save_eq.
      unfold rendering_after. rewrite fold_add_image_images.
      apply rendered_images_none in Hall. rewrite Hall. reflexivity.
Qed.

Lemma C1_witness :
  let lib := Samples.library Samples.five_pages_third_fails in
  let run :=
    pdf_to_vertical_image_with_gui_updates lib "doc.pdf" "out.png" 150 false in
  render_attempts (trace run) = [0; 1; 2; 3; 4]
  /\ error_notices (trace run) = [3].
Proof.
  destruct (C1_failed_page_is_skipped
              (Samples.library Samples.five_pages_third_fails)
              "doc.pdf" "out.png" 150 false
              Samples.five_pages_third_fails [0; 1; 2; 3; 4]
              eq_refl ltac:(discriminate) eq_refl)
    as (_ & Hattempts & Hnotices & _).
  split; [exact Hattempts | exact Hnotices].
Defined.

(** The same on two pages that both fail, with the filter on: the conversion
    attempts both, creates no canvas and reports that nothing rendered. *)
Example nothing_renders :
  let lib := Samples.library Samples.two_pages_none_renders in
  let run :=
    pdf_to_vertical_image_with_gui_updates lib "doc.pdf" "out.png" 150 true in
  outcome run = Raised NoPagesRendered
  /\ render_attempts (trace run) = [0; 1]
  /\ error_notices (trace run) = [1; 2]
  /\ canvases (trace run) = []
  /\ str NoPagesRendered = "No pages were successfully rendered."%string.
Proof. repeat split. Qed.

(** ** How a conversion can go *)

Lemma pipeline_cases lib pdf out dpi only :
  let run := pdf_to_vertical_image_with_gui_updates lib pdf out dpi only in
  (exists msg,
      fitz_open lib pdf = Fails msg
      /\ run = ([Call_fitz_open pdf],
                Raised (CannotOpenSource pdf (LibraryError msg))))
  \/ (exists doc,
         fitz_open lib pdf = Ok doc /\ page_count doc = 0
         /\ run = ([Call_fitz_open pdf; Call_close],
                   Raised (EmptySource pdf)))
  \/ (exists doc e,
         fitz_open lib pdf = Ok doc /\ page_count doc <> 0
         /\ outcome (select_pages doc only) = Raised e
         /\ run = ([Call_fitz_open pdf;
                    Set_status (Scanning (Py.basename pdf) (page_count doc));
                    Call_update_idletasks]
                   ++ trace (select_pages doc only),
                   Raised e))
  \/ (exists doc pages,
         fitz_open lib pdf = Ok doc /\ page_count doc <> 0
         /\ outcome (select_pages doc only) = Returned pages).
Proof.
  intros run.
  destruct (fitz_open lib pdf) as [doc|msg] eqn:Hopen.
  - destruct (Nat.eq_dec (page_count doc) 0) as [Hz|Hnz].
    + right; left. exists doc. repeat split; trivial.
      unfold run, pdf_to_vertical_image_with_gui_updates.
      unfold try_except at 1, call at 1. rewrite Hopen. simpl snd. cbv iota.
      rewrite (bind_returned _ _ doc) by reflexivity.
      rewrite Hz. reflexivity.
    + destruct (outcome (select_pages doc only)) as [pages|e] eqn:Hsel.
      * right; right; right. exists doc, pages. auto.
      * right; right; left. exists doc, e. repeat split; trivial.
        unfold run, pdf_to_vertical_image_with_gui_updates.
        unfold try_except at 1, call at 1. rewrite Hopen. simpl snd. cbv iota.
        rewrite (bind_returned _ _ doc) by reflexivity.
        pose proof Hnz as Hnz'. apply Nat.eqb_neq in Hnz'. rewrite Hnz'.
        rewrite (bind_returned _ _ tt) by reflexivity.
        rewrite (bind_raised _ _ e) by exact Hsel.
        reflexivity.
  - left. exists msg. split; [reflexivity|].
    unfold run, pdf_to_vertical_image_with_gui_updates.
    unfold try_except at 1, call at 1. rewrite Hopen. simpl.
    unfold bind; reflexivity.
Qed.

(** A conversion that returns has opened a document and selected pages. *)
Lemma pipeline_returned lib pdf out dpi only :
  outcome (pdf_to_vertical_image_with_gui_updates lib pdf out dpi only)
  = Returned tt ->
  exists doc pages,
    fitz_open lib pdf = Ok doc /\ page_count doc <> 0
    /\ outcome (select_pages doc only) = Returned pages.
Proof.
  intros Hret.
  destruct (pipeline_cases lib pdf out dpi only)
    as [(msg & _ & H)|[(doc & _ & _ & H)|[(doc & e & _ & _ & _ & H)|H]]];
    [rewrite H in Hret; discriminate .. | exact H].
Qed.

(** ** C2: the size and the fill of the canvas *)

Lemma max_width_after lib doc dpi pages :
  max_width (rendering_after lib doc dpi pages rendering_start) =
  list_max (widths (rendered_images lib doc dpi pages)).
Proof. unfold rendering_after. now rewrite fold_add_image_width. Qed.

Lemma total_height_after lib doc dpi pages :
  total_height (rendering_after lib doc dpi pages rendering_start) =
  list_sum (heights (rendered_images lib doc dpi pages)).
Proof. unfold rendering_after. now rewrite fold_add_image_height. Qed.

Lemma page_images_after lib doc dpi pages :
  page_images (rendering_after lib doc dpi pages rendering_start) =
  rendered_images lib doc dpi pages.
Proof. unfold rendering_after. now rewrite fold_add_image_images. Qed.

(** What a conversion that returns has composited and saved. *)
Lemma composite_and_save_returned lib out st :
  outcome (composite_and_save lib out st) = Returned tt ->
  Image_save lib (final_canvas st) out = Ok tt
  /\ trace (composite_and_save lib out st) =
     [Set_status (CreatingOutputImage (max_width st) (total_height st));
      Call_update_idletasks; Set_progress 95;
      Call_Image_new "RGB" (max_width st) (total_height st) white]
     ++ map paste_event (layout (max_width st) (page_images st) 0)
     ++ [Set_status SavingImage; Call_update_idletasks; Call_save out;
         Set_progress 100].
Proof.
  rewrite composite_and_save_eq.
  destruct (nonempty (page_images st)); unfold outcome, trace; simpl;
    [|discriminate].
  destruct (Image_save lib (final_canvas st) out) as [[]|msg];
    [|discriminate].
  intros _. split; reflexivity.
Qed.

(** C2.  In a conversion that returns, exactly one canvas is created; its
    width is the largest width and its height the sum of the heights of the
    pages that rendered; it is created in mode RGB (no alpha channel) filled
    with (255, 255, 255); and every rasterizing call comes before its
    creation, none after. *)
Theorem C2_canvas_size lib pdf out dpi only :
  let run := pdf_to_vertical_image_with_gui_updates lib pdf out dpi only in
  outcome run = Returned tt ->
  exists doc pages before after,
    fitz_open lib pdf = Ok doc
    /\ outcome (select_pages doc only) = Returned pages
    /\ let imgs := rendered_images lib doc dpi pages in
       let w := list_max (widths imgs) in
       let h := list_sum (heights imgs) in
       trace run = before ++ Call_Image_new "RGB" w h (255, 255, 255) :: after
       /\ canvases (trace run) = [("RGB"%string, w, h, (255, 255, 255))]
       /\ render_attempts before = pages
       /\ Forall (fun ev => is_render_call ev = false) after.
Proof.
  intros run Hret.
  destruct (pipeline_returned _ _ _ _ _ Hret)
    as (doc & pages & Hopen & Hcount & Hsel).
  unfold run in *.
  rewrite (pipeline_rendering _ _ out dpi _ _ _ Hopen Hcount Hsel) in *.
  unfold outcome at 1 in Hret; cbn [snd] in Hret.
  destruct (composite_and_save_returned _ _ _ Hret) as (_ & Hfinal).
  set (st := rendering_after lib doc dpi pages rendering_start) in *.
  exists doc, pages.
  exists ([Call_fitz_open pdf;
           Set_status (Scanning (Py.basename pdf) (page_count doc));
           Call_update_idletasks]
          ++ trace (select_pages doc only)
          ++ [Set_status (ProcessingPages (List.length pages));
              Call_update_idletasks]
          ++ trace (render_pages lib doc dpi (List.length pages) pages
                      rendering_start)
          ++ [Call_close]
          ++ [Set_status (CreatingOutputImage (max_width st) (total_height st));
              Call_update_idletasks; Set_progress 95]).
  exists (map paste_event (layout (max_width st) (page_images st) 0)
          ++ [Set_status SavingImage; Call_update_idletasks; Call_save out;
              Set_progress 100]).
  split; [exact Hopen|]. split; [exact Hsel|].
  cbv zeta.
  rewrite <- (max_width_after lib doc dpi pages),
    <- (total_height_after lib doc dpi pages). fold st.
  split; [|split; [|split]].
  - unfold trace at 1; cbn [fst]. rewrite Hfinal.
    rewrite <- !app_assoc. reflexivity.
  - unfold trace at 1; cbn [fst]. rewrite Hfinal.
    unfold canvases. rewrite !collect_app. fold canvases.
    replace (canvases (trace (select_pages doc only)))
      with (@nil (string * nat * nat * Color)).
    2:{ symmetry. no_such_event is_scan_event. apply select_pages_events. }
    replace (canvases (trace (render_pages _ _ _ _ _ _)))
      with (@nil (string * nat * nat * Color)).
    2:{ symmetry. no_such_event is_loop_event. apply render_pages_events. }
    replace (canvases (map paste_event _))
      with (@nil (string * nat * nat * Color)).
    2:{ symmetry. apply (collect_none _ is_paste_event).
        - intros []; simpl; intros; try discriminate; reflexivity.
        - apply Forall_forall. intros ev Hev. apply in_map_iff in Hev.
          now destruct Hev as (p & <- & _). }
    reflexivity.
  - unfold render_attempts. rewrite !collect_app. fold render_attempts.
    rewrite render_pages_attempts.
    replace (render_attempts (trace (select_pages doc only))) with (@nil nat).
    2:{ symmetry. no_such_event is_scan_event. apply select_pages_events. }
    simpl. now rewrite app_nil_r.
  - apply Forall_app; split.
    + apply Forall_forall. intros ev Hev. apply in_map_iff in Hev.
      now destruct Hev as (p & <- & _).
    + repeat constructor.
Qed.

Lemma C2_witness :
  let run :=
    pdf_to_vertical_image_with_gui_updates
      (Samples.library Samples.three_pages) "doc.pdf" "out.png" 150 false in
  canvases (trace run) = [("RGB"%string, 800, 3000, (255, 255, 255))].
Proof.
  destruct (C2_canvas_size (Samples.library Samples.three_pages)
              "doc.pdf" "out.png" 150 false eq_refl)
    as (doc & pages & before & after & Hopen & Hsel & _ & Hcanvas & _).
  injection Hopen as <-. injection Hsel as <-. exact Hcanvas.
Defined.

(** ** Page selection, without the trace *)

Lemma scan_pages_returned doc range acc pages :
  outcome (scan_pages doc range acc) = Returned pages ->
  pages = acc ++ filter (has_images doc) range
  /\ forall p, In p range -> inspectable doc p = true.
Proof.
  revert acc; induction range as [|p range IH]; intros acc; simpl.
  - intros [= <-]. split; [now rewrite app_nil_r | intros _ []].
  - unfold bind, call, outcome, has_images, inspectable; simpl.
    destruct (load_page doc Scan p) as [page|msg] eqn:Hl; simpl;
      [|discriminate].
    destruct (get_images page) as [images|msg] eqn:Hg; simpl;
      [|discriminate].
    intros H. apply IH in H. destruct H as (-> & Hall). split.
    + destruct (nonempty images); [|reflexivity].
      now rewrite <- app_assoc.
    + intros q [<-|Hq]; [now rewrite Hl, Hg | now apply Hall].
Qed.

Lemma scan_pages_inspectable doc range acc :
  (forall p, In p range -> inspectable doc p = true) ->
  outcome (scan_pages doc range acc) =
  Returned (acc ++ filter (has_images doc) range).
Proof.
  revert acc; induction range as [|p range IH]; intros acc Hall; simpl.
  - unfold ret, outcome; simpl. now rewrite app_nil_r.
  - pose proof (Hall p (or_introl eq_refl)) as Hp.
    unfold bind, call, outcome, has_images, inspectable in *; simpl.
    destruct (load_page doc Scan p) as [page|msg]; simpl; [|discriminate].
    destruct (get_images page) as [images|msg]; simpl; [|discriminate].
    rewrite IH by (intros q Hq; apply Hall; now right).
    destruct (nonempty images); [|reflexivity].
    now rewrite <- app_assoc.
Qed.

Lemma seq_sorted start len : StronglySorted lt (seq start len).
Proof.
  revert start; induction len as [|len IH]; intros start; simpl;
    constructor; [apply IH|].
  apply Forall_forall. intros x Hx. apply in_seq in Hx. lia.
Qed.

Lemma filter_sorted (f : nat -> bool) l :
  StronglySorted lt l -> StronglySorted lt (filter f l).
Proof.
  induction 1 as [|x l Hs IH Hx]; simpl; [constructor|].
  destruct (f x); [|exact IH]. constructor; [exact IH|].
  apply Forall_forall. intros y Hy. apply filter_In in Hy.
  rewrite Forall_forall in Hx. now apply Hx.
Qed.

(** The selection that is returned: all the pages, or those with an image;
    in ascending order either way. *)
Lemma select_pages_returned doc only pages :
  outcome (select_pages doc only) = Returned pages ->
  pages = (if only then filter (has_images doc) (seq 0 (page_count doc))
           else seq 0 (page_count doc))
  /\ StronglySorted lt pages.
Proof.
  unfold select_pages. destruct only.
  - unfold bind, update_status, emit, ret, raise, outcome; simpl.
    destruct (snd (scan_pages doc (seq 0 (page_count doc)) []))
      as [found|e] eqn:Hscan; simpl; [|discriminate].
    apply scan_pages_returned in Hscan. destruct Hscan as (Hfound & _).
    simpl in Hfound.
    destruct (nonempty found); simpl; [|discriminate].
    intros [= <-]. split; [exact Hfound|].
    rewrite Hfound. apply filter_sorted, seq_sorted.
  - unfold ret, outcome; simpl. intros [= <-].
    split; [reflexivity | apply seq_sorted].
Qed.

(** ** Bands: the rows that each pasted page covers *)

Lemma prefix_sum_step (hs : list nat) k h :
  nth_error hs k = Some h ->
  list_sum (firstn (S k) hs) = list_sum (firstn k hs) + h.
Proof.
  revert k; induction hs as [|x hs IH]; intros [|k]; simpl; try discriminate.
  - intros [= ->]. lia.
  - intros H. apply IH in H. simpl in H. lia.
Qed.

Lemma prefix_sum_mono (hs : list nat) k k' :
  k <= k' -> list_sum (firstn k hs) <= list_sum (firstn k' hs).
Proof.
  revert k k'; induction hs as [|x hs IH]; intros [|k] [|k'] Hle; simpl;
    try lia.
  specialize (IH k k'). lia.
Qed.

(** Every row below the total lies in the band of some page. *)
Lemma bands_cover (hs : list nat) row :
  row < list_sum hs ->
  exists k h,
    nth_error hs k = Some h
    /\ list_sum (firstn k hs) <= row < list_sum (firstn k hs) + h.
Proof.
  revert row; induction hs as [|x hs IH]; intros row; simpl; [lia|].
  intros Hrow. destruct (Nat.lt_ge_cases row x) as [Hlt|Hge].
  - exists 0, x. simpl. split; [reflexivity | lia].
  - destruct (IH (row - x)) as (k & h & Hk & Hband); [lia|].
    exists (S k), h. simpl. split; [exact Hk | lia].
Qed.

(** The bands of two different pages share no row. *)
Lemma bands_disjoint (hs : list nat) k k' h h' row :
  nth_error hs k = Some h -> nth_error hs k' = Some h' ->
  list_sum (firstn k hs) <= row < list_sum (firstn k hs) + h ->
  list_sum (firstn k' hs) <= row < list_sum (firstn k' hs) + h' ->
  k = k'.
Proof.
  intros Hk Hk' Hb Hb'.
  pose proof (prefix_sum_step _ _ _ Hk) as Hs.
  pose proof (prefix_sum_step _ _ _ Hk') as Hs'.
  destruct (Nat.lt_trichotomy k k') as [Hlt|[Heq|Hgt]]; [|exact Heq|].
  - pose proof (prefix_sum_mono hs (S k) k' Hlt). lia.
  - pose proof (prefix_sum_mono hs (S k') k Hgt). lia.
Qed.

(** ** C3 and C5: where the pages are pasted *)

Lemma canvases_of_pastes ps : canvases (map paste_event ps) = [].
Proof.
  apply (collect_none _ is_paste_event).
  - intros []; simpl; intros; try discriminate; reflexivity.
  - apply Forall_forall. intros ev Hev. apply in_map_iff in Hev.
    now destruct Hev as (p & <- & _).
Qed.

(** The canvas and the pastes of any conversion: none at all, or one canvas
    sized to the rendered pages and the pastes of [layout]. *)
Lemma pipeline_composite lib pdf out dpi only :
  let run := pdf_to_vertical_image_with_gui_updates lib pdf out dpi only in
  (paste_calls (trace run) = [] /\ canvases (trace run) = []
   /\ outcome run <> Returned tt)
  \/ (exists doc pages,
         fitz_open lib pdf = Ok doc
         /\ outcome (select_pages doc only) = Returned pages
         /\ let imgs := rendered_images lib doc dpi pages in
            paste_calls (trace run) = layout (list_max (widths imgs)) imgs 0
            /\ canvases (trace run) =
               [("RGB"%string, list_max (widths imgs),
                 list_sum (heights imgs), white)]).
Proof.
  intros run.
  destruct (pipeline_cases lib pdf out dpi only)
    as [(msg & _ & H)|[(doc & _ & _ & H)|[(doc & e & _ & _ & _ & H)
       |(doc & pages & Hopen & Hcount & Hsel)]]].
  - left. unfold run. rewrite H. repeat split; discriminate.
  - left. unfold run. rewrite H. repeat split; discriminate.
  - left. unfold run. rewrite H. rewrite !trace_pair, outcome_pair.
    unfold paste_calls, canvases. rewrite !collect_app.
    fold paste_calls canvases.
    replace (paste_calls (trace (select_pages doc only))) with (@nil Paste).
    2:{ symmetry. no_such_event is_scan_event. apply select_pages_events. }
    replace (canvases (trace (select_pages doc only)))
      with (@nil (string * nat * nat * Color)).
    2:{ symmetry. no_such_event is_scan_event. apply select_pages_events. }
    repeat split; discriminate.
  - assert (Hp : paste_calls (trace run) =
                 paste_calls (trace (composite_and_save lib out
                   (rendering_after lib doc dpi pages rendering_start)))).
    { unfold run, paste_calls.
      rewrite (pipeline_collect _ _ _ out dpi _ _ _ Hopen Hcount Hsel).
      fold paste_calls.
      replace (paste_calls (trace (select_pages doc only))) with (@nil Paste).
      2:{ symmetry. no_such_event is_scan_event. apply select_pages_events. }
      replace (paste_calls (trace (render_pages _ _ _ _ _ _)))
        with (@nil Paste).
      2:{ symmetry. no_such_event is_loop_event. apply render_pages_events. }
      reflexivity. }
    assert (Hc : canvases (trace run) =
                 canvases (trace (composite_and_save lib out
                   (rendering_after lib doc dpi pages rendering_start)))).
    { unfold run, canvases.
      rewrite (pipeline_collect _ _ _ out dpi _ _ _ Hopen Hcount Hsel).
      fold canvases.
      replace (canvases (trace (select_pages doc only)))
        with (@nil (string * nat * nat * Color)).
      2:{ symmetry. no_such_event is_scan_event. apply select_pages_events. }
      replace (canvases (trace (render_pages _ _ _ _ _ _)))
        with (@nil (string * nat * nat * Color)).
      2:{ symmetry. no_such_event is_loop_event. apply render_pages_events. }
      reflexivity. }
    assert (Ho : outcome run =
                 outcome (composite_and_save lib out
                   (rendering_after lib doc dpi pages rendering_start))).
    { unfold run.
      now rewrite (pipeline_rendering _ _ out dpi _ _ _ Hopen Hcount Hsel). }
    rewrite Hp, Hc, Ho. rewrite composite_and_save_eq.
    rewrite max_width_after, total_height_after, page_images_after.
    destruct (nonempty (rendered_images lib doc dpi pages)).
    + right. exists doc, pages. split; [exact Hopen|]. split; [exact Hsel|].
      cbv zeta. unfold trace; cbn [fst]. split.
      * unfold paste_calls. rewrite !collect_app. fold paste_calls.
        rewrite paste_calls_layout.
        match goal with
        | |- context [Image_save ?l ?c ?o] => destruct (Image_save l c o)
        end; simpl; now rewrite app_nil_r.
      * unfold canvases. rewrite !collect_app. fold canvases.
        rewrite canvases_of_pastes.
        match goal with
        | |- context [Image_save ?l ?c ?o] => destruct (Image_save l c o)
        end; reflexivity.
    + left. repeat split; discriminate.
Qed.

Lemma list_max_ge (l : list nat) x : In x l -> x <= list_max l.
Proof.
  induction l as [|y l IH]; simpl; [intros []|].
  intros [->|H]; [lia|]. specialize (IH H). lia.
Qed.

(** C5.  Whenever a page is pasted, its horizontal offset is the floor of
    half the difference between the width of the canvas and its own width;
    the offset is not negative and the page ends within the canvas. *)
Theorem C5_horizontal_offset lib pdf out dpi only img x y mode w h color :
  let run := pdf_to_vertical_image_with_gui_updates lib pdf out dpi only in
  In (Call_paste img x y) (trace run) ->
  In (Call_Image_new mode w h color) (trace run) ->
  (x = (Z.of_nat w - Z.of_nat (width img)) / 2
   /\ 0 <= x
   /\ x + Z.of_nat (width img) <= Z.of_nat w)%Z.
Proof.
  intros run; subst run; intros Hpaste Hnew.
  set (run := pdf_to_vertical_image_with_gui_updates lib pdf out dpi only)
    in *.
  assert (Hp : In {| pasted := img; at_x := x; at_y := y |}
                 (paste_calls (trace run))).
  { apply collect_In. exists (Call_paste img x y). now split. }
  assert (Hc : In (mode, w, h, color) (canvases (trace run))).
  { apply collect_In. exists (Call_Image_new mode w h color). now split. }
  destruct (pipeline_composite lib pdf out dpi only)
    as [(Hnone & _ & _)|(doc & pages & _ & _ & Hlayout & Hcanvas)];
    unfold run in *.
  - rewrite Hnone in Hp. destruct Hp.
  - cbv zeta in *. rewrite Hcanvas in Hc. destruct Hc as [Hc|[]].
    injection Hc as _ <- _ _.
    rewrite Hlayout in Hp.
    apply In_nth_error in Hp. destruct Hp as (k & Hk).
    apply layout_nth in Hk. simpl in Hk. destruct Hk as (Himg & Hx & _).
    apply nth_error_In in Himg.
    assert (Hle : width img <= list_max (widths (rendered_images lib doc dpi
                                                    pages))).
    { apply list_max_ge. unfold widths. now apply in_map. }
    rewrite Hx. unfold x_offset_of.
    split; [reflexivity|].
    split; Z.to_euclidean_division_equations; lia.
Qed.

Lemma C5_witness :
  (100 = (800 - 600) / 2 /\ 0 <= 100 /\ 100 + 600 <= 800)%Z.
Proof.
  apply (C5_horizontal_offset (Samples.library Samples.three_pages)
           "doc.pdf" "out.png" 150 false
           {| width := 600; height := 1000; data := [] |} 100 1000
           "RGB" 800 3000 white).
  - vm_compute. tauto.
  - vm_compute. tauto.
Defined.

(** C3.  In a conversion that returns, the pages pasted are the pages that
    rendered, each once, in the order of the selection, which ascends; the
    k-th paste is at the height where the k pastes before it end; the
    heights of the pasted pages add up to the height of the canvas; and every
    row of the canvas lies in the band of exactly one pasted page, so that
    the pastes leave no gap and do not overlap. *)
Theorem C3_pages_stacked_in_order lib pdf out dpi only :
  let run := pdf_to_vertical_image_with_gui_updates lib pdf out dpi only in
  outcome run = Returned tt ->
  exists doc pages w h,
    fitz_open lib pdf = Ok doc
    /\ outcome (select_pages doc only) = Returned pages
    /\ StronglySorted lt pages
    /\ canvases (trace run) = [("RGB"%string, w, h, white)]
    /\ let ps := paste_calls (trace run) in
       map pasted ps = rendered_images lib doc dpi pages
       /\ (forall k p,
              nth_error ps k = Some p ->
              at_y p = Z.of_nat (list_sum (heights (map pasted (firstn k ps)))))
       /\ list_sum (heights (map pasted ps)) = h
       /\ (forall row,
              row < h ->
              exists k p,
                nth_error ps k = Some p
                /\ (at_y p <= Z.of_nat row
                    < at_y p + Z.of_nat (height (pasted p)))%Z
                /\ forall k' p',
                    nth_error ps k' = Some p' ->
                    (at_y p' <= Z.of_nat row
                     < at_y p' + Z.of_nat (height (pasted p')))%Z ->
                    k' = k).
Proof.
  intros run; subst run; intros Hret.
  destruct (pipeline_composite lib pdf out dpi only)
    as [(_ & _ & Hno)|(doc & pages & Hopen & Hsel & Hlayout & Hcanvas)];
    [contradiction|].
  cbv zeta in *.
  set (imgs := rendered_images lib doc dpi pages) in *.
  set (mw := list_max (widths imgs)) in *.
  exists doc, pages, mw, (list_sum (heights imgs)).
  split; [exact Hopen|]. split; [exact Hsel|].
  split; [apply (select_pages_returned _ _ _ Hsel)|].
  split; [exact Hcanvas|].
  rewrite Hlayout.
  assert (Hnth : forall k p,
             nth_error (layout mw imgs 0) k = Some p ->
             nth_error (heights imgs) k = Some (height (pasted p))
             /\ at_y p = Z.of_nat (list_sum (firstn k (heights imgs)))).
  { intros k p Hk. apply layout_nth in Hk. destruct Hk as (Hi & _ & Hy).
    split.
    - unfold heights. now rewrite nth_error_map, Hi.
    - rewrite Hy. simpl. unfold heights. now rewrite firstn_map. }
  split; [apply layout_pasted|]. split; [|split].
  - intros k p Hk. destruct (Hnth k p Hk) as (_ & ->).
    f_equal. f_equal. unfold heights.
    rewrite <- firstn_map, layout_pasted. now rewrite firstn_map.
  - now rewrite layout_pasted.
  - intros row Hrow.
    destruct (bands_cover _ _ Hrow) as (k & hk & Hk & Hband).
    assert (Hlen : k < List.length (layout mw imgs 0)).
    { rewrite <- (length_map pasted), layout_pasted.
      rewrite <- (length_map height). apply nth_error_Some.
      unfold heights in Hk. now rewrite Hk. }
    destruct (nth_error (layout mw imgs 0) k) as [p|] eqn:Hp.
    2:{ apply nth_error_None in Hp. lia. }
    exists k, p. destruct (Hnth k p Hp) as (Hh & Hy).
    assert (hk = height (pasted p)) by congruence. subst hk.
    split; [exact Hp|]. split; [rewrite Hy; lia|].
    intros k' p' Hp' Hband'.
    destruct (Hnth k' p' Hp') as (Hh' & Hy').
    rewrite Hy' in Hband'.
    apply (bands_disjoint (heights imgs) k' k _ _ row Hh' Hh); lia.
Qed.

Lemma C3_witness :
  let run :=
    pdf_to_vertical_image_with_gui_updates
      (Samples.library Samples.five_pages_third_fails)
      "doc.pdf" "out.png" 150 false in
  map at_y (paste_calls (trace run)) = [0; 800; 1600; 2300]%Z
  /\ exists w, canvases (trace run) = [("RGB"%string, w, 3100, white)].
Proof.
  destruct (C3_pages_stacked_in_order
              (Samples.library Samples.five_pages_third_fails)
              "doc.pdf" "out.png" 150 false eq_refl)
    as (doc & pages & w & h & _ & _ & _ & Hcanvas & _ & _ & Hsum & _).
  split; [reflexivity|].
  exists w. rewrite Hcanvas. now rewrite <- Hsum.
Defined.

(** ** C9 and C4: the selection *)

(** C9.  For a document of N >= 1 pages and the filter off, the selection is
    0, 1, ..., N-1: it has length N, it ascends, its i-th element is i, the
    selection phase calls nothing, and the rendering loop tries exactly these
    pages in this order. *)
Theorem C9_all_pages_selected lib pdf out dpi doc N :
  fitz_open lib pdf = Ok doc ->
  page_count doc = N ->
  1 <= N ->
  select_pages doc false = ([], Returned (seq 0 N))
  /\ List.length (seq 0 N) = N
  /\ StronglySorted lt (seq 0 N)
  /\ (forall i, i < N -> nth_error (seq 0 N) i = Some i)
  /\ render_attempts
       (trace (pdf_to_vertical_image_with_gui_updates lib pdf out dpi false))
     = seq 0 N.
Proof.
  intros Hopen HN Hpos.
  assert (Hsel : select_pages doc false = ([], Returned (seq 0 N))).
  { unfold select_pages, ret. now rewrite HN. }
  split; [exact Hsel|]. split; [apply length_seq|].
  split; [apply seq_sorted|]. split.
  - intros i Hi. rewrite nth_error_nth' with (d := 0).
    + now rewrite seq_nth.
    + now rewrite length_seq.
  - assert (Hcount : page_count doc <> 0) by lia.
    assert (Hret : outcome (select_pages doc false) = Returned (seq 0 N))
      by now rewrite Hsel.
    exact (pipeline_render_attempts _ _ out dpi _ _ _ Hopen Hcount Hret).
Qed.

Lemma C9_witness :
  select_pages Samples.three_pages false = ([], Returned [0; 1; 2])
  /\ render_attempts
       (trace (pdf_to_vertical_image_with_gui_updates
                 (Samples.library Samples.three_pages)
                 "doc.pdf" "out.png" 150 false))
     = [0; 1; 2].
Proof.
  destruct (C9_all_pages_selected (Samples.library Samples.three_pages)
              "doc.pdf" "out.png" 150 Samples.three_pages 3
              eq_refl eq_refl ltac:(lia))
    as (Hsel & _ & _ & _ & Hattempts).
  split; [exact Hsel | exact Hattempts].
Defined.

(** The selection with the filter on, when every page can be inspected. *)
Lemma select_pages_filtered doc :
  (forall i, i < page_count doc -> inspectable doc i = true) ->
  let qualifying := filter (has_images doc) (seq 0 (page_count doc)) in
  outcome (select_pages doc true) =
  if nonempty qualifying then Returned qualifying
  else Raised NoMatchingPages.
Proof.
  intros Hall qualifying.
  assert (Hscan : outcome (scan_pages doc (seq 0 (page_count doc)) [])
                  = Returned qualifying).
  { rewrite scan_pages_inspectable; [reflexivity|].
    intros p Hp. apply in_seq in Hp. apply Hall. lia. }
  unfold select_pages.
  rewrite (bind_returned _ _ tt) by reflexivity.
  rewrite (bind_returned _ _ qualifying) by exact Hscan.
  rewrite outcome_pair.
  destruct (nonempty qualifying); reflexivity.
Qed.

(** What follows the selection never raises "No pages containing images were
    found in the PDF.". *)
Lemma composite_and_save_not_no_match lib out st :
  outcome (composite_and_save lib out st) <> Raised NoMatchingPages.
Proof.
  rewrite composite_and_save_eq.
  destruct (nonempty (page_images st)); rewrite outcome_pair;
    [|discriminate].
  destruct (Image_save lib (final_canvas st) out); discriminate.
Qed.

(** C4, as the claim states it, at the document without pages: no page
    qualifies, and the conversion does not fail with "No pages containing
    images were found in the PDF." but with "The PDF file ... has no
    pages.". *)
Lemma C4_counterexample :
  let doc := Samples.empty_document in
  let run :=
    pdf_to_vertical_image_with_gui_updates (Samples.library doc)
      "doc.pdf" "out.png" 150 true in
  ~ (outcome run = Raised NoMatchingPages <->
     forall i, i < page_count doc -> has_images doc i = false).
Proof.
  intros doc run [_ H].
  assert (Hrun : outcome run = Raised NoMatchingPages).
  { apply H. intros i Hi. inversion Hi. }
  discriminate Hrun.
Qed.

(** C4, amended.  For a document of at least one page whose pages can all be
    loaded and inspected, and any DPI, with the filter on: the qualifying
    pages are the indices below the page count whose page has an image, in
    strictly ascending order; when some page qualifies the selection is
    exactly this list and the rendering loop tries exactly these pages; and
    the conversion fails with "No pages containing images were found in the
    PDF." if and only if no page qualifies. *)
Theorem C4_pages_with_images_selected lib pdf out dpi doc :
  fitz_open lib pdf = Ok doc ->
  1 <= page_count doc ->
  (forall i, i < page_count doc -> inspectable doc i = true) ->
  let qualifying := filter (has_images doc) (seq 0 (page_count doc)) in
  let run := pdf_to_vertical_image_with_gui_updates lib pdf out dpi true in
  StronglySorted lt qualifying
  /\ (forall i,
         In i qualifying <-> i < page_count doc /\ has_images doc i = true)
  /\ (qualifying <> [] ->
      outcome (select_pages doc true) = Returned qualifying
      /\ render_attempts (trace run) = qualifying)
  /\ (outcome run = Raised NoMatchingPages <->
      forall i, i < page_count doc -> has_images doc i = false).
Proof.
  intros Hopen Hpos Hall qualifying run.
  assert (Hcount : page_count doc <> 0) by lia.
  pose proof (select_pages_filtered doc Hall) as Hsel.
  cbv zeta in Hsel. fold qualifying in Hsel.
  assert (Hin : forall i,
             In i qualifying <-> i < page_count doc /\ has_images doc i = true).
  { intros i. unfold qualifying. rewrite filter_In, in_seq.
    split; intros [H1 H2]; split; trivial; lia. }
  assert (Hsorted : StronglySorted lt qualifying)
    by apply filter_sorted, seq_sorted.
  clearbody qualifying.
  assert (Hnil : qualifying = [] <->
                 forall i, i < page_count doc -> has_images doc i = false).
  { split.
    - intros Hq i Hi. destruct (has_images doc i) eqn:E; [|reflexivity].
      assert (Hi' : In i qualifying) by (apply Hin; auto).
      rewrite Hq in Hi'. destruct Hi'.
    - intros Hno. destruct qualifying as [|q qs]; [reflexivity|].
      assert (Hq : In q (q :: qs)) by now left.
      apply Hin in Hq. destruct Hq as (Hq1 & Hq2).
      rewrite (Hno q Hq1) in Hq2. discriminate. }
  split; [exact Hsorted|]. split; [exact Hin|].
  split.
  - intros Hne.
    assert (Hret : outcome (select_pages doc true) = Returned qualifying).
    { rewrite Hsel. destruct qualifying; [congruence | reflexivity]. }
    split; [exact Hret|].
    exact (pipeline_render_attempts _ _ out dpi _ _ _ Hopen Hcount Hret).
  - rewrite <- Hnil. split.
    + intros Hrun. destruct qualifying as [|q qs]; [reflexivity|].
      exfalso.
      change (outcome (select_pages doc true) = Returned (q :: qs)) in Hsel.
      unfold run in Hrun.
      rewrite (pipeline_rendering _ _ out dpi _ _ _ Hopen Hcount Hsel) in Hrun.
      rewrite outcome_pair in Hrun.
      exact (composite_and_save_not_no_match _ _ _ Hrun).
    + intros Hq. rewrite Hq in Hsel.
      change (outcome (select_pages doc true) = Raised NoMatchingPages)
        in Hsel.
      destruct (pipeline_cases lib pdf out dpi true)
        as [(msg & H & _)|[(doc' & H & H0 & _)|[(doc' & e & H & _ & He & Hr)
           |(doc' & pages & H & _ & Hp)]]].
      * congruence.
      * assert (doc' = doc) by congruence. subst doc'. contradiction.
      * assert (doc' = doc) by congruence. subst doc'.
        unfold run. rewrite Hr, outcome_pair. congruence.
      * assert (doc' = doc) by congruence. subst doc'. congruence.
Qed.

Lemma C4_witness :
  let run :=
    pdf_to_vertical_image_with_gui_updates
      (Samples.library Samples.three_pages) "doc.pdf" "out.png" 150 true in
  outcome (select_pages Samples.three_pages true) = Returned [1]
  /\ render_attempts (trace run) = [1].
Proof.
  destruct (C4_pages_with_images_selected
              (Samples.library Samples.three_pages) "doc.pdf" "out.png" 150
              Samples.three_pages eq_refl ltac:(simpl; lia))
    as (_ & _ & H & _).
  - intros [|[|[|i]]] Hi; try reflexivity. simpl in Hi. lia.
  - apply H. discriminate.
Defined.

(** With the filter on and no image anywhere, the conversion closes the
    document and fails. *)
Example no_page_has_an_image :
  let doc := Samples.document [Samples.page [] (Some (600, 800))] in
  pdf_to_vertical_image_with_gui_updates (Samples.library doc)
    "doc.pdf" "out.png" 150 true =
  ([Call_fitz_open "doc.pdf"; Set_status (Scanning "doc.pdf" 1);
    Call_update_idletasks; Set_status FilteringPages; Call_update_idletasks;
    Call_load_page Scan 0; Call_get_images 0; Call_close],
   Raised NoMatchingPages).
Proof. reflexivity. Qed.

(** ** C10 and C6: a page that cannot be scanned *)

(** The scan stops at the first page that cannot be scanned, with the
    exception of the library. *)
Lemma scan_pages_fails doc before i after acc msg :
  (forall j, In j before -> inspectable doc j = true) ->
  scan_fails doc i msg ->
  let scan := scan_pages doc (before ++ i :: after) acc in
  outcome scan = Raised (LibraryError msg)
  /\ scan_attempts (trace scan) = before ++ [i]
  /\ closes (trace scan) = [].
Proof.
  revert acc; induction before as [|p before IH]; intros acc Hall Hfail scan;
    subst scan.
  - simpl. unfold bind, call, outcome, trace; simpl.
    destruct Hfail as [Hl|(page & Hl & Hg)]; rewrite Hl; simpl.
    + repeat split.
    + rewrite Hg; simpl. repeat split.
  - pose proof (Hall p (or_introl eq_refl)) as Hp.
    unfold inspectable in Hp.
    simpl. unfold bind at 1, call at 1. simpl.
    destruct (load_page doc Scan p) as [page|m]; [|discriminate]. simpl.
    unfold bind at 1, call at 1. simpl.
    destruct (get_images page) as [images|m]; [|discriminate]. simpl.
    destruct (IH (if nonempty images then acc ++ [p] else acc))
      as (Ho & Ha & Hc); [intros j Hj; apply Hall; now right | exact Hfail|].
    cbv zeta in Ho, Ha, Hc. unfold outcome, trace in *.
    rewrite Ho. simpl. unfold scan_attempts, closes in *; simpl.
    rewrite Ha, Hc. repeat split.
Qed.

(** [attempt] (lines 159-166) when the pipeline raises: the exception is
    shown in a message box and in the status line. *)
Lemma attempt_raised lib pdf out dpi only e :
  outcome (pdf_to_vertical_image_with_gui_updates lib pdf out dpi only)
  = Raised e ->
  attempt lib pdf out dpi only =
  (trace (pdf_to_vertical_image_with_gui_updates lib pdf out dpi only)
   ++ [Call_messagebox (ConversionError e); Set_status (ErrorMessage e);
       Call_update_idletasks],
   Returned tt).
Proof.
  intros Hraised. unfold attempt.
  rewrite (bind_raised _ _ e) by exact Hraised.
  unfold try_except; simpl. reflexivity.
Qed.

Lemma attempt_returned lib pdf out dpi only :
  outcome (pdf_to_vertical_image_with_gui_updates lib pdf out dpi only)
  = Returned tt ->
  attempt lib pdf out dpi only =
  (trace (pdf_to_vertical_image_with_gui_updates lib pdf out dpi only)
   ++ [Call_messagebox (Success out); Set_status ConversionComplete;
       Call_update_idletasks],
   Returned tt).
Proof.
  intros Hret. unfold attempt.
  rewrite (bind_returned _ _ tt) by exact Hret.
  unfold try_except; simpl. reflexivity.
Qed.

(** A conversion with the filter on, of a document whose page [i] is the
    first that cannot be scanned. *)
Lemma pipeline_scan_fails lib pdf out dpi doc i msg :
  fitz_open lib pdf = Ok doc ->
  i < page_count doc ->
  (forall j, j < i -> inspectable doc j = true) ->
  scan_fails doc i msg ->
  let run := pdf_to_vertical_image_with_gui_updates lib pdf out dpi true in
  let scan := scan_pages doc (seq 0 (page_count doc)) [] in
  run = ([Call_fitz_open pdf;
          Set_status (Scanning (Py.basename pdf) (page_count doc));
          Call_update_idletasks; Set_status FilteringPages;
          Call_update_idletasks] ++ trace scan,
         Raised (LibraryError msg))
  /\ scan_attempts (trace scan) = seq 0 (S i)
  /\ closes (trace scan) = [].
Proof.
  intros Hopen Hi Hbefore Hfail run scan.
  assert (Hsplit : seq 0 (page_count doc) =
                   seq 0 i ++ i :: seq (S i) (page_count doc - S i)).
  { replace (page_count doc) with (i + S (page_count doc - S i)) at 1 by lia.
    rewrite seq_app. reflexivity. }
  destruct (scan_pages_fails doc (seq 0 i) i
              (seq (S i) (page_count doc - S i)) [] msg)
    as (Ho & Ha & Hc); [|exact Hfail|].
  { intros j Hj. apply in_seq in Hj. apply Hbefore. lia. }
  cbv zeta in Ho, Ha, Hc. rewrite <- Hsplit in Ho, Ha, Hc. fold scan in Ho, Ha, Hc.
  split; [|split; [|exact Hc]].
  - assert (Hsel : select_pages doc true =
                   ([Set_status FilteringPages; Call_update_idletasks]
                    ++ trace scan, Raised (LibraryError msg))).
    { unfold select_pages.
      rewrite (bind_returned _ _ tt) by reflexivity.
      rewrite (bind_raised _ _ (LibraryError msg)) by exact Ho.
      reflexivity. }
    destruct (pipeline_cases lib pdf out dpi true)
      as [(m & H & _)|[(doc' & H & H0 & _)|[(doc' & e & H & _ & He & Hr)
         |(doc' & pages & H & _ & Hp)]]].
    + congruence.
    + assert (doc' = doc) by congruence. subst doc'. lia.
    + assert (doc' = doc) by congruence. subst doc'.
      unfold run. rewrite Hr. rewrite Hsel in He |- *.
      rewrite outcome_pair in He. rewrite trace_pair.
      injection He as <-. reflexivity.
    + assert (doc' = doc) by congruence. subst doc'.
      rewrite Hsel, outcome_pair in Hp. discriminate.
  - rewrite Ha. rewrite seq_S. reflexivity.
Qed.

(** C10.  With the filter on, let page [i] be the first page that cannot be
    loaded or whose images cannot be listed.  The scan stops there: the pages
    after it are not scanned, nothing is rendered, no "Error on page"
    notice is written, and the conversion raises the exception of the
    library as it is.  The caller, [start_conversion], receives it in its
    [except] and shows it. *)
Theorem C10_scan_failure_propagates lib pdf out dpi doc i msg :
  fitz_open lib pdf = Ok doc ->
  i < page_count doc ->
  (forall j, j < i -> inspectable doc j = true) ->
  scan_fails doc i msg ->
  let run := pdf_to_vertical_image_with_gui_updates lib pdf out dpi true in
  outcome run = Raised (LibraryError msg)
  /\ scan_attempts (trace run) = seq 0 (S i)
  /\ render_attempts (trace run) = []
  /\ error_notices (trace run) = []
  /\ attempt lib pdf out dpi true =
     (trace run
      ++ [Call_messagebox (ConversionError (LibraryError msg));
          Set_status (ErrorMessage (LibraryError msg));
          Call_update_idletasks],
      Returned tt).
Proof.
  intros Hopen Hi Hbefore Hfail run.
  destruct (pipeline_scan_fails lib pdf out dpi doc i msg
              Hopen Hi Hbefore Hfail) as (Hrun & Ha & _).
  cbv zeta in Hrun, Ha. fold run in Hrun.
  assert (Ho : outcome run = Raised (LibraryError msg)) by now rewrite Hrun.
  pose proof (scan_pages_events doc (seq 0 (page_count doc)) []) as Hev.
  split; [exact Ho|]. split; [|split; [|split]].
  - rewrite Hrun, trace_pair. unfold scan_attempts in *.
    rewrite collect_app, Ha. reflexivity.
  - rewrite Hrun, trace_pair. unfold render_attempts.
    rewrite collect_app.
    match goal with
    | |- context [collect ?f (trace ?m)] =>
        replace (collect f (trace m)) with (@nil nat)
    end; [reflexivity|].
    symmetry. no_such_event is_scan_event. exact Hev.
  - rewrite Hrun, trace_pair. unfold error_notices.
    rewrite collect_app.
    match goal with
    | |- context [collect ?f (trace ?m)] =>
        replace (collect f (trace m)) with (@nil nat)
    end; [reflexivity|].
    symmetry. no_such_event is_scan_event. exact Hev.
  - apply attempt_raised. exact Ho.
Qed.

Lemma C10_witness :
  let run :=
    pdf_to_vertical_image_with_gui_updates
      (Samples.library Samples.second_page_unreadable)
      "doc.pdf" "out.png" 150 true in
  outcome run = Raised (LibraryError "bad xref table")
  /\ scan_attempts (trace run) = [0; 1]
  /\ render_attempts (trace run) = [].
Proof.
  destruct (C10_scan_failure_propagates
              (Samples.library Samples.second_page_unreadable)
              "doc.pdf" "out.png" 150 Samples.second_page_unreadable 1
              "bad xref table" eq_refl ltac:(simpl; lia))
    as (Ho & Hs & Hr & _).
  - intros [|j] Hj; [reflexivity | lia].
  - right. exists Samples.unreadable_page. split; reflexivity.
  - repeat split; assumption.
Defined.

(** When a page cannot be scanned, the document that was opened is not
    closed: no path from the scan loop to the end of the function passes a
    [doc.close()]. *)
Lemma scan_failure_leaves_document_open lib pdf out dpi doc i msg :
  fitz_open lib pdf = Ok doc ->
  i < page_count doc ->
  (forall j, j < i -> inspectable doc j = true) ->
  scan_fails doc i msg ->
  let run := pdf_to_vertical_image_with_gui_updates lib pdf out dpi true in
  opens (trace run) = [pdf] /\ closes (trace run) = [].
Proof.
  intros Hopen Hi Hbefore Hfail run.
  destruct (pipeline_scan_fails lib pdf out dpi doc i msg
              Hopen Hi Hbefore Hfail) as (Hrun & _ & Hc).
  cbv zeta in Hrun, Hc. fold run in Hrun.
  pose proof (scan_pages_events doc (seq 0 (page_count doc)) []) as Hev.
  rewrite Hrun, trace_pair. split.
  - unfold opens. rewrite collect_app.
    match goal with
    | |- context [collect ?f (trace ?m)] =>
        replace (collect f (trace m)) with (@nil string)
    end; [reflexivity|].
    symmetry. no_such_event is_scan_event. exact Hev.
  - unfold closes in *. rewrite collect_app, Hc. reflexivity.
Qed.

(** C6, at a document whose second page cannot be inspected, with the filter
    on: the document is opened, the exception of the library leaves the
    pipeline, and [doc.close()] was never called. *)
Theorem C6_document_left_open :
  let run :=
    pdf_to_vertical_image_with_gui_updates
      (Samples.library Samples.second_page_unreadable)
      "doc.pdf" "out.png" 150 true in
  outcome run = Raised (LibraryError "bad xref table")
  /\ opens (trace run) = ["doc.pdf"%string]
  /\ closes (trace run) = [].
Proof. repeat split. Qed.

Lemma scan_pages_no_close doc range acc :
  closes (trace (scan_pages doc range acc)) = [].
Proof.
  no_such_event (fun ev => is_scan_event ev
                           && match ev with Call_close => false | _ => true end).
  revert acc; induction range as [|p range IH]; intros acc; simpl.
  - constructor.
  - unfold bind, call, trace; simpl.
    destruct (load_page doc Scan p) as [page|msg]; simpl;
      [|repeat constructor].
    destruct (get_images page) as [images|msg]; simpl;
      [|repeat constructor].
    constructor; [reflexivity|]. constructor; [reflexivity|]. apply IH.
Qed.

(** On every other path the document is closed, once: when it has no pages,
    when no page has an image, when nothing renders, when saving fails, and
    when the conversion returns. *)
Lemma document_closed_once lib pdf out dpi only doc :
  fitz_open lib pdf = Ok doc ->
  (only = true -> forall i, i < page_count doc -> inspectable doc i = true) ->
  let run := pdf_to_vertical_image_with_gui_updates lib pdf out dpi only in
  opens (trace run) = [pdf] /\ closes (trace run) = [tt].
Proof.
  intros Hopen Hscan run.
  destruct (pipeline_cases lib pdf out dpi only)
    as [(m & H & _)|[(doc' & H & H0 & Hr)|[(doc' & e & H & H0 & He & Hr)
       |(doc' & pages & H & H0 & Hp)]]].
  - congruence.
  - unfold run. rewrite Hr. split; reflexivity.
  - assert (doc' = doc) by congruence. subst doc'.
    destruct only.
    2:{ unfold select_pages, ret in He. discriminate. }
    pose proof (select_pages_filtered doc (Hscan eq_refl)) as Hsel.
    cbv zeta in Hsel.
    set (qualifying := filter (has_images doc) (seq 0 (page_count doc))) in *.
    assert (Hq : outcome (scan_pages doc (seq 0 (page_count doc)) [])
                 = Returned qualifying).
    { rewrite scan_pages_inspectable; [reflexivity|].
      intros p Hp. apply in_seq in Hp. apply (Hscan eq_refl). lia. }
    destruct (nonempty qualifying) eqn:Hne; [congruence|].
    assert (Htrace : trace (select_pages doc true) =
                     [Set_status FilteringPages; Call_update_idletasks]
                     ++ trace (scan_pages doc (seq 0 (page_count doc)) [])
                     ++ [Call_close]).
    { unfold select_pages.
      rewrite (bind_returned _ _ tt) by reflexivity.
      rewrite (bind_returned _ _ qualifying) by exact Hq.
      rewrite Hne. reflexivity. }
    unfold run. rewrite Hr, trace_pair, Htrace. split.
    + unfold opens. rewrite !collect_app.
      match goal with
      | |- context [collect ?f (trace ?m)] =>
          replace (collect f (trace m)) with (@nil string)
      end; [reflexivity|].
      symmetry. no_such_event is_scan_event. apply scan_pages_events.
    + unfold closes. rewrite !collect_app. fold closes.
      rewrite scan_pages_no_close. reflexivity.
  - assert (doc' = doc) by congruence. subst doc'. split.
    + unfold run, opens.
      rewrite (pipeline_collect _ _ _ out dpi _ _ _ Hopen H0 Hp).
      fold opens.
      replace (opens (trace (select_pages doc only))) with (@nil string).
      2:{ symmetry. no_such_event is_scan_event. apply select_pages_events. }
      replace (opens (trace (render_pages _ _ _ _ _ _))) with (@nil string).
      2:{ symmetry. no_such_event is_loop_event. apply render_pages_events. }
      replace (opens (trace (composite_and_save _ _ _))) with (@nil string).
      2:{ symmetry. no_such_event is_final_event.
          apply composite_and_save_events. }
      reflexivity.
    + unfold run, closes.
      rewrite (pipeline_collect _ _ _ out dpi _ _ _ Hopen H0 Hp).
      fold closes.
      rewrite (select_pages_returned_closes _ _ _ Hp).
      replace (closes (trace (render_pages _ _ _ _ _ _))) with (@nil unit).
      2:{ symmetry. no_such_event is_loop_event. apply render_pages_events. }
      replace (closes (trace (composite_and_save _ _ _))) with (@nil unit).
      2:{ symmetry. no_such_event is_final_event.
          apply composite_and_save_events. }
      reflexivity.
Qed.

(** ** C7: the progress bar *)

Local Open Scope Q_scope.

Lemma ratio_bounds (k n : nat) :
  (1 <= n)%nat -> (k <= n)%nat ->
  0 <= inject_Z (Z.of_nat k) / inject_Z (Z.of_nat n) <= 1.
Proof.
  intros Hn Hk.
  assert (Hpos : 0 < inject_Z (Z.of_nat n)).
  { change 0 with (inject_Z 0). rewrite <- Zlt_Qlt. lia. }
  split.
  - apply Qle_shift_div_l; [exact Hpos|]. rewrite Qmult_0_l.
    change 0 with (inject_Z 0). rewrite <- Zle_Qle. lia.
  - apply Qle_shift_div_r; [exact Hpos|]. rewrite Qmult_1_l.
    rewrite <- Zle_Qle. lia.
Qed.

Lemma ratio_mono (k k' n : nat) :
  (1 <= n)%nat -> (k <= k')%nat ->
  inject_Z (Z.of_nat k) / inject_Z (Z.of_nat n)
  <= inject_Z (Z.of_nat k') / inject_Z (Z.of_nat n).
Proof.
  intros Hn Hk. unfold Qdiv.
  apply Qmult_le_compat_r.
  - rewrite <- Zle_Qle. lia.
  - apply Qinv_le_0_compat. change 0 with (inject_Z 0).
    rewrite <- Zle_Qle. lia.
Qed.

(** The percentage of the rendering loop is between 0 and 90. *)
Lemma progress_percentage_bounds (k n : nat) :
  (1 <= n)%nat -> (k <= n)%nat -> 0 <= progress_percentage k n <= 90.
Proof.
  intros Hn Hk. unfold progress_percentage.
  pose proof (ratio_bounds k n Hn Hk) as H.
  set (r := inject_Z (Z.of_nat k) / inject_Z (Z.of_nat n)) in *.
  split; lra.
Qed.

(** It grows with the number of rendered pages. *)
Lemma progress_percentage_mono (k k' n : nat) :
  (1 <= n)%nat -> (k <= k')%nat ->
  progress_percentage k n <= progress_percentage k' n.
Proof.
  intros Hn Hk. unfold progress_percentage.
  pose proof (ratio_mono k k' n Hn Hk) as H.
  set (r := inject_Z (Z.of_nat k) / inject_Z (Z.of_nat n)) in *.
  set (r' := inject_Z (Z.of_nat k') / inject_Z (Z.of_nat n)) in *.
  lra.
Qed.

Local Close Scope Q_scope.

Lemma sorted_app {A : Type} (R : A -> A -> Prop) (l1 l2 : list A) :
  StronglySorted R l1 -> StronglySorted R l2 ->
  (forall x y, In x l1 -> In y l2 -> R x y) ->
  StronglySorted R (l1 ++ l2).
Proof.
  intros H1 H2 H. induction H1 as [|x l1 Hs IH Hx]; simpl; [exact H2|].
  constructor.
  - apply IH. intros a b Ha Hb. apply H; [now right | exact Hb].
  - apply Forall_app; split; [exact Hx|].
    apply Forall_forall. intros y Hy. apply H; [now left | exact Hy].
Qed.

(** The percentages of the rendering loop: ascending, between 0 and 90. *)
Lemma loop_percentages_sorted (n c r : nat) :
  1 <= n ->
  StronglySorted Qle (map (fun k => progress_percentage k n) (seq c r)).
Proof.
  intros Hn. revert c; induction r as [|r IH]; intros c; simpl;
    constructor; [apply IH|].
  apply Forall_forall. intros p Hp. apply in_map_iff in Hp.
  destruct Hp as (k & <- & Hk). apply in_seq in Hk.
  apply progress_percentage_mono; lia.
Qed.

Lemma loop_percentages_bounds (n c r : nat) :
  1 <= n -> c + r <= n + 1 ->
  Forall (fun p => (0 <= p <= 90)%Q)
    (map (fun k => progress_percentage k n) (seq c r)).
Proof.
  intros Hn Hr. apply Forall_forall. intros p Hp. apply in_map_iff in Hp.
  destruct Hp as (k & <- & Hk). apply in_seq in Hk.
  apply progress_percentage_bounds; lia.
Qed.

(** The percentages a conversion pushes: one per rendered page, then 95 when
    it comes to compositing, then 100 when the image was saved. *)
Lemma pipeline_percentages lib pdf out dpi only :
  let run := pdf_to_vertical_image_with_gui_updates lib pdf out dpi only in
  exists n r tail,
    1 <= n /\ r <= n
    /\ percentages (trace run) =
       map (fun k => progress_percentage k n) (seq 1 r) ++ tail
    /\ ((tail = [] /\ outcome run <> Returned tt)
        \/ (tail = [95%Q] /\ outcome run <> Returned tt)
        \/ (tail = [95%Q; 100%Q] /\ outcome run = Returned tt
            /\ exists before canvas,
                trace run = before ++ [Call_save out; Set_progress 100]
                /\ Image_save lib canvas out = Ok tt
                /\ percentages before =
                   map (fun k => progress_percentage k n) (seq 1 r)
                   ++ [95%Q])).
Proof.
  intros run.
  destruct (pipeline_cases lib pdf out dpi only)
    as [(m & _ & Hr)|[(doc & _ & _ & Hr)|[(doc & e & _ & _ & _ & Hr)
       |(doc & pages & Hopen & Hcount & Hsel)]]].
  - exists 1, 0, []. unfold run. rewrite Hr.
    repeat split; try lia. left. split; [reflexivity | discriminate].
  - exists 1, 0, []. unfold run. rewrite Hr.
    repeat split; try lia. left. split; [reflexivity | discriminate].
  - exists 1, 0, []. unfold run. rewrite Hr, trace_pair, outcome_pair.
    split; [lia|]. split; [lia|]. split.
    + unfold percentages. rewrite collect_app.
      match goal with
      | |- context [collect ?f (trace ?m)] =>
          replace (collect f (trace m)) with (@nil Q)
      end; [reflexivity|].
      symmetry. no_such_event is_scan_event. apply select_pages_events.
    + left. split; [reflexivity | discriminate].
  - pose proof (select_pages_nonempty _ _ _ Hcount Hsel) as Hne.
    set (n := List.length pages).
    set (imgs := rendered_images lib doc dpi pages).
    set (st := rendering_after lib doc dpi pages rendering_start).
    assert (Hn : 1 <= n).
    { unfold n. destruct pages; [congruence | simpl; lia]. }
    assert (Hloop : percentages
                      (trace (render_pages lib doc dpi n pages rendering_start))
                    = map (fun k => progress_percentage k n)
                        (seq 1 (List.length imgs))).
    { rewrite render_pages_percentages. reflexivity. }
    assert (Hsplit : forall t,
               trace (composite_and_save lib out st) = t ->
               percentages (trace run) =
               map (fun k => progress_percentage k n)
                 (seq 1 (List.length imgs)) ++ percentages t).
    { intros t Ht. unfold run, percentages.
      rewrite (pipeline_collect _ _ _ out dpi _ _ _ Hopen Hcount Hsel).
      fold percentages. fold n st. rewrite Hloop, Ht.
      replace (percentages (trace (select_pages doc only))) with (@nil Q).
      2:{ symmetry. no_such_event is_scan_event. apply select_pages_events. }
      reflexivity. }
    assert (Hout : outcome run = outcome (composite_and_save lib out st)).
    { unfold run.
      now rewrite (pipeline_rendering _ _ out dpi _ _ _ Hopen Hcount Hsel). }
    exists n, (List.length imgs).
    pose proof (composite_and_save_eq lib out st) as Hfinal.
    destruct (nonempty (page_images st)).
    + destruct (Image_save lib (final_canvas st) out) as [[]|msg] eqn:Hsave.
      * exists [95%Q; 100%Q].
        split; [exact Hn|]. split; [apply rendered_images_length|].
        split.
        { rewrite (Hsplit _ (f_equal fst Hfinal)). f_equal. cbn [fst].
          unfold percentages. rewrite !collect_app.
          match goal with
          | |- context [collect ?f (map paste_event ?l)] =>
              replace (collect f (map paste_event l)) with (@nil Q)
          end; [reflexivity|].
          symmetry. apply (collect_none _ is_paste_event).
          - intros []; simpl; intros; try discriminate; reflexivity.
          - apply Forall_forall. intros ev Hev. apply in_map_iff in Hev.
            now destruct Hev as (p & <- & _). }
        right; right. split; [reflexivity|].
        split; [now rewrite Hout, Hfinal|].
        exists ([Call_fitz_open pdf;
                 Set_status (Scanning (Py.basename pdf) (page_count doc));
                 Call_update_idletasks]
                ++ trace (select_pages doc only)
                ++ [Set_status (ProcessingPages n); Call_update_idletasks]
                ++ trace (render_pages lib doc dpi n pages rendering_start)
                ++ [Call_close]
                ++ [Set_status (CreatingOutputImage (max_width st)
                                  (total_height st));
                    Call_update_idletasks; Set_progress 95;
                    Call_Image_new "RGB" (max_width st) (total_height st)
                      white]
                ++ map paste_event (layout (max_width st) (page_images st) 0)
                ++ [Set_status SavingImage; Call_update_idletasks]),
          (final_canvas st).
        split; [|split; [exact Hsave|]].
        { unfold run.
          rewrite (pipeline_rendering _ _ out dpi _ _ _ Hopen Hcount Hsel).
          rewrite trace_pair. fold n st. rewrite Hfinal, trace_pair.
          rewrite <- !app_assoc. reflexivity. }
        { unfold percentages. rewrite !collect_app. fold percentages.
          rewrite Hloop.
          replace (percentages (trace (select_pages doc only))) with (@nil Q).
          2:{ symmetry. no_such_event is_scan_event.
              apply select_pages_events. }
          replace (percentages (map paste_event _)) with (@nil Q).
          2:{ symmetry. apply (collect_none _ is_paste_event).
              - intros []; simpl; intros; try discriminate; reflexivity.
              - apply Forall_forall. intros ev Hev. apply in_map_iff in Hev.
                now destruct Hev as (p & <- & _). }
          reflexivity. }
      * exists [95%Q].
        split; [exact Hn|]. split; [apply rendered_images_length|].
        split.
        { rewrite (Hsplit _ (f_equal fst Hfinal)). f_equal. cbn [fst].
          unfold percentages. rewrite !collect_app.
          match goal with
          | |- context [collect ?f (map paste_event ?l)] =>
              replace (collect f (map paste_event l)) with (@nil Q)
          end; [reflexivity|].
          symmetry. apply (collect_none _ is_paste_event).
          - intros []; simpl; intros; try discriminate; reflexivity.
          - apply Forall_forall. intros ev Hev. apply in_map_iff in Hev.
            now destruct Hev as (p & <- & _). }
        right; left. split; [reflexivity|].
        rewrite Hout, Hfinal. discriminate.
    + exists [].
      split; [exact Hn|]. split; [apply rendered_images_length|].
      split.
      { now rewrite (Hsplit _ (f_equal fst Hfinal)). }
      left. split; [reflexivity|]. rewrite Hout, Hfinal. discriminate.
Qed.

(** C7.  Take the percentages pushed from the reset to 0 that starts a
    conversion (line 157) to the end of the pipeline.  Each is between 0 and
    100; they never decrease; and 100 is pushed only by a pipeline that
    returns, as its last event, right after a [save] that succeeded, every
    percentage before it being below 100.  (What [start_conversion] does
    after the pipeline, in its [finally], is [handler_resets_progress]
    below.) *)
Theorem C7_progress_monotone lib pdf out dpi only :
  let run := pdf_to_vertical_image_with_gui_updates lib pdf out dpi only in
  let pushed := percentages (trace prepare ++ trace run) in
  Forall (fun p => (0 <= p <= 100)%Q) pushed
  /\ StronglySorted Qle pushed
  /\ (forall p,
         In p pushed -> (p == 100)%Q ->
         outcome run = Returned tt
         /\ exists before canvas,
             trace run = before ++ [Call_save out; Set_progress 100]
             /\ Image_save lib canvas out = Ok tt
             /\ Forall (fun q => (q < 100)%Q)
                  (percentages (trace prepare ++ before))).
Proof.
  intros run pushed.
  destruct (pipeline_percentages lib pdf out dpi only)
    as (n & r & tail & Hn & Hr & Hshape & Htail).
  fold run in Hshape, Htail.
  set (loop := map (fun k => progress_percentage k n) (seq 1 r)) in *.
  assert (Hpushed : pushed = 0%Q :: loop ++ tail).
  { unfold pushed, percentages. rewrite collect_app. fold percentages.
    now rewrite Hshape. }
  assert (Hbounds : Forall (fun p => (0 <= p <= 90)%Q) loop)
    by (apply loop_percentages_bounds; lia).
  assert (Hsorted : StronglySorted Qle loop)
    by (apply loop_percentages_sorted; lia).
  rewrite Forall_forall in Hbounds.
  assert (Htail' : tail = [] \/ tail = [95%Q] \/ tail = [95%Q; 100%Q]).
  { destruct Htail as [(H & _)|[(H & _)|(H & _)]]; auto. }
  assert (Htail_bounds : forall q, In q tail -> (95 <= q <= 100)%Q).
  { intros q Hq.
    destruct Htail' as [-> | [-> | ->]]; simpl in Hq;
      repeat (destruct Hq as [<-|Hq]; [split; lra|]); destruct Hq. }
  assert (Htail_sorted : StronglySorted Qle tail).
  { destruct Htail' as [-> | [-> | ->]]; repeat constructor; lra. }
  rewrite Hpushed. split; [|split].
  - constructor; [split; lra|].
    apply Forall_app; split; apply Forall_forall; intros q Hq.
    + specialize (Hbounds q Hq). split; lra.
    + specialize (Htail_bounds q Hq). split; lra.
  - constructor.
    + apply sorted_app; trivial.
      intros x y Hx Hy. specialize (Hbounds x Hx).
      specialize (Htail_bounds y Hy). lra.
    + apply Forall_app; split; apply Forall_forall; intros q Hq.
      * specialize (Hbounds q Hq). lra.
      * specialize (Htail_bounds q Hq). lra.
  - intros p Hp Hp100.
    destruct Hp as [<-|Hp]; [lra|].
    apply in_app_or in Hp. destruct Hp as [Hp|Hp].
    { specialize (Hbounds p Hp). lra. }
    destruct Htail as [[-> _]|[[-> _]|[-> [Hret Hsave]]]].
    + destruct Hp.
    + destruct Hp as [<-|[]]. lra.
    + split; [exact Hret|].
      destruct Hsave as (before & canvas & Htrace & Hok & Hbefore).
      exists before, canvas. split; [exact Htrace|]. split; [exact Hok|].
      unfold percentages. rewrite collect_app. fold percentages.
      rewrite Hbefore. fold loop.
      constructor; [lra|].
      apply Forall_app; split; apply Forall_forall; intros q Hq.
      * specialize (Hbounds q Hq). lra.
      * destruct Hq as [<-|[]]. lra.
Qed.

(** The handler of the button then resets the bar: whatever the pipeline did,
    the last percentage [start_conversion] pushes is the 0 of its
    [finally]. *)
Lemma handler_resets_progress lib app dpi :
  Py.is_empty (pdf_path_var app) = false ->
  Py.is_empty (output_path_var app) = false ->
  parse_dpi (dpi_var app) = inr dpi ->
  percentages (trace (start_conversion lib app)) =
  percentages
    (trace prepare
     ++ trace (pdf_to_vertical_image_with_gui_updates lib (pdf_path_var app)
                 (output_path_var app) dpi (only_images_var app)))
  ++ [0%Q].
Proof.
  intros Hpdf Hout Hdpi. unfold start_conversion.
  rewrite Hpdf, Hout, Hdpi.
  rewrite (bind_returned _ _ tt) by reflexivity.
  rewrite trace_pair. unfold try_finally. simpl snd. cbv iota.
  rewrite trace_pair.
  set (run := pdf_to_vertical_image_with_gui_updates lib (pdf_path_var app)
                (output_path_var app) dpi (only_images_var app)).
  unfold percentages. rewrite !collect_app. fold percentages.
  rewrite <- app_assoc. f_equal.
  destruct (outcome run) as [[]|e] eqn:Ho.
  - rewrite (attempt_returned _ _ _ _ _ Ho). cbn [fst].
    unfold percentages. rewrite collect_app. fold percentages.
    rewrite <- app_assoc. reflexivity.
  - rewrite (attempt_raised _ _ _ _ _ _ Ho). cbn [fst].
    unfold percentages. rewrite collect_app. fold percentages.
    rewrite <- app_assoc. reflexivity.
Qed.

(** The end-to-end scenario: three pages of widths 800, 600, 800 and height
    1000. *)
Example three_pages_progress :
  let run :=
    pdf_to_vertical_image_with_gui_updates
      (Samples.library Samples.three_pages) "doc.pdf" "out.png" 150 false in
  map Qred (percentages (trace prepare ++ trace run)) =
  [0; 30; 60; 90; 95; 100]%Q
  /\ paste_calls (trace run) =
     [{| pasted := {| width := 800; height := 1000; data := [] |};
         at_x := 0; at_y := 0 |};
      {| pasted := {| width := 600; height := 1000; data := [] |};
         at_x := 100; at_y := 1000 |};
      {| pasted := {| width := 800; height := 1000; data := [] |};
         at_x := 0; at_y := 2000 |}].
Proof. split; reflexivity. Qed.

(** ** C8: the DPI entry *)

Lemma parse_dpi_invalid dpi_str :
  invalid_dpi dpi_str ->
  exists e,
    parse_dpi dpi_str = inl e
    /\ (Py.int dpi_str = None -> e = InvalidLiteral dpi_str)
    /\ (Py.int dpi_str <> None -> e = DpiMustBePositive).
Proof.
  unfold parse_dpi. intros [Hnone|(dpi & Hsome & Hle)].
  - rewrite Hnone. exists (InvalidLiteral dpi_str).
    repeat split; congruence.
  - rewrite Hsome. apply Z.leb_le in Hle. rewrite Hle.
    exists DpiMustBePositive. repeat split; congruence.
Qed.

(** C8.  A request whose DPI entry is not a number, or is a number that is
    not positive, is refused: [start_conversion] shows one error box and
    returns; nothing else happens, so that no document is opened and the
    pipeline does not start (no status, no progress, no library call).  When
    both paths are given the box is the "Invalid DPI value" one, carrying the
    [ValueError] of [int()] or "DPI must be positive."; when a path is
    missing, the box that asks for it comes first. *)
Theorem C8_invalid_dpi_rejected lib app :
  invalid_dpi (dpi_var app) ->
  let run := start_conversion lib app in
  exists box,
    run = ([Call_messagebox box], Returned tt)
    /\ is_error box = true
    /\ opens (trace run) = []
    /\ percentages (trace run) = []
    /\ (Py.is_empty (pdf_path_var app) = false ->
        Py.is_empty (output_path_var app) = false ->
        exists e,
          box = InvalidDpi e
          /\ (Py.int (dpi_var app) = None -> e = InvalidLiteral (dpi_var app))
          /\ (Py.int (dpi_var app) <> None -> e = DpiMustBePositive)).
Proof.
  intros Hinvalid run.
  destruct (parse_dpi_invalid _ Hinvalid) as (e & Hparse & Hlit & Hpos).
  unfold run, start_conversion. cbv zeta.
  destruct (Py.is_empty (pdf_path_var app)).
  - exists SelectInputPdf. repeat split; discriminate.
  - destruct (Py.is_empty (output_path_var app)).
    + exists SpecifyOutputPath. repeat split; discriminate.
    + rewrite Hparse. exists (InvalidDpi e).
      repeat split. intros _ _. exists e. auto.
Qed.

Lemma C8_witness :
  let lib := Samples.library Samples.three_pages in
  start_conversion lib (request "0") =
    ([Call_messagebox (InvalidDpi DpiMustBePositive)], Returned tt)
  /\ start_conversion lib (request "-5") =
    ([Call_messagebox (InvalidDpi DpiMustBePositive)], Returned tt)
  /\ start_conversion lib (request "abc") =
    ([Call_messagebox (InvalidDpi (InvalidLiteral "abc"))], Returned tt).
Proof.
  intros lib. split; [|split].
  - destruct (C8_invalid_dpi_rejected lib (request "0"))
      as (box & Hrun & _ & _ & _ & Hbox).
    + right. exists 0%Z. split; [reflexivity | lia].
    + destruct (Hbox eq_refl eq_refl) as (e & Hb & _ & He).
      rewrite Hb, He in Hrun by discriminate. exact Hrun.
  - destruct (C8_invalid_dpi_rejected lib (request "-5"))
      as (box & Hrun & _ & _ & _ & Hbox).
    + right. exists (-5)%Z. split; [reflexivity | lia].
    + destruct (Hbox eq_refl eq_refl) as (e & Hb & _ & He).
      rewrite Hb, He in Hrun by discriminate. exact Hrun.
  - destruct (C8_invalid_dpi_rejected lib (request "abc"))
      as (box & Hrun & _ & _ & _ & Hbox).
    + left. reflexivity.
    + destruct (Hbox eq_refl eq_refl) as (e & Hb & He & _).
      rewrite Hb, He in Hrun by reflexivity. exact Hrun.
Defined.

(** A valid request, for contrast: the document is opened. *)
Example valid_dpi_starts_the_pipeline :
  opens (trace (start_conversion (Samples.library Samples.three_pages)
                  {| pdf_path_var := "doc.pdf"; output_path_var := "out.png";
                     dpi_var := "150"; only_images_var := false |}))
  = ["doc.pdf"%string].
Proof. reflexivity. Qed.

(** With no input path the request is refused before the DPI is read. *)
Example missing_path_comes_first :
  start_conversion (Samples.library Samples.three_pages)
    {| pdf_path_var := ""; output_path_var := "out.png";
       dpi_var := "abc"; only_images_var := false |}
  = ([Call_messagebox SelectInputPdf], Returned tt).
Proof. reflexivity. Qed.

(** * The handler and the pipeline as a whole *)

(** ** Why the selection fails *)

Lemma scan_pages_raised doc range acc e :
  outcome (scan_pages doc range acc) = Raised e ->
  exists i msg, In i range /\ scan_fails doc i msg /\ e = LibraryError msg.
Proof.
  revert acc. induction range as [|p rest IH]; intros acc H.
  - discriminate.
  - simpl in H. unfold bind, call in H. simpl in H.
    destruct (load_page doc Scan p) as [page|msg] eqn:Hl; simpl in H.
    + destruct (get_images page) as [images|msg] eqn:Hg; simpl in H.
      * destruct (IH _ H) as (i & msg & Hi & Hf & He).
        exists i, msg. repeat split; [now right|exact Hf|exact He].
      * exists p, msg. repeat split; [now left| |congruence].
        right. exists page. now split.
    + exists p, msg. repeat split; [now left|now left|congruence].
Qed.

Lemma select_pages_raised doc only e :
  outcome (select_pages doc only) = Raised e ->
  only = true
  /\ ((e = NoMatchingPages
       /\ trace (select_pages doc only) =
          [Set_status FilteringPages; Call_update_idletasks]
          ++ trace (scan_pages doc (seq 0 (page_count doc)) [])
          ++ [Call_close])
      \/ (exists i msg,
             i < page_count doc /\ scan_fails doc i msg
             /\ e = LibraryError msg
             /\ trace (select_pages doc only) =
                [Set_status FilteringPages; Call_update_idletasks]
                ++ trace (scan_pages doc (seq 0 (page_count doc)) []))).
Proof.
  intros H. destruct only; [|discriminate]. split; [reflexivity|].
  unfold select_pages in *.
  rewrite (bind_returned _ _ tt) in * by reflexivity.
  rewrite outcome_pair in H. rewrite trace_pair.
  destruct (outcome (scan_pages doc (seq 0 (page_count doc)) []))
    as [pages|e'] eqn:Hs.
  - rewrite (bind_returned _ _ pages) in * by exact Hs.
    rewrite outcome_pair in H. rewrite trace_pair.
    destruct (nonempty pages); [discriminate|].
    left. split; [simpl in H; congruence|reflexivity].
  - rewrite (bind_raised _ _ e') in * by exact Hs.
    rewrite outcome_pair in H. rewrite trace_pair.
    destruct (scan_pages_raised _ _ _ _ Hs) as (i & msg & Hi & Hf & He).
    right. exists i, msg. apply in_seq in Hi.
    repeat split; [lia|exact Hf|congruence].
Qed.

(** ** The outcomes of the pipeline *)

Lemma composite_and_save_outcomes lib out st :
  outcome (composite_and_save lib out st) = Returned tt
  \/ outcome (composite_and_save lib out st) = Raised NoPagesRendered
  \/ exists msg,
      outcome (composite_and_save lib out st)
      = Raised (CannotWriteDestination (LibraryError msg)).
Proof.
  rewrite composite_and_save_eq.
  destruct (nonempty (page_images st)); [|now right; left].
  rewrite outcome_pair.
  destruct (Image_save lib (final_canvas st) out) as [[]|msg].
  - now left.
  - right; right. now exists msg.
Qed.

Lemma pipeline_outcomes lib pdf out dpi only :
  let run := pdf_to_vertical_image_with_gui_updates lib pdf out dpi only in
  outcome run = Returned tt
  \/ (exists msg,
         fitz_open lib pdf = Fails msg
         /\ outcome run = Raised (CannotOpenSource pdf (LibraryError msg)))
  \/ outcome run = Raised (EmptySource pdf)
  \/ (only = true /\ outcome run = Raised NoMatchingPages)
  \/ (only = true
      /\ exists doc i msg,
          fitz_open lib pdf = Ok doc /\ i < page_count doc
          /\ scan_fails doc i msg
          /\ outcome run = Raised (LibraryError msg))
  \/ outcome run = Raised NoPagesRendered
  \/ (exists msg,
         outcome run = Raised (CannotWriteDestination (LibraryError msg))).
Proof.
  intros run.
  destruct (pipeline_cases lib pdf out dpi only)
    as [(m & H & Hr)|[(doc & H & H0 & Hr)|[(doc & e & H & H0 & He & Hr)
       |(doc & pages & H & H0 & Hp)]]].
  - right; left. exists m. split; [exact H|]. unfold run. now rewrite Hr.
  - right; right; left. unfold run. now rewrite Hr.
  - destruct (select_pages_raised _ _ _ He)
      as [Ho [[-> _]|(i & msg & Hi & Hf & -> & _)]].
    + right; right; right; left. split; [exact Ho|].
      unfold run. now rewrite Hr.
    + right; right; right; right; left. split; [exact Ho|].
      exists doc, i, msg. repeat split; try assumption.
      unfold run. now rewrite Hr.
  - pose proof (pipeline_rendering lib pdf out dpi only doc pages H H0 Hp)
      as Hr.
    cbv zeta in Hr. unfold run. rewrite Hr, outcome_pair.
    destruct (composite_and_save_outcomes lib out
                (rendering_after lib doc dpi pages rendering_start))
      as [Hc|[Hc|(msg & Hc)]].
    + now left.
    + do 5 right. now left.
    + do 6 right. now exists msg.
Qed.

(** X1: the guard of lines 204-206 never fires: no run of the pipeline ends
    in "No pages selected for processing.". *)
Theorem X1_no_pages_selected_is_unreachable lib pdf out dpi only :
  outcome (pdf_to_vertical_image_with_gui_updates lib pdf out dpi only)
  <> Raised NoPagesSelected.
Proof.
  destruct (pipeline_outcomes lib pdf out dpi only)
    as [H|[(m & _ & H)|[H|[[_ H]|[[_ (d & i & m & _ & _ & _ & H)]
       |[H|(m & H)]]]]]];
    rewrite H; discriminate.
Qed.



Lemma pipeline_opens lib pdf out dpi only :
  opens (trace (pdf_to_vertical_image_with_gui_updates lib pdf out dpi only))
  = [pdf].
Proof.
  destruct (pipeline_cases lib pdf out dpi only)
    as [(m & H & Hr)|[(doc & H & H0 & Hr)|[(doc & e & H & H0 & He & Hr)
       |(doc & pages & H & H0 & Hp)]]].
  - rewrite Hr. reflexivity.
  - rewrite Hr. reflexivity.
  - rewrite Hr, trace_pair.
    unfold opens. rewrite collect_app. fold opens.
    replace (opens (trace (select_pages doc only))) with (@nil string).
    2:{ symmetry. no_such_event is_scan_event. apply select_pages_events. }
    reflexivity.
  - unfold opens.
    rewrite (pipeline_collect _ _ _ out dpi _ _ _ H H0 Hp).
    fold opens.
    replace (opens (trace (select_pages doc only))) with (@nil string).
    2:{ symmetry. no_such_event is_scan_event. apply select_pages_events. }
    replace (opens (trace (render_pages _ _ _ _ _ _))) with (@nil string).
    2:{ symmetry. no_such_event is_loop_event. apply render_pages_events. }
    replace (opens (trace (composite_and_save _ _ _))) with (@nil string).
    2:{ symmetry. no_such_event is_final_event.
        apply composite_and_save_events. }
    reflexivity.
Qed.

(** X3: the pipeline opens the document once, and closes it at most once:
    never when it could not be opened or when the image scan raised, exactly
    once on every other path, whether the run succeeds or fails. *)
Theorem X3_document_closed_at_most_once lib pdf out dpi only :
  let run := pdf_to_vertical_image_with_gui_updates lib pdf out dpi only in
  opens (trace run) = [pdf]
  /\ closes (trace run) =
     match outcome run with
     | Raised (CannotOpenSource _ _) | Raised (LibraryError _) => []
     | _ => [tt]
     end.
Proof.
  intros run. split; [apply pipeline_opens|].
  destruct (pipeline_cases lib pdf out dpi only)
    as [(m & H & Hr)|[(doc & H & H0 & Hr)|[(doc & e & H & H0 & He & Hr)
       |(doc & pages & H & H0 & Hp)]]].
  - unfold run. rewrite Hr. reflexivity.
  - unfold run. rewrite Hr. reflexivity.
  - unfold run. rewrite Hr, trace_pair, outcome_pair.
    destruct (select_pages_raised _ _ _ He)
      as [Ho [[-> Ht]|(i & msg & Hi & Hf & -> & Ht)]];
      rewrite Ht; unfold closes; rewrite !collect_app; fold closes;
      rewrite scan_pages_no_close; reflexivity.
  - pose proof (pipeline_rendering lib pdf out dpi only doc pages H H0 Hp)
      as Hr.
    cbv zeta in Hr.
    unfold run, closes.
    rewrite (pipeline_collect _ _ _ out dpi _ _ _ H H0 Hp).
    fold closes.
    rewrite (select_pages_returned_closes _ _ _ Hp).
    replace (closes (trace (render_pages _ _ _ _ _ _))) with (@nil unit).
    2:{ symmetry. no_such_event is_loop_event. apply render_pages_events. }
    replace (closes (trace (composite_and_save _ _ _))) with (@nil unit).
    2:{ symmetry. no_such_event is_final_event.
        apply composite_and_save_events. }
    rewrite Hr, outcome_pair.
    destruct (composite_and_save_outcomes lib out
                (rendering_after lib doc dpi pages rendering_start))
      as [Hc|[Hc|(msg & Hc)]]; rewrite Hc; reflexivity.
Qed.

(** ** The events of the pipeline *)

Lemma scan_event_of_pipeline ev :
  is_scan_event ev = true -> is_pipeline_event ev = true.
Proof. destruct ev as [| | | | | | | | | |m| | | |]; try reflexivity;
       try discriminate. destruct m; try reflexivity; discriminate. Qed.

Lemma loop_event_of_pipeline ev :
  is_loop_event ev = true -> is_pipeline_event ev = true.
Proof. destruct ev as [| | | | | | | | | |m| | | |]; try reflexivity;
       try discriminate. destruct m; try reflexivity; discriminate. Qed.

Lemma final_event_of_pipeline ev :
  is_final_event ev = true -> is_pipeline_event ev = true.
Proof. destruct ev as [| | | | | | | | | |m| | | |]; try reflexivity;
       try discriminate. destruct m; try reflexivity; discriminate. Qed.

Lemma pipeline_events lib pdf out dpi only :
  Forall (fun ev => is_pipeline_event ev = true)
    (trace (pdf_to_vertical_image_with_gui_updates lib pdf out dpi only)).
Proof.
  assert (Hsel : forall doc,
             Forall (fun ev => is_pipeline_event ev = true)
               (trace (select_pages doc only))).
  { intros doc. eapply Forall_impl; [|apply select_pages_events].
    exact scan_event_of_pipeline. }
  destruct (pipeline_cases lib pdf out dpi only)
    as [(m & H & Hr)|[(doc & H & H0 & Hr)|[(doc & e & H & H0 & He & Hr)
       |(doc & pages & H & H0 & Hp)]]].
  - rewrite Hr. repeat constructor.
  - rewrite Hr. repeat constructor.
  - rewrite Hr, trace_pair. apply Forall_app. split.
    + repeat constructor.
    + apply Hsel.
  - pose proof (pipeline_rendering lib pdf out dpi only doc pages H H0 Hp)
      as Hr.
    cbv zeta in Hr. rewrite Hr, trace_pair.
    repeat (apply Forall_app; split); try (repeat constructor; fail).
    + apply Hsel.
    + eapply Forall_impl; [|apply render_pages_events].
      exact loop_event_of_pipeline.
    + eapply Forall_impl; [|apply composite_and_save_events].
      exact final_event_of_pipeline.
Qed.

(** ** The handler on a valid request *)

Lemma start_conversion_valid lib app dpi :
  Py.is_empty (pdf_path_var app) = false ->
  Py.is_empty (output_path_var app) = false ->
  parse_dpi (dpi_var app) = inr dpi ->
  let run :=
    pdf_to_vertical_image_with_gui_updates lib (pdf_path_var app)
      (output_path_var app) dpi (only_images_var app) in
  start_conversion lib app =
  (trace prepare ++ trace run ++ report (output_path_var app) (outcome run)
   ++ trace cleanup,
   Returned tt).
Proof.
  intros Hpdf Hout Hdpi run. unfold start_conversion.
  rewrite Hpdf, Hout, Hdpi.
  rewrite (bind_returned _ _ tt) by reflexivity.
  unfold try_finally. simpl snd. cbv iota. rewrite trace_pair, outcome_pair.
  fold run.
  destruct (outcome run) as [[]|e] eqn:Ho.
  - unfold run in *. rewrite (attempt_returned _ _ _ _ _ Ho).
    cbn [fst snd]. rewrite <- !app_assoc. reflexivity.
  - unfold run in *. rewrite (attempt_raised _ _ _ _ _ _ Ho).
    cbn [fst snd]. rewrite <- !app_assoc. reflexivity.
Qed.

Lemma start_conversion_invalid lib app :
  valid_request app = false ->
  exists box,
    start_conversion lib app = ([Call_messagebox box], Returned tt)
    /\ is_error box = true.
Proof.
  unfold valid_request, start_conversion. intros H.
  destruct (Py.is_empty (pdf_path_var app)).
  { now exists SelectInputPdf. }
  destruct (Py.is_empty (output_path_var app)).
  { now exists SpecifyOutputPath. }
  destruct (parse_dpi (dpi_var app)) as [e|dpi]; [|discriminate].
  now exists (InvalidDpi e).
Qed.

Lemma valid_request_true app :
  valid_request app = true ->
  Py.is_empty (pdf_path_var app) = false
  /\ Py.is_empty (output_path_var app) = false
  /\ exists dpi, parse_dpi (dpi_var app) = inr dpi.
Proof.
  unfold valid_request. intros H.
  destruct (Py.is_empty (pdf_path_var app)); [discriminate|].
  destruct (Py.is_empty (output_path_var app)); [discriminate|].
  destruct (parse_dpi (dpi_var app)) as [e|dpi]; [discriminate|].
  repeat split. now exists dpi.
Qed.

(** X4: whatever the libraries do, the handler of the Convert button
    returns: no exception reaches Tk.  On a request that passes validation
    the button is disabled once and enabled again by the last two calls of
    the handler; on any other request it is not touched. *)
Theorem X4_handler_returns_and_enables_button lib app :
  let click := start_conversion lib app in
  outcome click = Returned tt
  /\ if valid_request app then
       button_states (trace click) = [false; true]
       /\ exists before,
           trace click =
           before ++ [Config_convert_button true; Set_progress 0]
     else button_states (trace click) = [].
Proof.
  intros click. destruct (valid_request app) eqn:Hv.
  - destruct (valid_request_true _ Hv) as (Hpdf & Hout & dpi & Hdpi).
    pose proof (start_conversion_valid lib app dpi Hpdf Hout Hdpi) as Hc.
    cbv zeta in Hc. unfold click. rewrite Hc, outcome_pair, trace_pair.
    set (run := pdf_to_vertical_image_with_gui_updates _ _ _ _ _).
    split; [reflexivity|]. split.
    + unfold button_states. rewrite !collect_app. fold button_states.
      replace (button_states (trace run)) with (@nil bool).
      2:{ symmetry. no_such_event is_pipeline_event. apply pipeline_events. }
      destruct (outcome run); reflexivity.
    + exists (trace prepare ++ trace run
              ++ report (output_path_var app) (outcome run)).
      rewrite <- !app_assoc. reflexivity.
  - destruct (start_conversion_invalid lib app Hv) as (box & Hc & _).
    unfold click. rewrite Hc. split; reflexivity.
Qed.

(** X5: the document is opened exactly when the request passes validation
    (both paths given, the DPI a positive integer), and then once, with the
    path of the entry. *)
Theorem X5_opened_iff_request_valid lib app :
  opens (trace (start_conversion lib app)) =
  if valid_request app then [pdf_path_var app] else [].
Proof.
  destruct (valid_request app) eqn:Hv.
  - destruct (valid_request_true _ Hv) as (Hpdf & Hout & dpi & Hdpi).
    pose proof (start_conversion_valid lib app dpi Hpdf Hout Hdpi) as Hc.
    cbv zeta in Hc. rewrite Hc, trace_pair.
    unfold opens. rewrite !collect_app. fold opens.
    rewrite pipeline_opens.
    destruct (outcome _); reflexivity.
  - destruct (start_conversion_invalid lib app Hv) as (box & Hc & _).
    rewrite Hc. reflexivity.
Qed.

Lemma saves_of_pastes ps : saves (map paste_event ps) = [].
Proof.
  no_such_event is_paste_event.
  apply Forall_forall. intros ev Hev. apply in_map_iff in Hev.
  destruct Hev as (p & <- & _). reflexivity.
Qed.

Lemma pipeline_saved lib pdf out dpi only :
  let run := pdf_to_vertical_image_with_gui_updates lib pdf out dpi only in
  outcome run = Returned tt ->
  exists doc pages,
    fitz_open lib pdf = Ok doc /\ page_count doc <> 0
    /\ outcome (select_pages doc only) = Returned pages
    /\ Image_save lib
         (final_canvas (rendering_after lib doc dpi pages rendering_start))
         out = Ok tt
    /\ saves (trace run) = [out].
Proof.
  intros run Hret.
  destruct (pipeline_returned _ _ _ _ _ Hret)
    as (doc & pages & H & H0 & Hp).
  exists doc, pages. repeat split; try assumption.
  - pose proof (pipeline_rendering lib pdf out dpi only doc pages H H0 Hp)
      as Hr.
    cbv zeta in Hr. unfold run in Hret. rewrite Hr, outcome_pair in Hret.
    apply (composite_and_save_returned _ _ _ Hret).
  - pose proof (pipeline_rendering lib pdf out dpi only doc pages H H0 Hp)
      as Hr.
    cbv zeta in Hr. unfold run in Hret. rewrite Hr, outcome_pair in Hret.
    destruct (composite_and_save_returned _ _ _ Hret) as [_ Ht].
    unfold run, saves.
    rewrite (pipeline_collect _ _ _ out dpi _ _ _ H H0 Hp).
    fold saves.
    replace (saves (trace (select_pages doc only))) with (@nil string).
    2:{ symmetry. no_such_event is_scan_event. apply select_pages_events. }
    replace (saves (trace (render_pages _ _ _ _ _ _))) with (@nil string).
    2:{ symmetry. no_such_event is_loop_event. apply render_pages_events. }
    rewrite Ht. unfold saves. rewrite !collect_app. fold saves.
    rewrite saves_of_pastes. reflexivity.
Qed.

(** X6: every click on Convert ends in exactly one message box.  It is the
    Success box only when Pillow accepted the save, once, to the output path
    of the entry, and the status line then ends on "Conversion complete!";
    it is the Conversion Error box when the pipeline raised, and the status
    line ends on the same exception; otherwise the box is the only call of
    the handler. *)
Theorem X6_one_message_box_per_click lib app :
  let click := start_conversion lib app in
  exists box,
    dialogs (trace click) = [box]
    /\ match box with
       | Success out =>
           out = output_path_var app
           /\ saves (trace click) = [out]
           /\ (exists canvas, Image_save lib canvas out = Ok tt)
           /\ last (statuses (trace click)) PleaseWait = ConversionComplete
       | ConversionError e =>
           last (statuses (trace click)) PleaseWait = ErrorMessage e
           /\ exists dpi,
               parse_dpi (dpi_var app) = inr dpi
               /\ outcome
                    (pdf_to_vertical_image_with_gui_updates lib
                       (pdf_path_var app) (output_path_var app) dpi
                       (only_images_var app)) = Raised e
       | _ => trace click = [Call_messagebox box]
       end.
Proof.
  intros click. destruct (valid_request app) eqn:Hv.
  - destruct (valid_request_true _ Hv) as (Hpdf & Hout & dpi & Hdpi).
    pose proof (start_conversion_valid lib app dpi Hpdf Hout Hdpi) as Hc.
    cbv zeta in Hc.
    set (run := pdf_to_vertical_image_with_gui_updates lib (pdf_path_var app)
                  (output_path_var app) dpi (only_images_var app)) in *.
    assert (Hd : dialogs (trace run) = []).
    { no_such_event is_pipeline_event. apply pipeline_events. }
    destruct (outcome run) as [[]|e] eqn:Ho.
    + exists (Success (output_path_var app)).
      destruct (pipeline_saved _ _ _ _ _ Ho)
        as (doc & pages & _ & _ & _ & Hsave & Hsaves).
      unfold click. rewrite Hc, trace_pair. repeat split.
      * unfold dialogs. rewrite !collect_app. fold dialogs.
        rewrite Hd. reflexivity.
      * unfold saves. rewrite !collect_app. fold saves.
        fold run in Hsaves. rewrite Hsaves. reflexivity.
      * eexists. exact Hsave.
      * unfold statuses. rewrite !collect_app. fold statuses.
        cbn [report]. rewrite !app_assoc.
        change (statuses (trace cleanup)) with (@nil Message).
        rewrite app_nil_r.
        change (statuses [Call_messagebox (Success (output_path_var app));
                          Set_status ConversionComplete;
                          Call_update_idletasks])
          with [ConversionComplete].
        apply last_last.
    + exists (ConversionError e).
      unfold click. rewrite Hc, trace_pair. repeat split.
      * unfold dialogs. rewrite !collect_app. fold dialogs.
        rewrite Hd. reflexivity.
      * unfold statuses. rewrite !collect_app. fold statuses.
        cbn [report]. rewrite !app_assoc.
        change (statuses (trace cleanup)) with (@nil Message).
        rewrite app_nil_r.
        change (statuses [Call_messagebox (ConversionError e);
                          Set_status (ErrorMessage e);
                          Call_update_idletasks])
          with [ErrorMessage e].
        apply last_last.
      * exists dpi. split; [exact Hdpi|exact Ho].
  - destruct (start_conversion_invalid lib app Hv) as (box & Hc & Hbox).
    exists box. unfold click. rewrite Hc, trace_pair.
    split; [reflexivity|].
    unfold valid_request, start_conversion in *.
    destruct box; try reflexivity; exfalso.
    + destruct (Py.is_empty (pdf_path_var app)); [discriminate|].
      destruct (Py.is_empty (output_path_var app)); [discriminate|].
      destruct (parse_dpi (dpi_var app)); discriminate.
    + discriminate.
Qed.

(** ** The failures of the pipeline, one by one *)

(** X7: when PyMuPDF cannot open the file, the pipeline makes no other call
    (nothing to close, no status) and raises "Error opening PDF file
    '<path>': <cause>"; the handler shows this exception in the box and in
    the status line, enables the button and resets the bar. *)
Theorem X7_cannot_open_source lib app dpi msg :
  Py.is_empty (pdf_path_var app) = false ->
  Py.is_empty (output_path_var app) = false ->
  parse_dpi (dpi_var app) = inr dpi ->
  fitz_open lib (pdf_path_var app) = Fails msg ->
  let e := CannotOpenSource (pdf_path_var app) (LibraryError msg) in
  pdf_to_vertical_image_with_gui_updates lib (pdf_path_var app)
    (output_path_var app) dpi (only_images_var app)
  = ([Call_fitz_open (pdf_path_var app)], Raised e)
  /\ start_conversion lib app =
     ([Set_status PleaseWait; Call_update_idletasks;
       Config_convert_button false; Set_progress 0;
       Call_fitz_open (pdf_path_var app);
       Call_messagebox (ConversionError e); Set_status (ErrorMessage e);
       Call_update_idletasks;
       Config_convert_button true; Set_progress 0],
      Returned tt)
  /\ str e = ("Error opening PDF file '" ++ pdf_path_var app ++ "': " ++ msg)
               %string.
Proof.
  intros Hpdf Hout Hdpi Hopen e.
  assert (Hrun : pdf_to_vertical_image_with_gui_updates lib (pdf_path_var app)
                   (output_path_var app) dpi (only_images_var app)
                 = ([Call_fitz_open (pdf_path_var app)], Raised e)).
  { unfold pdf_to_vertical_image_with_gui_updates, try_except, call, bind.
    rewrite Hopen. reflexivity. }
  split; [exact Hrun|]. split; [|reflexivity].
  pose proof (start_conversion_valid lib app dpi Hpdf Hout Hdpi) as Hc.
  cbv zeta in Hc. rewrite Hc, Hrun. reflexivity.
Qed.

Lemma X7_witness :
  let app := request "150" in
  let e := CannotOpenSource "doc.pdf" (LibraryError "no such file") in
  pdf_to_vertical_image_with_gui_updates Samples.library_no_file
    "doc.pdf" "out.png" 150 false
  = ([Call_fitz_open "doc.pdf"], Raised e)
  /\ start_conversion Samples.library_no_file app =
     ([Set_status PleaseWait; Call_update_idletasks;
       Config_convert_button false; Set_progress 0;
       Call_fitz_open "doc.pdf";
       Call_messagebox (ConversionError e); Set_status (ErrorMessage e);
       Call_update_idletasks;
       Config_convert_button true; Set_progress 0],
      Returned tt)
  /\ str e = "Error opening PDF file 'doc.pdf': no such file"%string.
Proof.
  apply (X7_cannot_open_source Samples.library_no_file (request "150") 150
           "no such file"); reflexivity.
Defined.

(** X8: a document without pages is closed at once and reported as "The PDF
    file '<path>' has no pages.", whatever the filter and the DPI: no page
    is loaded and no status is shown. *)
Theorem X8_empty_source lib pdf out dpi only doc :
  fitz_open lib pdf = Ok doc ->
  page_count doc = 0 ->
  pdf_to_vertical_image_with_gui_updates lib pdf out dpi only
  = ([Call_fitz_open pdf; Call_close], Raised (EmptySource pdf))
  /\ str (EmptySource pdf) = ("The PDF file '" ++ pdf ++ "' has no pages.")
                               %string.
Proof.
  intros Hopen Hn. split; [|reflexivity].
  unfold pdf_to_vertical_image_with_gui_updates, try_except, call, bind.
  rewrite Hopen. simpl. rewrite Hn. reflexivity.
Qed.

Lemma X8_witness :
  pdf_to_vertical_image_with_gui_updates
    (Samples.library Samples.empty_document) "doc.pdf" "out.png" 150 false
  = ([Call_fitz_open "doc.pdf"; Call_close], Raised (EmptySource "doc.pdf"))
  /\ str (EmptySource "doc.pdf") = "The PDF file 'doc.pdf' has no pages."
                                     %string.
Proof.
  apply (X8_empty_source (Samples.library Samples.empty_document)
           "doc.pdf" "out.png" 150 false Samples.empty_document);
    reflexivity.
Defined.

Lemma percentages_of_pastes ps : percentages (map paste_event ps) = [].
Proof.
  no_such_event is_paste_event.
  apply Forall_forall. intros ev Hev. apply in_map_iff in Hev.
  destruct Hev as (p & <- & _). reflexivity.
Qed.

(** X9: when Pillow refuses the save, the pipeline raises "Error saving the
    final image: <cause>" after one save call to the output path; the
    document was closed before, and the bar stands at 95: it never shows
    100. *)
Theorem X9_save_failure lib pdf out dpi only doc pages msg :
  fitz_open lib pdf = Ok doc ->
  page_count doc <> 0 ->
  outcome (select_pages doc only) = Returned pages ->
  let st := rendering_after lib doc dpi pages rendering_start in
  nonempty (page_images st) = true ->
  Image_save lib (final_canvas st) out = Fails msg ->
  let run := pdf_to_vertical_image_with_gui_updates lib pdf out dpi only in
  outcome run = Raised (CannotWriteDestination (LibraryError msg))
  /\ str (CannotWriteDestination (LibraryError msg))
     = ("Error saving the final image: " ++ msg)%string
  /\ saves (trace run) = [out]
  /\ closes (trace run) = [tt]
  /\ percentages (trace run) =
     map (fun k => progress_percentage k (List.length pages))
       (seq 1 (List.length (rendered_images lib doc dpi pages)))
     ++ [95%Q]
  /\ Forall (fun p => (p < 100)%Q) (percentages (trace run)).
Proof.
  intros Hopen H0 Hp st Hne Hsave run.
  pose proof (pipeline_rendering lib pdf out dpi only doc pages Hopen H0 Hp)
    as Hr.
  cbv zeta in Hr. fold st in Hr.
  assert (Hcomp : composite_and_save lib out st =
                  ([Set_status
                      (CreatingOutputImage (max_width st) (total_height st));
                    Call_update_idletasks; Set_progress 95;
                    Call_Image_new "RGB" (max_width st) (total_height st)
                      white]
                   ++ map paste_event
                        (layout (max_width st) (page_images st) 0)
                   ++ [Set_status SavingImage; Call_update_idletasks;
                       Call_save out],
                   Raised (CannotWriteDestination (LibraryError msg)))).
  { rewrite composite_and_save_eq, Hne, Hsave. rewrite app_nil_r.
    reflexivity. }
  assert (Hperc : percentages (trace run) =
                  map (fun k => progress_percentage k (List.length pages))
                    (seq 1 (List.length (rendered_images lib doc dpi pages)))
                  ++ [95%Q]).
  { unfold run, percentages.
    rewrite (pipeline_collect _ _ _ out dpi _ _ _ Hopen H0 Hp).
    fold percentages. fold st.
    replace (percentages (trace (select_pages doc only))) with (@nil Q).
    2:{ symmetry. no_such_event is_scan_event. apply select_pages_events. }
    rewrite render_pages_percentages.
    rewrite Hcomp, trace_pair.
    unfold percentages at 4. rewrite !collect_app. fold percentages.
    rewrite percentages_of_pastes. reflexivity. }
  split; [unfold run; now rewrite Hr, Hcomp|].
  split; [reflexivity|].
  split.
  { unfold run, saves.
    rewrite (pipeline_collect _ _ _ out dpi _ _ _ Hopen H0 Hp).
    fold saves. fold st.
    replace (saves (trace (select_pages doc only))) with (@nil string).
    2:{ symmetry. no_such_event is_scan_event. apply select_pages_events. }
    replace (saves (trace (render_pages _ _ _ _ _ _))) with (@nil string).
    2:{ symmetry. no_such_event is_loop_event. apply render_pages_events. }
    rewrite Hcomp, trace_pair.
    unfold saves. rewrite !collect_app. fold saves.
    rewrite saves_of_pastes. reflexivity. }
  split.
  { unfold run, closes.
    rewrite (pipeline_collect _ _ _ out dpi _ _ _ Hopen H0 Hp).
    fold closes.
    rewrite (select_pages_returned_closes _ _ _ Hp).
    replace (closes (trace (render_pages _ _ _ _ _ _))) with (@nil unit).
    2:{ symmetry. no_such_event is_loop_event. apply render_pages_events. }
    replace (closes (trace (composite_and_save _ _ _))) with (@nil unit).
    2:{ symmetry. no_such_event is_final_event.
        apply composite_and_save_events. }
    reflexivity. }
  split; [exact Hperc|].
  rewrite Hperc. apply Forall_app. split.
  - assert (Hn : 1 <= List.length pages).
    { pose proof (select_pages_nonempty _ _ _ H0 Hp).
      destruct pages; [congruence|simpl; lia]. }
    pose proof (rendered_images_length lib doc dpi pages) as Hle.
    eapply Forall_impl;
      [|apply (loop_percentages_bounds (List.length pages) 1
                 (List.length (rendered_images lib doc dpi pages)) Hn);
        lia].
    intros p [_ Hp90]. simpl in Hp90.
    eapply Qle_lt_trans; [exact Hp90|reflexivity].
  - constructor; [reflexivity|constructor].
Qed.

Lemma X9_witness :
  let run :=
    pdf_to_vertical_image_with_gui_updates
      (Samples.library_disk_full Samples.three_pages)
      "doc.pdf" "out.png" 150 false in
  outcome run
  = Raised (CannotWriteDestination (LibraryError "No space left on device"))
  /\ saves (trace run) = ["out.png"%string]
  /\ closes (trace run) = [tt].
Proof.
  pose proof (X9_save_failure
                (Samples.library_disk_full Samples.three_pages)
                "doc.pdf" "out.png" 150 false Samples.three_pages [0; 1; 2]
                "No space left on device" eq_refl) as H.
  destruct H as (Ho & _ & Hs & Hc & _);
    [discriminate|reflexivity|reflexivity|reflexivity|].
  repeat split; assumption.
Defined.

(** ** What is saved, and when the document is closed *)

(** X10: on success, the image handed to [save] is the canvas of the one
    [Image.new] carrying exactly the pastes made, in their order. *)
Theorem X10_saved_image_is_the_canvas lib pdf out dpi only :
  let run := pdf_to_vertical_image_with_gui_updates lib pdf out dpi only in
  outcome run = Returned tt ->
  exists final_image,
    Image_save lib final_image out = Ok tt
    /\ canvases (trace run) =
       [(canvas_mode final_image, canvas_width final_image,
         canvas_height final_image, background final_image)]
    /\ pastes final_image = paste_calls (trace run).
Proof.
  intros run Hret.
  destruct (pipeline_saved _ _ _ _ _ Hret)
    as (doc & pages & Hopen & H0 & Hp & Hsave & _).
  exists (final_canvas (rendering_after lib doc dpi pages rendering_start)).
  split; [exact Hsave|].
  destruct (pipeline_composite lib pdf out dpi only)
    as [(_ & _ & Hno)|(doc' & pages' & Hopen' & Hp' & Hpc & Hcv)].
  { contradiction. }
  assert (doc' = doc) by congruence. subst doc'.
  assert (pages' = pages) by congruence. subst pages'.
  fold run in Hpc, Hcv. rewrite Hpc, Hcv.
  unfold final_canvas, with_pastes, Image_new. cbn [canvas_mode canvas_width
    canvas_height background pastes].
  rewrite max_width_after, total_height_after, page_images_after.
  split; reflexivity.
Qed.

Lemma X10_witness :
  let run :=
    pdf_to_vertical_image_with_gui_updates
      (Samples.library Samples.three_pages) "doc.pdf" "out.png" 150 false in
  exists final_image,
    Image_save (Samples.library Samples.three_pages) final_image "out.png"
    = Ok tt
    /\ canvases (trace run) =
       [(canvas_mode final_image, canvas_width final_image,
         canvas_height final_image, background final_image)]
    /\ pastes final_image = paste_calls (trace run).
Proof.
  apply (X10_saved_image_is_the_canvas
           (Samples.library Samples.three_pages) "doc.pdf" "out.png" 150
           false).
  reflexivity.
Defined.

Lemma final_event_not_render_call ev :
  is_final_event ev = true -> is_render_call ev = false.
Proof. destruct ev; try reflexivity; discriminate. Qed.

(** X11: once the pages are selected, the document is closed right after the
    rendering loop, on success and on failure alike: every page is attempted
    before the close, and [Image.new], the pastes and the save come after
    it. *)
Theorem X11_document_closed_before_compositing lib pdf out dpi only doc pages :
  fitz_open lib pdf = Ok doc ->
  page_count doc <> 0 ->
  outcome (select_pages doc only) = Returned pages ->
  let run := pdf_to_vertical_image_with_gui_updates lib pdf out dpi only in
  exists before after,
    trace run = before ++ Call_close :: after
    /\ render_attempts before = pages
    /\ closes before = []
    /\ canvases before = [] /\ paste_calls before = [] /\ saves before = []
    /\ Forall (fun ev => is_render_call ev = false) after
    /\ closes after = [].
Proof.
  intros Hopen H0 Hp run.
  pose proof (pipeline_rendering lib pdf out dpi only doc pages Hopen H0 Hp)
    as Hr.
  cbv zeta in Hr.
  set (st := rendering_after lib doc dpi pages rendering_start) in *.
  set (n := List.length pages) in *.
  exists ([Call_fitz_open pdf;
           Set_status (Scanning (Py.basename pdf) (page_count doc));
           Call_update_idletasks]
          ++ trace (select_pages doc only)
          ++ [Set_status (ProcessingPages n); Call_update_idletasks]
          ++ trace (render_pages lib doc dpi n pages rendering_start)),
         (trace (composite_and_save lib out st)).
  split.
  { unfold run. rewrite Hr, trace_pair. rewrite <- !app_assoc. reflexivity. }
  split.
  { unfold render_attempts. rewrite !collect_app. fold render_attempts.
    replace (render_attempts (trace (select_pages doc only)))
      with (@nil nat).
    2:{ symmetry. no_such_event is_scan_event. apply select_pages_events. }
    rewrite render_pages_attempts. reflexivity. }
  split.
  { unfold closes. rewrite !collect_app. fold closes.
    rewrite (select_pages_returned_closes _ _ _ Hp).
    replace (closes (trace (render_pages _ _ _ _ _ _))) with (@nil unit).
    2:{ symmetry. no_such_event is_loop_event. apply render_pages_events. }
    reflexivity. }
  split.
  { unfold canvases. rewrite !collect_app. fold canvases.
    replace (canvases (trace (select_pages doc only)))
      with (@nil (string * nat * nat * Color)).
    2:{ symmetry. no_such_event is_scan_event. apply select_pages_events. }
    replace (canvases (trace (render_pages _ _ _ _ _ _)))
      with (@nil (string * nat * nat * Color)).
    2:{ symmetry. no_such_event is_loop_event. apply render_pages_events. }
    reflexivity. }
  split.
  { unfold paste_calls. rewrite !collect_app. fold paste_calls.
    replace (paste_calls (trace (select_pages doc only)))
      with (@nil Paste).
    2:{ symmetry. no_such_event is_scan_event. apply select_pages_events. }
    replace (paste_calls (trace (render_pages _ _ _ _ _ _)))
      with (@nil Paste).
    2:{ symmetry. no_such_event is_loop_event. apply render_pages_events. }
    reflexivity. }
  split.
  { unfold saves. rewrite !collect_app. fold saves.
    replace (saves (trace (select_pages doc only))) with (@nil string).
    2:{ symmetry. no_such_event is_scan_event. apply select_pages_events. }
    replace (saves (trace (render_pages _ _ _ _ _ _))) with (@nil string).
    2:{ symmetry. no_such_event is_loop_event. apply render_pages_events. }
    reflexivity. }
  split.
  { eapply Forall_impl; [|apply composite_and_save_events].
    exact final_event_not_render_call. }
  no_such_event is_final_event. apply composite_and_save_events.
Qed.

Lemma X11_witness :
  let run :=
    pdf_to_vertical_image_with_gui_updates
      (Samples.library Samples.five_pages_third_fails)
      "doc.pdf" "out.png" 150 false in
  exists before after,
    trace run = before ++ Call_close :: after
    /\ render_attempts before = [0; 1; 2; 3; 4]
    /\ closes before = []
    /\ canvases before = [] /\ paste_calls before = [] /\ saves before = []
    /\ Forall (fun ev => is_render_call ev = false) after
    /\ closes after = [].
Proof.
  apply (X11_document_closed_before_compositing
           (Samples.library Samples.five_pages_third_fails)
           "doc.pdf" "out.png" 150 false Samples.five_pages_third_fails
           [0; 1; 2; 3; 4]); [reflexivity|discriminate|reflexivity].
Defined.

(** ** The library calls of a run *)

Lemma render_calls_zooms doc dpi p :
  Forall (fun z => z = zoom_of dpi) (zooms (render_calls doc dpi p)).
Proof.
  unfold render_calls.
  destruct (load_page doc Render p) as [page|]; [|constructor].
  destruct (get_pixmap page (zoom_of dpi)); repeat constructor.
Qed.

Lemma render_pages_zooms lib doc dpi n pages st :
  Forall (fun z => z = zoom_of dpi)
    (zooms (trace (render_pages lib doc dpi n pages st))).
Proof.
  revert st; induction pages as [|p pages IH]; intros st.
  - constructor.
  - rewrite render_pages_step, trace_pair.
    unfold zooms. rewrite collect_app. fold zooms.
    apply Forall_app. split; [|apply IH].
    rewrite render_or_skip_eq.
    destruct (rasterize lib doc dpi p); rewrite trace_pair;
      unfold zooms; rewrite collect_app; fold zooms;
      apply Forall_app; (split; [apply render_calls_zooms|constructor]).
Qed.

Lemma pipeline_zooms lib pdf out dpi only :
  Forall (fun zoom => zoom = zoom_of dpi)
    (zooms
       (trace (pdf_to_vertical_image_with_gui_updates lib pdf out dpi only))).
Proof.
  destruct (pipeline_cases lib pdf out dpi only)
    as [(m & H & Hr)|[(doc & H & H0 & Hr)|[(doc & e & H & H0 & He & Hr)
       |(doc & pages & H & H0 & Hp)]]].
  - rewrite Hr. constructor.
  - rewrite Hr. constructor.
  - rewrite Hr, trace_pair.
    unfold zooms. rewrite collect_app. fold zooms.
    replace (zooms (trace (select_pages doc only))) with (@nil Q).
    2:{ symmetry. no_such_event is_scan_event. apply select_pages_events. }
    constructor.
  - unfold zooms.
    rewrite (pipeline_collect _ _ _ out dpi _ _ _ H H0 Hp).
    fold zooms.
    replace (zooms (trace (select_pages doc only))) with (@nil Q).
    2:{ symmetry. no_such_event is_scan_event. apply select_pages_events. }
    replace (zooms (trace (composite_and_save _ _ _))) with (@nil Q).
    2:{ symmetry. no_such_event is_final_event.
        apply composite_and_save_events. }
    simpl. rewrite app_nil_r. apply render_pages_zooms.
Qed.

(** X12: every page is rasterized with the same zoom factor, DPI / 72, on
    both axes of [fitz.Matrix(zoom, zoom)]; the factor is linear in the DPI,
    and 72 DPI is the scale 1. *)
Theorem X12_zoom_is_dpi_over_72 lib pdf out dpi only :
  Forall (fun zoom => zoom = zoom_of dpi)
    (zooms
       (trace (pdf_to_vertical_image_with_gui_updates lib pdf out dpi only)))
  /\ (forall k d, zoom_of (k * d) == inject_Z k * zoom_of d)%Q
  /\ (zoom_of 72 == 1)%Q.
Proof.
  split; [apply pipeline_zooms|split].
  - intros k d. unfold zoom_of. rewrite inject_Z_mult. field.
  - reflexivity.
Qed.

(** X13: with the filter off the pipeline never inspects a page: no page is
    loaded for the scan and [get_images] is never called. *)
Theorem X13_filter_off_never_inspects lib pdf out dpi :
  let run := pdf_to_vertical_image_with_gui_updates lib pdf out dpi false in
  scan_attempts (trace run) = [] /\ inspections (trace run) = [].
Proof.
  intros run.
  destruct (pipeline_cases lib pdf out dpi false)
    as [(m & H & Hr)|[(doc & H & H0 & Hr)|[(doc & e & H & H0 & He & Hr)
       |(doc & pages & H & H0 & Hp)]]].
  - unfold run. rewrite Hr. split; reflexivity.
  - unfold run. rewrite Hr. split; reflexivity.
  - discriminate.
  - split.
    + unfold run, scan_attempts.
      rewrite (pipeline_collect _ _ _ out dpi _ _ _ H H0 Hp).
      fold scan_attempts.
      replace (scan_attempts (trace (render_pages _ _ _ _ _ _)))
        with (@nil nat).
      2:{ symmetry. no_such_event is_loop_event. apply render_pages_events. }
      replace (scan_attempts (trace (composite_and_save _ _ _)))
        with (@nil nat).
      2:{ symmetry. no_such_event is_final_event.
          apply composite_and_save_events. }
      reflexivity.
    + unfold run, inspections.
      rewrite (pipeline_collect _ _ _ out dpi _ _ _ H H0 Hp).
      fold inspections.
      replace (inspections (trace (render_pages _ _ _ _ _ _)))
        with (@nil nat).
      2:{ symmetry. no_such_event is_loop_event. apply render_pages_events. }
      replace (inspections (trace (composite_and_save _ _ _)))
        with (@nil nat).
      2:{ symmetry. no_such_event is_final_event.
          apply composite_and_save_events. }
      reflexivity.
Qed.

Lemma scan_pages_calls doc range acc :
  (forall p, In p range -> inspectable doc p = true) ->
  scan_attempts (trace (scan_pages doc range acc)) = range
  /\ inspections (trace (scan_pages doc range acc)) = range.
Proof.
  revert acc. induction range as [|p rest IH]; intros acc Hall.
  - split; reflexivity.
  - assert (Hp : inspectable doc p = true) by (apply Hall; now left).
    assert (Hrest : forall q, In q rest -> inspectable doc q = true)
      by (intros q Hq; apply Hall; now right).
    unfold inspectable in Hp. simpl. unfold bind, call. simpl.
    destruct (load_page doc Scan p) as [page|]; [|discriminate]. simpl.
    destruct (get_images page) as [images|]; [|discriminate]. simpl.
    destruct (IH (if nonempty images then acc ++ [p] else acc) Hrest)
      as [Ha Hi].
    unfold trace in *. split.
    + change (scan_attempts (Call_load_page Scan p :: Call_get_images p
                :: fst (scan_pages doc rest
                          (if nonempty images then acc ++ [p] else acc))))
        with (p :: scan_attempts
                     (fst (scan_pages doc rest
                             (if nonempty images then acc ++ [p]
                              else acc)))).
      now rewrite Ha.
    + change (inspections (Call_load_page Scan p :: Call_get_images p
                :: fst (scan_pages doc rest
                          (if nonempty images then acc ++ [p] else acc))))
        with (p :: inspections
                     (fst (scan_pages doc rest
                             (if nonempty images then acc ++ [p]
                              else acc)))).
      now rewrite Hi.
Qed.

(** The trace of the selection with the filter on: the scan, between the
    "Filtering pages" update and what follows the scan. *)
Lemma select_pages_trace doc :
  exists tail,
    trace (select_pages doc true) =
    [Set_status FilteringPages; Call_update_idletasks]
    ++ trace (scan_pages doc (seq 0 (page_count doc)) []) ++ tail
    /\ (tail = []
        \/ tail = [Call_close]
        \/ exists found,
            tail = [Set_status (FoundPagesWithImages found);
                    Call_update_idletasks]).
Proof.
  unfold select_pages.
  rewrite (bind_returned _ _ tt) by reflexivity. rewrite trace_pair.
  destruct (outcome (scan_pages doc (seq 0 (page_count doc)) []))
    as [pages|e] eqn:Hs.
  - rewrite (bind_returned _ _ pages) by exact Hs. rewrite trace_pair.
    destruct (nonempty pages).
    + eexists. split; [reflexivity|]. right; right. eexists. reflexivity.
    + eexists. split; [reflexivity|]. right; left. reflexivity.
  - rewrite (bind_raised _ _ e) by exact Hs. rewrite trace_pair.
    exists []. rewrite app_nil_r. split; [reflexivity|now left].
Qed.

(** A reading of the trace that keeps only calls of the scan sees the scan
    loop alone. *)
Lemma pipeline_scan_collect {A : Type} (f : Event -> option A)
    lib pdf out dpi doc :
  (forall ev,
      match ev with
      | Call_load_page Scan _ | Call_get_images _ => True
      | _ => f ev = None
      end) ->
  fitz_open lib pdf = Ok doc ->
  collect f
    (trace (pdf_to_vertical_image_with_gui_updates lib pdf out dpi true)) =
  if page_count doc =? 0 then []
  else collect f (trace (scan_pages doc (seq 0 (page_count doc)) [])).
Proof.
  intros Hf Hopen.
  assert (Hsel : collect f (trace (select_pages doc true)) =
                 collect f (trace (scan_pages doc (seq 0 (page_count doc))
                                     []))).
  { destruct (select_pages_trace doc) as (tail & -> & Ht).
    rewrite !collect_app.
    assert (collect f tail = []) as ->.
    { destruct Ht as [-> | [-> | [found ->]]]; simpl;
        repeat match goal with
               | |- context [f ?ev] => rewrite (Hf ev)
               end; reflexivity. }
    simpl. rewrite (Hf (Set_status FilteringPages)).
    rewrite (Hf Call_update_idletasks). now rewrite app_nil_r. }
  assert (Hloop : forall ev, is_loop_event ev = true -> f ev = None).
  { intros ev Hev. specialize (Hf ev).
    destruct ev as [| |pass| | | | | | | | | | | |]; try exact Hf;
      try discriminate.
    destruct pass; [discriminate|exact Hf]. }
  assert (Hfinal : forall ev, is_final_event ev = true -> f ev = None).
  { intros ev Hev. specialize (Hf ev).
    destruct ev as [| |pass| | | | | | | | | | | |]; try exact Hf;
      discriminate. }
  destruct (pipeline_cases lib pdf out dpi true)
    as [(m & H & Hr)|[(doc' & H & H0 & Hr)|[(doc' & e & H & H0 & He & Hr)
       |(doc' & pages & H & H0 & Hp)]]].
  - congruence.
  - assert (doc' = doc) by congruence. subst doc'.
    rewrite Hr, H0. simpl.
    rewrite (Hf (Call_fitz_open pdf)), (Hf Call_close). reflexivity.
  - assert (doc' = doc) by congruence. subst doc'.
    apply Nat.eqb_neq in H0. rewrite H0.
    rewrite Hr, trace_pair, collect_app, Hsel. simpl.
    rewrite (Hf (Call_fitz_open pdf)), (Hf (Set_status _)),
      (Hf Call_update_idletasks). reflexivity.
  - assert (doc' = doc) by congruence. subst doc'.
    rewrite (pipeline_collect _ _ _ out dpi _ _ _ H H0 Hp).
    apply Nat.eqb_neq in H0. rewrite H0. rewrite Hsel.
    rewrite (collect_none f is_loop_event _ Hloop
               (render_pages_events lib doc dpi (List.length pages) pages
                  rendering_start)).
    rewrite (collect_none f is_final_event _ Hfinal
               (composite_and_save_events lib out
                  (rendering_after lib doc dpi pages rendering_start))).
    simpl.
    rewrite (Hf (Call_fitz_open pdf)), !(Hf (Set_status _)),
      (Hf Call_update_idletasks), (Hf Call_close).
    now rewrite !app_nil_r.
Qed.

(** X14: with the filter on, the scan loads and inspects every page of the
    document exactly once, in ascending order, whether or not earlier pages
    had images (provided no page fails to load or to list its images). *)
Theorem X14_filter_inspects_every_page_once lib pdf out dpi doc :
  fitz_open lib pdf = Ok doc ->
  (forall i, i < page_count doc -> inspectable doc i = true) ->
  let run := pdf_to_vertical_image_with_gui_updates lib pdf out dpi true in
  scan_attempts (trace run) = seq 0 (page_count doc)
  /\ inspections (trace run) = seq 0 (page_count doc).
Proof.
  intros Hopen Hall run.
  assert (Hall' : forall p, In p (seq 0 (page_count doc)) ->
                            inspectable doc p = true).
  { intros p Hp. apply in_seq in Hp. apply Hall. lia. }
  destruct (scan_pages_calls doc (seq 0 (page_count doc)) [] Hall')
    as [Ha Hi].
  split.
  - unfold run, scan_attempts.
    rewrite (pipeline_scan_collect _ lib pdf out dpi doc); [|
      intros ev; destruct ev as [| |pass| | | | | | | | | | | |];
      try reflexivity; try exact I; destruct pass; [exact I|reflexivity]
      |exact Hopen].
    fold scan_attempts. rewrite Ha.
    destruct (page_count doc); reflexivity.
  - unfold run, inspections.
    rewrite (pipeline_scan_collect _ lib pdf out dpi doc); [|
      intros ev; destruct ev as [| |pass| | | | | | | | | | | |];
      try reflexivity; try exact I; destruct pass; [exact I|reflexivity]
      |exact Hopen].
    fold inspections. rewrite Hi.
    destruct (page_count doc); reflexivity.
Qed.

Lemma X14_witness :
  let run :=
    pdf_to_vertical_image_with_gui_updates
      (Samples.library Samples.three_pages) "doc.pdf" "out.png" 150 true in
  scan_attempts (trace run) = [0; 1; 2]
  /\ inspections (trace run) = [0; 1; 2].
Proof.
  apply (X14_filter_inspects_every_page_once
           (Samples.library Samples.three_pages) "doc.pdf" "out.png" 150
           Samples.three_pages); [reflexivity|].
  intros i Hi.
  destruct i as [|[|[|i]]]; [reflexivity|reflexivity|reflexivity|].
  simpl in Hi. lia.
Defined.

(** ** Every selected page is accounted for *)

Lemma rendered_plus_failed lib doc dpi pages :
  List.length (rendered_images lib doc dpi pages)
  + List.length (failed_pages lib doc dpi pages) = List.length pages.
Proof.
  unfold failed_pages. rewrite length_map.
  induction pages as [|p pages IH]; [reflexivity|].
  simpl. unfold renders in *.
  destruct (rasterize lib doc dpi p); simpl; lia.
Qed.






(** ** What the status line and the bar say during the loop *)

Lemma render_calls_no_rendered_notice doc dpi p :
  rendered_notices (render_calls doc dpi p) = [].
Proof.
  apply (collect_none _ is_render_call); [|apply render_calls_events].
  intros [] E; simpl in *; try discriminate; reflexivity.
Qed.

Opaque render_calls.

Lemma render_pages_rendered_notices lib doc dpi n pages st :
  rendered_notices (trace (render_pages lib doc dpi n pages st)) =
  numbered (rendered_page_count st + 1) n (rendering_pages lib doc dpi pages).
Proof.
  revert st; induction pages as [|p pages IH]; intros st.
  - reflexivity.
  - rewrite render_pages_step. unfold trace at 1; simpl fst.
    unfold rendered_notices in *. rewrite collect_app, IH.
    rewrite render_or_skip_eq.
    pose proof (render_calls_no_rendered_notice doc dpi p) as Hc.
    unfold rendered_notices in Hc.
    unfold rendering_pages, renders; simpl filter.
    destruct (rasterize lib doc dpi p); unfold trace; simpl fst;
      rewrite collect_app, Hc; [|reflexivity].
    unfold numbered. simpl.
    now rewrite (Nat.add_1_r (rendered_page_count st + 1)).
Qed.

Transparent render_calls.

(** X16: the "Rendered page k/n (Original page p)" updates count the pages
    that rasterize, k = 1, 2, ... without gaps, n is the number of selected
    pages, and p is the 1-based number of the page in the document. *)
Theorem X16_rendered_pages_are_numbered lib pdf out dpi only doc pages :
  fitz_open lib pdf = Ok doc ->
  page_count doc <> 0 ->
  outcome (select_pages doc only) = Returned pages ->
  let run := pdf_to_vertical_image_with_gui_updates lib pdf out dpi only in
  rendered_notices (trace run) =
  numbered 1 (List.length pages) (rendering_pages lib doc dpi pages)
  /\ forall k n p,
      In (k, n, p) (rendered_notices (trace run)) ->
      1 <= k <= n /\ n = List.length pages /\ In (p - 1) pages /\ 1 <= p.
Proof.
  intros H H0 Hp run.
  assert (Heq : rendered_notices (trace run) =
                numbered 1 (List.length pages)
                  (rendering_pages lib doc dpi pages)).
  { unfold run, rendered_notices.
    rewrite (pipeline_collect _ _ _ out dpi _ _ _ H H0 Hp).
    fold rendered_notices.
    replace (rendered_notices (trace (select_pages doc only)))
      with (@nil (nat * nat * nat)).
    2:{ symmetry. no_such_event is_scan_event. apply select_pages_events. }
    replace (rendered_notices (trace (composite_and_save _ _ _)))
      with (@nil (nat * nat * nat)).
    2:{ symmetry. no_such_event is_final_event.
        apply composite_and_save_events. }
    rewrite render_pages_rendered_notices. simpl. now rewrite app_nil_r. }
  split; [exact Heq|].
  intros k n p Hin. rewrite Heq in Hin. unfold numbered in Hin.
  apply in_map_iff in Hin. destruct Hin as ([k' p'] & Hkp & Hin).
  simpl in Hkp. injection Hkp as <- <- <-.
  pose proof (in_combine_l _ _ _ _ Hin) as Hk.
  pose proof (in_combine_r _ _ _ _ Hin) as Hq.
  apply in_seq in Hk. unfold rendering_pages in *.
  apply filter_In in Hq. destruct Hq as [Hq _].
  assert (Hlen : List.length (filter (renders lib doc dpi) pages)
                 <= List.length pages) by apply filter_length_le.
  repeat split; try lia.
  now replace (p' + 1 - 1) with p' by lia.
Qed.

Lemma X16_witness :
  let run :=
    pdf_to_vertical_image_with_gui_updates
      (Samples.library Samples.five_pages_third_fails)
      "doc.pdf" "out.png" 150 false in
  rendered_notices (trace run) = [(1, 5, 1); (2, 5, 2); (3, 5, 4); (4, 5, 5)].
Proof.
  apply (X16_rendered_pages_are_numbered
           (Samples.library Samples.five_pages_third_fails)
           "doc.pdf" "out.png" 150 false Samples.five_pages_third_fails
           [0; 1; 2; 3; 4]); [reflexivity|discriminate|reflexivity].
Defined.

Lemma composite_percentages lib out st :
  percentages (trace (composite_and_save lib out st)) =
  if nonempty (page_images st) then
    95%Q :: match Image_save lib (final_canvas st) out with
            | Ok _ => [100%Q]
            | Fails _ => []
            end
  else [].
Proof.
  rewrite composite_and_save_eq.
  destruct (nonempty (page_images st)); [|reflexivity].
  rewrite trace_pair. unfold percentages. rewrite !collect_app.
  fold percentages. rewrite percentages_of_pastes.
  destruct (Image_save lib (final_canvas st) out); reflexivity.
Qed.

Lemma progress_percentage_90 (k n : nat) :
  1 <= n -> (progress_percentage k n == 90)%Q <-> k = n.
Proof.
  intros Hn. unfold progress_percentage.
  assert (Hnz : ~ (inject_Z (Z.of_nat n) == 0)%Q).
  { unfold Qeq. simpl. lia. }
  split.
  - intros H.
    assert (Hk : (inject_Z (Z.of_nat k) == inject_Z (Z.of_nat n))%Q).
    { setoid_replace (inject_Z (Z.of_nat k))
        with (inject_Z (Z.of_nat k) / inject_Z (Z.of_nat n) * 100 * 0.9
              * (inject_Z (Z.of_nat n) / 90))%Q by (field; exact Hnz).
      rewrite H. field. }
    unfold Qeq in Hk. simpl in Hk. lia.
  - intros ->. field. exact Hnz.
Qed.

(** X17: during the loop the bar shows k/n of 90 after the k-th page that
    rasterizes, n being the number of selected pages; it reaches 90 exactly
    when no selected page was skipped. *)
Theorem X17_bar_reaches_90_iff_no_page_skipped lib pdf out dpi only doc pages :
  fitz_open lib pdf = Ok doc ->
  page_count doc <> 0 ->
  outcome (select_pages doc only) = Returned pages ->
  let run := pdf_to_vertical_image_with_gui_updates lib pdf out dpi only in
  let n := List.length pages in
  let r := List.length (rendered_images lib doc dpi pages) in
  (exists tail,
      percentages (trace run) =
      map (fun k => progress_percentage k n) (seq 1 r) ++ tail
      /\ (tail = [] \/ tail = [95%Q] \/ tail = [95%Q; 100%Q]))
  /\ (Exists (fun p => (p == 90)%Q) (percentages (trace run))
      <-> failed_pages lib doc dpi pages = []).
Proof.
  intros H H0 Hp run n r.
  set (st := rendering_after lib doc dpi pages rendering_start).
  assert (Hperc : percentages (trace run) =
                  map (fun k => progress_percentage k n) (seq 1 r)
                  ++ percentages (trace (composite_and_save lib out st))).
  { unfold run, percentages.
    rewrite (pipeline_collect _ _ _ out dpi _ _ _ H H0 Hp).
    fold percentages. fold st.
    replace (percentages (trace (select_pages doc only))) with (@nil Q).
    2:{ symmetry. no_such_event is_scan_event. apply select_pages_events. }
    rewrite render_pages_percentages. reflexivity. }
  assert (Htail : percentages (trace (composite_and_save lib out st)) = []
                  \/ percentages (trace (composite_and_save lib out st))
                     = [95%Q]
                  \/ percentages (trace (composite_and_save lib out st))
                     = [95%Q; 100%Q]).
  { rewrite composite_percentages.
    destruct (nonempty (page_images st)); [|now left].
    destruct (Image_save lib (final_canvas st) out);
      [right; right|right; left]; reflexivity. }
  assert (Hn : 1 <= n).
  { pose proof (select_pages_nonempty _ _ _ H0 Hp).
    unfold n. destruct pages; [congruence|simpl; lia]. }
  pose proof (rendered_plus_failed lib doc dpi pages) as Hsum.
  fold r in Hsum. fold n in Hsum.
  split.
  { eexists. split; [exact Hperc|exact Htail]. }
  rewrite Hperc. rewrite Exists_app. split.
  - intros [Hloop|Hfin].
    + apply Exists_exists in Hloop. destruct Hloop as (p & Hin & H90).
      apply in_map_iff in Hin. destruct Hin as (k & <- & Hk).
      apply in_seq in Hk.
      apply (progress_percentage_90 k n Hn) in H90.
      destruct (failed_pages lib doc dpi pages); [reflexivity|].
      simpl in Hsum. lia.
    + exfalso.
      destruct Htail as [Ht|[Ht|Ht]]; rewrite Ht in Hfin.
      * inversion Hfin.
      * inversion Hfin as [? ? Hq|? ? Hq]; subst;
          [discriminate Hq|inversion Hq].
      * inversion Hfin as [? ? Hq|? ? Hq]; subst; [discriminate Hq|].
        inversion Hq as [? ? Hq'|? ? Hq']; subst;
          [discriminate Hq'|inversion Hq'].
  - intros Hnone. left. rewrite Hnone in Hsum. simpl in Hsum.
    apply Exists_exists. exists (progress_percentage n n). split.
    + apply in_map_iff. exists n. split; [reflexivity|].
      apply in_seq. lia.
    + now apply progress_percentage_90.
Qed.

Lemma X17_witness :
  let run :=
    pdf_to_vertical_image_with_gui_updates
      (Samples.library Samples.three_pages) "doc.pdf" "out.png" 150 false in
  Exists (fun p => (p == 90)%Q) (percentages (trace run))
  <-> failed_pages (Samples.library Samples.three_pages)
        Samples.three_pages 150 [0; 1; 2] = [].
Proof.
  apply (X17_bar_reaches_90_iff_no_page_skipped
           (Samples.library Samples.three_pages) "doc.pdf" "out.png" 150
           false Samples.three_pages [0; 1; 2]);
    [reflexivity|discriminate|reflexivity].
Defined.

(** ** Status updates reach the screen *)

Lemma flushed_app (t1 t2 : list Event) :
  flushed t1 = true -> flushed t2 = true -> flushed (t1 ++ t2) = true.
Proof.
  intros H1 H2. induction t1 as [|ev t1 IH]; [exact H2|].
  destruct ev; simpl in *; try (apply IH; exact H1).
  destruct t1 as [|ev' t1]; [discriminate|].
  destruct ev'; try discriminate. simpl app. apply IH. exact H1.
Qed.

Lemma flushed_no_status (t : list Event) :
  Forall (fun ev => match ev with Set_status _ => False | _ => True end) t ->
  flushed t = true.
Proof.
  induction 1 as [|ev t Hev _ IH]; [reflexivity|].
  destruct ev; simpl; try exact IH. contradiction.
Qed.

Lemma flushed_scan_pages doc range acc :
  flushed (trace (scan_pages doc range acc)) = true.
Proof.
  apply flushed_no_status. revert acc.
  induction range as [|p rest IH]; intros acc; [constructor|].
  simpl. unfold bind, call. simpl.
  destruct (load_page doc Scan p) as [page|]; simpl;
    [|repeat constructor].
  destruct (get_images page); simpl; [|repeat constructor].
  constructor; [exact I|]. constructor; [exact I|]. apply IH.
Qed.

Lemma flushed_select_pages doc only :
  flushed (trace (select_pages doc only)) = true.
Proof.
  destruct only; [|reflexivity].
  destruct (select_pages_trace doc) as (tail & -> & Ht).
  apply (flushed_app [Set_status FilteringPages; Call_update_idletasks]);
    [reflexivity|].
  apply flushed_app; [apply flushed_scan_pages|].
  destruct Ht as [-> | [-> | [found ->]]]; reflexivity.
Qed.

Lemma flushed_render_pages lib doc dpi n pages st :
  flushed (trace (render_pages lib doc dpi n pages st)) = true.
Proof.
  revert st; induction pages as [|p pages IH]; intros st; [reflexivity|].
  rewrite render_pages_step, trace_pair.
  apply flushed_app; [|apply IH].
  rewrite render_or_skip_eq.
  assert (Hc : flushed (render_calls doc dpi p) = true).
  { apply flushed_no_status. unfold render_calls.
    destruct (load_page doc Render p) as [page|]; [|repeat constructor].
    destruct (get_pixmap page (zoom_of dpi)); repeat constructor. }
  destruct (rasterize lib doc dpi p); rewrite trace_pair;
    (apply flushed_app; [exact Hc|reflexivity]).
Qed.

Lemma flushed_composite_and_save lib out st :
  flushed (trace (composite_and_save lib out st)) = true.
Proof.
  rewrite composite_and_save_eq.
  destruct (nonempty (page_images st)); [|reflexivity].
  rewrite trace_pair.
  apply flushed_app; [reflexivity|]. apply flushed_app.
  - apply flushed_no_status. apply Forall_forall. intros ev Hev.
    apply in_map_iff in Hev. now destruct Hev as (p & <- & _).
  - destruct (Image_save lib (final_canvas st) out); reflexivity.
Qed.

Lemma flushed_pipeline lib pdf out dpi only :
  flushed
    (trace (pdf_to_vertical_image_with_gui_updates lib pdf out dpi only))
  = true.
Proof.
  destruct (pipeline_cases lib pdf out dpi only)
    as [(m & H & Hr)|[(doc & H & H0 & Hr)|[(doc & e & H & H0 & He & Hr)
       |(doc & pages & H & H0 & Hp)]]].
  - rewrite Hr. reflexivity.
  - rewrite Hr. reflexivity.
  - rewrite Hr, trace_pair.
    apply flushed_app; [reflexivity|apply flushed_select_pages].
  - pose proof (pipeline_rendering lib pdf out dpi only doc pages H H0 Hp)
      as Hr.
    cbv zeta in Hr. rewrite Hr, trace_pair.
    apply flushed_app; [reflexivity|].
    apply flushed_app; [apply flushed_select_pages|].
    apply flushed_app; [reflexivity|].
    apply flushed_app; [apply flushed_render_pages|].
    apply flushed_app; [reflexivity|apply flushed_composite_and_save].
Qed.

(** X18: in every run of the handler, each status update is followed at once
    by [update_idletasks], so the status line is redrawn before the next
    library call. *)
Theorem X18_every_status_update_is_flushed lib app :
  flushed (trace (start_conversion lib app)) = true.
Proof.
  destruct (valid_request app) eqn:Hv.
  - destruct (valid_request_true _ Hv) as (Hpdf & Hout & dpi & Hdpi).
    pose proof (start_conversion_valid lib app dpi Hpdf Hout Hdpi) as Hc.
    cbv zeta in Hc. rewrite Hc, trace_pair.
    apply flushed_app; [reflexivity|].
    apply flushed_app; [apply flushed_pipeline|].
    apply flushed_app; [|reflexivity].
    destruct (outcome _); reflexivity.
  - destruct (start_conversion_invalid lib app Hv) as (box & Hc & _).
    rewrite Hc. reflexivity.
Qed.

(** ** The DPI entry *)








(** ** Paths *)

Section Paths.

Local Open Scope string_scope.

Lemma append_nil_r (s : string) : s ++ "" = s.
Proof. induction s; simpl; congruence. Qed.

Lemma append_assoc (a b c : string) : (a ++ b) ++ c = a ++ (b ++ c).
Proof. induction a; simpl; congruence. Qed.

Lemma append_inv_head (a b c : string) : a ++ b = a ++ c -> b = c.
Proof. induction a; simpl; intros H; [exact H|]. injection H. exact IHa. Qed.

Lemma is_empty_append (a b : string) :
  Py.is_empty (a ++ b) = Py.is_empty a && Py.is_empty b.
Proof. destruct a; reflexivity. Qed.

Lemma has_sep_append (a b : string) :
  Py.has_sep (a ++ b) = Py.has_sep a || Py.has_sep b.
Proof.
  induction a as [|c a IH]; [reflexivity|].
  simpl. rewrite IH. now rewrite orb_assoc.
Qed.

Lemma basename_no_sep (p : string) : Py.has_sep (Py.basename p) = false.
Proof.
  induction p as [|c r IH]; [reflexivity|].
  simpl. destruct (Py.has_sep r) eqn:Hr; [exact IH|].
  destruct (c =? "/")%char eqn:Hc; [exact Hr|].
  simpl. now rewrite Hc, Hr.
Qed.

Lemma head_without_sep (p : string) : Py.has_sep p = false -> Py.head p = "".
Proof.
  destruct p as [|c r]; [reflexivity|].
  simpl. intros H. apply orb_false_iff in H. destruct H as [Hc Hr].
  now rewrite Hc, Hr.
Qed.

Lemma basename_without_sep (p : string) :
  Py.has_sep p = false -> Py.basename p = p.
Proof.
  destruct p as [|c r]; [reflexivity|].
  simpl. intros H. apply orb_false_iff in H. destruct H as [Hc Hr].
  now rewrite Hc, Hr.
Qed.

(** [posixpath.split]: a path is its head followed by its base name. *)
Lemma head_basename (p : string) : Py.head p ++ Py.basename p = p.
Proof.
  induction p as [|c r IH]; [reflexivity|].
  simpl. destruct (Py.has_sep r) eqn:Hr.
  - simpl. now rewrite IH.
  - destruct (c =? "/")%char; simpl.
    + now rewrite (head_without_sep r Hr).
    + reflexivity.
Qed.

Lemma ends_with_sep_has_sep (a b : string) :
  Py.ends_with_sep a = true -> Py.has_sep (a ++ b) = true.
Proof.
  induction a as [|c a IH]; [discriminate|].
  intros H. simpl in *. destruct a as [|c' a'].
  - now rewrite H.
  - rewrite (IH H). apply orb_true_r.
Qed.

(** A name without slash put after a path that ends with one. *)
Lemma split_append (a b : string) :
  Py.ends_with_sep a = true -> Py.has_sep b = false ->
  Py.head (a ++ b) = a /\ Py.basename (a ++ b) = b.
Proof.
  intros Ha Hb. induction a as [|c a IH]; [discriminate|].
  destruct a as [|c' a'].
  - simpl in *. rewrite Hb, Ha. simpl.
    now rewrite (head_without_sep b Hb).
  - assert (Hs : Py.has_sep (String c' a' ++ b) = true)
      by now apply ends_with_sep_has_sep.
    destruct (IH Ha) as [IH1 IH2].
    change (String c (String c' a') ++ b) with (String c (String c' a' ++ b)).
    cbn [Py.head Py.basename]. rewrite Hs. simpl orb. cbv iota.
    rewrite IH1, IH2. split; reflexivity.
Qed.

Lemma ends_with_sep_append_sep (d : string) :
  Py.ends_with_sep (d ++ "/") = true.
Proof.
  induction d as [|c d IH]; [reflexivity|].
  simpl. destruct (d ++ "/") eqn:E; [|exact IH].
  destruct d; discriminate.
Qed.

Lemma all_sep_append (a b : string) :
  Py.all_sep (a ++ b) = Py.all_sep a && Py.all_sep b.
Proof.
  induction a as [|c a IH]; [reflexivity|].
  simpl. rewrite IH. now rewrite andb_assoc.
Qed.

Lemma all_sep_rstrip (s : string) :
  Py.all_sep (Py.rstrip_sep s) = Py.all_sep s.
Proof.
  induction s as [|c s IH]; [reflexivity|].
  simpl. destruct ((c =? "/")%char && Py.all_sep s) eqn:E.
  - reflexivity.
  - simpl. rewrite IH. exact E.
Qed.

Lemma rstrip_sep_empty (s : string) :
  Py.is_empty (Py.rstrip_sep s) = Py.all_sep s.
Proof.
  destruct s as [|c s]; [reflexivity|].
  simpl. destruct ((c =? "/")%char && Py.all_sep s); reflexivity.
Qed.

Lemma rstrip_sep_idempotent (s : string) :
  Py.rstrip_sep (Py.rstrip_sep s) = Py.rstrip_sep s.
Proof.
  induction s as [|c s IH]; [reflexivity|].
  simpl. destruct ((c =? "/")%char && Py.all_sep s) eqn:E; [reflexivity|].
  simpl. rewrite all_sep_rstrip, E, IH. reflexivity.
Qed.

Lemma rstrip_sep_append_sep (d : string) :
  Py.rstrip_sep (d ++ "/") = Py.rstrip_sep d.
Proof.
  induction d as [|c d IH]; [reflexivity|].
  simpl. rewrite all_sep_append, IH. simpl. now rewrite andb_true_r.
Qed.

Lemma rstrip_sep_no_trailing_sep (s : string) :
  Py.ends_with_sep (Py.rstrip_sep s) = false.
Proof.
  induction s as [|c s IH]; [reflexivity|].
  simpl. destruct ((c =? "/")%char && Py.all_sep s) eqn:E; [reflexivity|].
  simpl. destruct (Py.rstrip_sep s) eqn:Hr; [|exact IH].
  pose proof (all_sep_rstrip s) as Ha. rewrite Hr in Ha. simpl in Ha.
  rewrite <- Ha, andb_true_r in E. exact E.
Qed.

Lemma all_sep_ends_with_sep (s : string) :
  Py.all_sep s = true -> Py.is_empty s = false -> Py.ends_with_sep s = true.
Proof.
  induction s as [|c s IH]; [discriminate|].
  simpl. intros H _. apply andb_true_iff in H. destruct H as [Hc Hs].
  destruct s; [exact Hc|]. now apply IH.
Qed.

(** [join] of a directory and a file name without slash. *)
Lemma join_name (d name : string) :
  Py.has_sep name = false ->
  Py.join d name =
  if Py.is_empty d || Py.ends_with_sep d then d ++ name
  else (d ++ "/") ++ name.
Proof.
  intros Hn. unfold Py.join.
  assert (Py.starts_with_sep name = false) as ->.
  { destruct name; [reflexivity|]. simpl in *.
    now apply orb_false_iff in Hn. }
  destruct (Py.is_empty d || Py.ends_with_sep d); [reflexivity|].
  now rewrite append_assoc.
Qed.

Lemma basename_join (d name : string) :
  Py.has_sep name = false -> Py.basename (Py.join d name) = name.
Proof.
  intros Hn. rewrite (join_name d name Hn).
  destruct (Py.is_empty d) eqn:Hd.
  - destruct d; [|discriminate]. simpl. now apply basename_without_sep.
  - simpl. destruct (Py.ends_with_sep d) eqn:He.
    + now apply split_append.
    + apply split_append; [apply ends_with_sep_append_sep|exact Hn].
Qed.

Lemma dirname_cases (p : string) :
  Py.dirname p = ""
  \/ (Py.all_sep (Py.dirname p) = true /\ Py.is_empty (Py.dirname p) = false)
  \/ (Py.all_sep (Py.dirname p) = false
      /\ Py.is_empty (Py.dirname p) = false
      /\ Py.ends_with_sep (Py.dirname p) = false
      /\ Py.rstrip_sep (Py.dirname p) = Py.dirname p).
Proof.
  unfold Py.dirname. set (h := Py.head p).
  destruct (Py.is_empty h) eqn:Hh.
  - left. simpl. now destruct h.
  - destruct (Py.all_sep h) eqn:Ha; simpl.
    + right; left. now split.
    + right; right.
      rewrite all_sep_rstrip, rstrip_sep_empty, rstrip_sep_no_trailing_sep,
        rstrip_sep_idempotent.
      now repeat split.
Qed.

(** The directory of [join(dirname(p), name)] is the directory of [p]. *)
Lemma dirname_join (p name : string) :
  Py.has_sep name = false ->
  Py.dirname (Py.join (Py.dirname p) name) = Py.dirname p.
Proof.
  intros Hn. rewrite (join_name _ name Hn).
  pose proof (dirname_cases p) as Hc.
  set (d := Py.dirname p) in *. clearbody d.
  destruct Hc as [->|[[Ha He]|(Ha & He & Ht & Hr)]].
  - simpl. unfold Py.dirname.
    now rewrite (head_without_sep name Hn).
  - pose proof (all_sep_ends_with_sep d Ha He) as Hs.
    rewrite He, Hs. simpl. unfold Py.dirname.
    destruct (split_append d name Hs Hn) as [-> _].
    now rewrite He, Ha.
  - rewrite He, Ht. simpl. unfold Py.dirname.
    destruct (split_append (d ++ "/") name (ends_with_sep_append_sep d) Hn)
      as [-> _].
    rewrite is_empty_append, all_sep_append, He, Ha. simpl.
    now rewrite rstrip_sep_append_sep.
Qed.

Lemma cut_at_last_dot_append (s : string) :
  fst (Py.cut_at_last_dot s) ++ snd (Py.cut_at_last_dot s) = s.
Proof.
  induction s as [|c s IH]; [reflexivity|].
  simpl. destruct (Py.has_dot s).
  - simpl. now rewrite IH.
  - destruct (c =? ".")%char; simpl; [reflexivity|].
    now rewrite append_nil_r.
Qed.

Lemma cut_at_last_dot_ext (s : string) :
  snd (Py.cut_at_last_dot s) = ""
  \/ exists r, snd (Py.cut_at_last_dot s) = String "." r.
Proof.
  induction s as [|c s IH]; [now left|].
  simpl. destruct (Py.has_dot s); [exact IH|].
  destruct (c =? ".")%char eqn:Hc; simpl; [|now left].
  right. apply Ascii.eqb_eq in Hc. subst c. now exists s.
Qed.

(** [splitext]: the root and the extension make up the path; the extension
    is empty or starts with a dot. *)
Lemma splitext_append (p : string) :
  fst (Py.splitext p) ++ snd (Py.splitext p) = p
  /\ (snd (Py.splitext p) = ""
      \/ exists r, snd (Py.splitext p) = String "." r).
Proof.
  unfold Py.splitext.
  destruct (Py.is_empty (snd (Py.cut_at_last_dot (Py.basename p)))
            || Py.all_dots (fst (Py.cut_at_last_dot (Py.basename p)))).
  - simpl. split; [apply append_nil_r|now left].
  - simpl. split.
    + rewrite append_assoc, cut_at_last_dot_append. apply head_basename.
    + apply cut_at_last_dot_ext.
Qed.

Lemma base_name_of_no_sep (file_path : string) :
  Py.has_sep (base_name_of file_path) = false.
Proof.
  unfold base_name_of.
  destruct (splitext_append (Py.basename file_path)) as [H _].
  pose proof (basename_no_sep file_path) as Hb.
  rewrite <- H, has_sep_append in Hb.
  now apply orb_false_iff in Hb.
Qed.

End Paths.

(** ** The file pickers *)

Lemma pipeline_saves lib pdf out dpi only :
  let run := pdf_to_vertical_image_with_gui_updates lib pdf out dpi only in
  saves (trace run) = [] \/ saves (trace run) = [out].
Proof.
  intros run.
  destruct (pipeline_cases lib pdf out dpi only)
    as [(m & H & Hr)|[(doc & H & H0 & Hr)|[(doc & e & H & H0 & He & Hr)
       |(doc & pages & H & H0 & Hp)]]].
  - left. unfold run. now rewrite Hr.
  - left. unfold run. now rewrite Hr.
  - left. unfold run. rewrite Hr, trace_pair.
    unfold saves. rewrite collect_app. fold saves.
    replace (saves (trace (select_pages doc only))) with (@nil string).
    2:{ symmetry. no_such_event is_scan_event. apply select_pages_events. }
    reflexivity.
  - unfold run, saves.
    rewrite (pipeline_collect _ _ _ out dpi _ _ _ H H0 Hp).
    fold saves.
    replace (saves (trace (select_pages doc only))) with (@nil string).
    2:{ symmetry. no_such_event is_scan_event. apply select_pages_events. }
    replace (saves (trace (render_pages _ _ _ _ _ _))) with (@nil string).
    2:{ symmetry. no_such_event is_loop_event. apply render_pages_events. }
    rewrite composite_and_save_eq.
    destruct (nonempty (page_images _)); [right|left; reflexivity].
    rewrite trace_pair. unfold saves. rewrite !collect_app. fold saves.
    rewrite saves_of_pastes.
    destruct (Image_save _ _ _); reflexivity.
Qed.

Lemma suggested_output_not_empty (dir name : string) :
  Py.is_empty name = false -> Py.is_empty (Py.join dir name) = false.
Proof.
  intros Hn. unfold Py.join.
  destruct (Py.starts_with_sep name); [exact Hn|].
  destruct (Py.is_empty dir || Py.ends_with_sep dir);
    rewrite !is_empty_append, ?Hn; simpl; apply andb_false_r.
Qed.

Lemma browse_pdf_chosen file_path app :
  Py.is_empty file_path = false ->
  snd (browse_pdf file_path app) =
  {| pdf_path_var := file_path;
     output_path_var :=
       Py.join (Py.dirname file_path)
         (base_name_of file_path ++ "_combined.png");
     dpi_var := dpi_var app;
     only_images_var := only_images_var app |}.
Proof. intros Hne. unfold browse_pdf. now rewrite Hne. Qed.

Lemma suggested_output_basename dir file_path :
  Py.basename (Py.join dir (base_name_of file_path ++ "_combined.png"))
  = (base_name_of file_path ++ "_combined.png")%string.
Proof.
  apply basename_join. rewrite has_sep_append.
  now rewrite base_name_of_no_sep.
Qed.

(** X20: after a PDF is chosen, the suggested output lies in the directory
    of the PDF and is named after it: the base name without its extension,
    then "_combined.png".  It is never the PDF itself, and the DPI and the
    filter are left as they were. *)
Theorem X20_browse_pdf_suggests_output file_path app :
  Py.is_empty file_path = false ->
  let app' := snd (browse_pdf file_path app) in
  let base_name := base_name_of file_path in
  pdf_path_var app' = file_path
  /\ Py.dirname (output_path_var app') = Py.dirname file_path
  /\ Py.basename (output_path_var app') = (base_name ++ "_combined.png")%string
  /\ (exists ext,
         Py.basename file_path = (base_name ++ ext)%string
         /\ (ext = ""%string \/ exists r, ext = String "." r))
  /\ output_path_var app' <> file_path
  /\ dpi_var app' = dpi_var app
  /\ only_images_var app' = only_images_var app.
Proof.
  intros Hne app' base_name.
  assert (Hsep : Py.has_sep (base_name ++ "_combined.png") = false).
  { rewrite has_sep_append. unfold base_name.
    now rewrite base_name_of_no_sep. }
  assert (Hout : output_path_var app' =
                 Py.join (Py.dirname file_path)
                   (base_name ++ "_combined.png")).
  { unfold app', browse_pdf. now rewrite Hne. }
  assert (Hbase : Py.basename (output_path_var app') =
                  (base_name ++ "_combined.png")%string).
  { rewrite Hout. now apply basename_join. }
  destruct (splitext_append (Py.basename file_path)) as [Hsplit Hext].
  fold (base_name_of file_path) in Hsplit. fold base_name in Hsplit.
  split; [unfold app', browse_pdf; now rewrite Hne|].
  split; [rewrite Hout; now apply dirname_join|].
  split; [exact Hbase|].
  split; [eexists; split; [symmetry; exact Hsplit|exact Hext]|].
  split.
  - intros Heq. rewrite Heq, <- Hsplit in Hbase.
    apply append_inv_head in Hbase.
    destruct Hext as [Hext|[r Hext]]; rewrite Hext in Hbase; discriminate.
  - unfold app', browse_pdf. rewrite Hne. split; reflexivity.
Qed.

Lemma X20_witness :
  let app' := snd (browse_pdf "/home/u/report.v2.pdf" __init__) in
  pdf_path_var app' = "/home/u/report.v2.pdf"%string
  /\ Py.dirname (output_path_var app') = "/home/u"%string
  /\ Py.basename (output_path_var app') = "report.v2_combined.png"%string.
Proof.
  destruct (X20_browse_pdf_suggests_output "/home/u/report.v2.pdf" __init__
              eq_refl) as (Hp & Hd & Hb & _).
  repeat split; assumption.
Defined.

(** X21: choosing a PDF makes the request complete: with a DPI entry that is
    a positive integer, the next click on Convert opens the chosen file,
    rasterizes at that DPI, and saves nowhere but to the suggested path. *)
Theorem X21_browse_then_convert lib file_path app dpi :
  Py.is_empty file_path = false ->
  parse_dpi (dpi_var app) = inr dpi ->
  let app' := snd (browse_pdf file_path app) in
  let click := start_conversion lib app' in
  opens (trace click) = [file_path]
  /\ Forall (fun zoom => zoom = zoom_of dpi) (zooms (trace click))
  /\ Forall (fun p => p = output_path_var app') (saves (trace click)).
Proof.
  intros Hne Hdpi app' click.
  assert (Happ : app' =
                 {| pdf_path_var := file_path;
                    output_path_var :=
                      Py.join (Py.dirname file_path)
                        (base_name_of file_path ++ "_combined.png");
                    dpi_var := dpi_var app;
                    only_images_var := only_images_var app |}).
  { unfold app', browse_pdf. now rewrite Hne. }
  assert (Hout : Py.is_empty (output_path_var app') = false).
  { rewrite Happ. simpl. apply suggested_output_not_empty.
    rewrite is_empty_append. apply andb_false_r. }
  assert (Hpdf : Py.is_empty (pdf_path_var app') = false)
    by now rewrite Happ.
  assert (Hdpi' : parse_dpi (dpi_var app') = inr dpi) by now rewrite Happ.
  pose proof (start_conversion_valid lib app' dpi Hpdf Hout Hdpi') as Hc.
  cbv zeta in Hc. unfold click. rewrite Hc, trace_pair.
  set (run := pdf_to_vertical_image_with_gui_updates _ _ _ _ _).
  split; [|split].
  - unfold opens. rewrite !collect_app. fold opens.
    unfold run. rewrite pipeline_opens. fold run.
    replace (pdf_path_var app') with file_path by now rewrite Happ.
    destruct (outcome run); reflexivity.
  - unfold zooms. rewrite !collect_app. fold zooms.
    replace (zooms (report (output_path_var app') (outcome run)))
      with (@nil Q) by (destruct (outcome run); reflexivity).
    simpl. rewrite app_nil_r. apply pipeline_zooms.
  - unfold saves. rewrite !collect_app. fold saves.
    replace (saves (report (output_path_var app') (outcome run)))
      with (@nil string) by (destruct (outcome run); reflexivity).
    simpl. rewrite app_nil_r.
    destruct (pipeline_saves lib (pdf_path_var app') (output_path_var app')
                dpi (only_images_var app')) as [Hs|Hs];
      fold run in Hs; rewrite Hs; repeat constructor.
Qed.

Lemma X21_witness :
  let app' := snd (browse_pdf "/home/u/doc.pdf" __init__) in
  let click :=
    start_conversion (Samples.library Samples.three_pages) app' in
  opens (trace click) = ["/home/u/doc.pdf"%string]
  /\ Forall (fun zoom => zoom = zoom_of 150) (zooms (trace click))
  /\ Forall (fun p => p = output_path_var app') (saves (trace click)).
Proof.
  apply (X21_browse_then_convert (Samples.library Samples.three_pages)
           "/home/u/doc.pdf" __init__ 150); reflexivity.
Defined.

(** X22: the Save As dialog proposes the file name of the suggested output:
    after a PDF is chosen, its initial file is the base name of the output
    path that [browse_pdf] filled in.  A cancelled dialog changes nothing; a
    chosen file replaces the output path only. *)
Theorem X22_save_as_offers_the_suggested_name file_path answer app :
  Py.is_empty file_path = false ->
  let app' := snd (browse_pdf file_path app) in
  hd_error (fst (browse_output answer app')) =
  Some (Ask_save_as_filename (Py.basename (output_path_var app')))
  /\ browse_output ""%string app' =
     ([Ask_save_as_filename (Py.basename (output_path_var app'))], app')
  /\ (Py.is_empty answer = false ->
      output_path_var (snd (browse_output answer app')) = answer
      /\ pdf_path_var (snd (browse_output answer app')) = file_path).
Proof.
  intros Hne app'.
  pose proof (browse_pdf_chosen file_path app Hne) as Happ.
  fold app' in Happ.
  assert (Hp : pdf_path_var app' = file_path) by now rewrite Happ.
  assert (Hb : Py.basename (output_path_var app') =
               (base_name_of file_path ++ "_combined.png")%string).
  { rewrite Happ. apply suggested_output_basename. }
  assert (Hinit : (if Py.is_empty (pdf_path_var app') then ""%string
                   else (base_name_of (pdf_path_var app')
                         ++ "_combined.png")%string)
                  = Py.basename (output_path_var app')).
  { rewrite Hp, Hne. symmetry. exact Hb. }
  unfold browse_output. rewrite Hinit. split; [|split].
  - destruct (Py.is_empty answer); reflexivity.
  - reflexivity.
  - intros Ha. rewrite Ha. simpl. split; [reflexivity|exact Hp].
Qed.

Lemma X22_witness :
  let app' := snd (browse_pdf "/home/u/doc.pdf" __init__) in
  hd_error (fst (browse_output "/tmp/long.png" app')) =
  Some (Ask_save_as_filename "doc_combined.png").
Proof.
  apply (X22_save_as_offers_the_suggested_name "/home/u/doc.pdf"
           "/tmp/long.png" __init__ eq_refl).
Defined.

(** ** Two more readings of the handler and the pipeline *)


Lemma announced_sizes_of_pastes ps : announced_sizes (map paste_event ps) = [].
Proof.
  no_such_event is_paste_event.
  apply Forall_forall. intros ev Hev. apply in_map_iff in Hev.
  destruct Hev as (p & <- & _). reflexivity.
Qed.

(** X24: the size announced in the status line, "Creating output image
    (WxH)...", is the size of the canvas that [Image.new] then creates; the
    announcement is made exactly when a canvas is created. *)
Theorem X24_announced_size_is_the_canvas_size lib pdf out dpi only :
  let run := pdf_to_vertical_image_with_gui_updates lib pdf out dpi only in
  canvases (trace run) =
  map (fun size => ("RGB"%string, fst size, snd size, white))
    (announced_sizes (trace run)).
Proof.
  intros run.
  destruct (pipeline_cases lib pdf out dpi only)
    as [(m & H & Hr)|[(doc & H & H0 & Hr)|[(doc & e & H & H0 & He & Hr)
       |(doc & pages & H & H0 & Hp)]]].
  - unfold run. rewrite Hr. reflexivity.
  - unfold run. rewrite Hr. reflexivity.
  - unfold run. rewrite Hr, trace_pair.
    unfold canvases, announced_sizes. rewrite !collect_app.
    fold canvases. fold announced_sizes.
    replace (canvases (trace (select_pages doc only)))
      with (@nil (string * nat * nat * Color)).
    2:{ symmetry. no_such_event is_scan_event. apply select_pages_events. }
    replace (announced_sizes (trace (select_pages doc only)))
      with (@nil (nat * nat)).
    2:{ symmetry. no_such_event is_scan_event. apply select_pages_events. }
    reflexivity.
  - unfold run, canvases, announced_sizes.
    rewrite !(pipeline_collect _ _ _ out dpi _ _ _ H H0 Hp).
    fold canvases. fold announced_sizes.
    replace (canvases (trace (select_pages doc only)))
      with (@nil (string * nat * nat * Color)).
    2:{ symmetry. no_such_event is_scan_event. apply select_pages_events. }
    replace (announced_sizes (trace (select_pages doc only)))
      with (@nil (nat * nat)).
    2:{ symmetry. no_such_event is_scan_event. apply select_pages_events. }
    replace (canvases (trace (render_pages _ _ _ _ _ _)))
      with (@nil (string * nat * nat * Color)).
    2:{ symmetry. no_such_event is_loop_event. apply render_pages_events. }
    replace (announced_sizes (trace (render_pages _ _ _ _ _ _)))
      with (@nil (nat * nat)).
    2:{ symmetry. no_such_event is_loop_event. apply render_pages_events. }
    rewrite composite_and_save_eq.
    destruct (nonempty (page_images _)); [|reflexivity].
    rewrite trace_pair.
    unfold canvases, announced_sizes. rewrite !collect_app.
    fold canvases. fold announced_sizes.
    rewrite canvases_of_pastes, announced_sizes_of_pastes.
    destruct (Image_save _ _ _); reflexivity.
Qed.
